(** * go-user-api: token lifecycle and user-cache discipline

    A shallow embedding of the token repository, the token service, the
    user repository and the two use cases of the Go service, and of the
    HTTP handlers and middleware in front of them, over an explicit
    model of the world they run against:

    - the key-value store (Redis, reached through [cache.Cache]) is a
      finite map from byte-string keys to entries with an optional
      absolute expiry instant;
    - the document store (the Mongo [users] collection, with the unique
      indexes that [scripts/mongo-init.js] creates) is the list of its
      documents in insertion order;
    - [time.Now()] reads a clock that is constant during one call and is
      advanced between calls; instants and durations are nanoseconds;
    - [uuid.New()] draws from a stream of identifiers;
    - every call that goes to a backend may fail: a schedule of flags,
      one per backend call, says which ones do;
    - zerolog messages and the writes that reached the key-value store
      are recorded, newest first.

    Third-party code (PASETO signing, bcrypt, the RFC 3339 range check of
    encoding/json) is taken as an interface, [Libraries]. *)

From Stdlib Require Import ZArith Ascii String Sorted.
From stdpp Require Import gmap strings list.

Local Open Scope Z_scope.

(** ** Errors and results *)

Inductive error : Type :=
  | ErrInvalidToken                       (* service.ErrInvalidToken *)
  | ErrExpiredToken                       (* service.ErrExpiredToken *)
  | ErrInvalidRefreshToken                (* usecase.ErrInvalidRefreshToken *)
  | ErrRefreshTokenExpired                (* usecase.ErrRefreshTokenExpired *)
  | ErrUserNotFound
  | ErrEmailAlreadyExists
  | ErrUsernameAlreadyExists
  | ErrInvalidCredentials
  | ErrDriver (what : string)             (* an error value made by a driver or library *)
  | ErrNew (msg : string)                 (* errors.New(msg) *)
  | ErrWrap (msg : string) (cause : error). (* fmt.Errorf(msg + ": %w", cause) *)

Inductive result (A : Type) : Type :=
  | Ok (a : A)
  | Err (e : error).
Arguments Ok {A} a.
Arguments Err {A} e.

#[global] Instance error_eq_dec : EqDecision error.
Proof. unfold EqDecision, Decision. decide equality; apply (decide_rel (=@{string})). Defined.

(** ** Entities (package entity) *)

(** A [uuid.UUID] is represented by its canonical text, the form in which
    every key and every claim of the program uses it. *)
Definition UUID : Type := string.
Definition uuid_Nil : UUID := "00000000-0000-0000-0000-000000000000".

(** [type TokenType string] *)
Definition TokenType : Type := string.
Definition AccessToken : TokenType := "access".
Definition RefreshToken : TokenType := "refresh".

Record TokenDetails : Type := mkTokenDetails {
  TokenID : UUID;
  td_UserID : UUID;
  td_TokenType : TokenType;
  Expiration : Z;
}.

Record AuthTokens : Type := mkAuthTokens {
  at_AccessToken : string;
  at_RefreshToken : string;
  ExpiresAt : Z;
}.

Record User : Type := mkUser {
  ID : UUID;
  Email : string;
  Username : string;
  Password : string;
  FirstName : string;
  LastName : string;
  Role : string;
  Status : string;
  CreatedAt : Z;
  UpdatedAt : Z;
}.

Definition UserStatusActive : string := "active".
Definition UserStatusInactive : string := "inactive".
Definition UserStatusBlocked : string := "blocked".
Definition UserRoleUser : string := "user".

Record LoginResponse : Type := mkLoginResponse {
  lr_User : User;
  lr_AuthTokens : AuthTokens;
}.

(** [service.TokenClaims] *)
Record TokenClaims : Type := mkTokenClaims {
  tc_TokenID : UUID;
  tc_UserID : UUID;
  tc_TokenType : TokenType;
}.

#[global] Instance TokenDetails_eq_dec : EqDecision TokenDetails.
Proof. solve_decision. Defined.
#[global] Instance TokenClaims_eq_dec : EqDecision TokenClaims.
Proof. solve_decision. Defined.
#[global] Instance User_eq_dec : EqDecision User.
Proof. solve_decision. Defined.

(** ** Third-party libraries *)

Class Libraries : Type := {
  (* paseto.NewV2().Sign(privateKey, claims, footer) *)
  paseto_Sign : string -> TokenClaims -> list (string * string) -> result string;
  (* paseto.NewV2().Verify(token, publicKey, &claims, &footer) *)
  paseto_Verify : string -> string -> result TokenClaims;
  (* bcrypt.GenerateFromPassword(password, cost) *)
  bcrypt_GenerateFromPassword : string -> Z -> result string;
  (* bcrypt.CompareHashAndPassword(hash, password) *)
  bcrypt_CompareHashAndPassword : string -> string -> result unit;
  (* the instants time.Time.MarshalJSON accepts (year within 0..9999) *)
  rfc3339_ok : Z -> bool;
}.

(** ** The world *)

(** What a cache entry holds: the JSON text of a value, represented by
    the value it encodes, or bytes that are not a JSON object. *)
Inductive payload : Type :=
  | JToken (d : TokenDetails)
  | JUser (u : User)
  | Raw (bytes : string).

Record entry : Type := mkEntry {
  value : payload;
  expires : option Z;
}.

(** zerolog levels. *)
Inductive level : Type := DebugLevel | InfoLevel | WarnLevel | ErrorLevel.

Inductive event : Type :=
  | Log (l : level) (msg : string)
  | CacheSet (key : string)
  | CacheDel (key : string).

(** What [db.GetInstance()] returns. *)
Inductive instance : Type := MongoClient | OtherInstance.

Record World : Type := mkWorld {
  redis : gmap string entry;
  users : list User;
  dbInstance : instance;
  clock : Z;
  entropy : nat -> UUID;
  drawn : nat;
  faults : list bool;
  events : list event;
}.

Definition with_redis (m : gmap string entry) (w : World) : World :=
  mkWorld m (users w) (dbInstance w) (clock w) (entropy w) (drawn w) (faults w) (events w).
Definition with_users (us : list User) (w : World) : World :=
  mkWorld (redis w) us (dbInstance w) (clock w) (entropy w) (drawn w) (faults w) (events w).
Definition with_clock (t : Z) (w : World) : World :=
  mkWorld (redis w) (users w) (dbInstance w) t (entropy w) (drawn w) (faults w) (events w).
Definition with_drawn (n : nat) (w : World) : World :=
  mkWorld (redis w) (users w) (dbInstance w) (clock w) (entropy w) n (faults w) (events w).
Definition with_faults (fs : list bool) (w : World) : World :=
  mkWorld (redis w) (users w) (dbInstance w) (clock w) (entropy w) (drawn w) fs (events w).
Definition with_events (es : list event) (w : World) : World :=
  mkWorld (redis w) (users w) (dbInstance w) (clock w) (entropy w) (drawn w) (faults w) es.

(** Code that talks to the world: a state-passing computation. Go's
    [(value, error)] returns are [result]s inside it. *)
Definition M (A : Type) : Type := World -> A * World.

#[global] Instance M_ret : MRet M := fun A a w => (a, w).
#[global] Instance M_bind : MBind M :=
  fun A B f m w => let '(a, w1) := m w in f a w1.

Definition log (l : level) (msg : string) : M unit :=
  fun w => (tt, with_events (Log l msg :: events w) w).

(** The next flag of the fault schedule; an exhausted schedule means the
    backends answer from now on. *)
Definition fault : M bool :=
  fun w => (hd false (faults w), with_faults (tl (faults w)) w).

Definition time_Now : M Z := fun w => (clock w, w).

(** [time.Duration] is an int64; [Time.Sub] saturates. *)
Definition maxDuration : Z := 9223372036854775807.
Definition minDuration : Z := -9223372036854775808.
Definition time_Sub (t u : Z) : Z := Z.max minDuration (Z.min maxDuration (t - u)).
Definition time_Until (t : Z) : M Z := now ← time_Now; mret (time_Sub t now).

Definition time_Minute : Z := 60 * 1000000000.

Definition uuid_New : M UUID :=
  fun w => (entropy w (drawn w), with_drawn (S (drawn w)) w).

(** ** The key-value store behind [cache.Cache] (RedisCache) *)

Module cache.

(** go-redis: [const KeepTTL = -1]. *)
Definition KeepTTL : Z := -1.

Definition live (now : Z) (e : entry) : bool :=
  match expires e with
  | None => true
  | Some t => bool_decide (now < t)
  end.

(** What the store holds under [key] at instant [now]. *)
Definition lookup_live (m : gmap string entry) (now : Z) (key : string) : option entry :=
  match m !! key with
  | Some e => if live now e then Some e else None
  | None => None
  end.

(** The expiry instant go-redis gives a key written with [expiration]:
    a positive duration counts from now, [KeepTTL] keeps what the key
    has, anything else means no expiry. (The store counts in whole
    milliseconds; that rounding is left out.) *)
Definition expiry (m : gmap string entry) (now : Z) (key : string) (expiration : Z) : option Z :=
  if decide (0 < expiration) then Some (now + expiration)
  else if decide (expiration = KeepTTL) then lookup_live m now key ≫= expires
  else None.

Definition Get (key : string) : M (result (option payload)) :=
  failed ← fault;
  if failed : bool then mret (Err (ErrDriver "redis"))
  else fun w => (Ok (option_map value (lookup_live (redis w) (clock w) key)), w).

Definition Set_ (key : string) (v : payload) (expiration : Z) : M (result unit) :=
  failed ← fault;
  if failed : bool then mret (Err (ErrDriver "redis"))
  else fun w =>
    let e := mkEntry v (expiry (redis w) (clock w) key expiration) in
    (Ok tt, with_events (CacheSet key :: events w) (with_redis (<[key := e]> (redis w)) w)).

Definition Delete (key : string) : M (result unit) :=
  failed ← fault;
  if failed : bool then mret (Err (ErrDriver "redis"))
  else fun w =>
    (Ok tt, with_events (CacheDel key :: events w) (with_redis (delete key (redis w)) w)).

End cache.

(** ** The [users] collection of the document store *)

Module mongo.

Definition by_id (id : UUID) (u : User) : bool := bool_decide (ID u = id).
Definition by_email (email : string) (u : User) : bool := bool_decide (Email u = email).
Definition by_username (username : string) (u : User) : bool :=
  bool_decide (Username u = username).

(** A document that another document's [_id], or one of the unique
    indexes on [email] and [username], rejects. *)
Definition duplicate (u : User) (us : list User) : bool :=
  existsb (fun v => by_id (ID u) v || by_email (Email u) v || by_username (Username u) v) us.

Fixpoint update_first (id : UUID) (f : User -> User) (us : list User) : list User :=
  match us with
  | [] => []
  | v :: rest => if by_id id v then f v :: rest else v :: update_first id f rest
  end.

Fixpoint delete_first (id : UUID) (us : list User) : list User :=
  match us with
  | [] => []
  | v :: rest => if by_id id v then rest else v :: delete_first id rest
  end.

Definition GetInstance : M instance := fun w => (dbInstance w, w).

Definition FindOne (filter : User -> bool) : M (result (option User)) :=
  failed ← fault;
  if failed : bool then mret (Err (ErrDriver "mongo"))
  else fun w => (Ok (find filter (users w)), w).

Definition InsertOne (u : User) : M (result unit) :=
  failed ← fault;
  if failed : bool then mret (Err (ErrDriver "mongo"))
  else fun w =>
    if duplicate u (users w) then (Err (ErrDriver "E11000 duplicate key error"), w)
    else (Ok tt, with_users (users w ++ [u]) w).

(** Whether giving document [old] the indexed fields of [new] collides
    with another document of the collection. *)
Definition collides (id : UUID) (old new : User) (us : list User) : bool :=
  existsb (fun o => negb (by_id id o) &&
                    ((negb (by_email (Email new) old) && by_email (Email new) o) ||
                     (negb (by_username (Username new) old) && by_username (Username new) o)))
          us.

(** [UpdateOne] with filter [_id = id] and update [$set]: the first
    matching document is changed, unless a unique index forbids it; no
    match is not an error. *)
Definition UpdateOne (id : UUID) (f : User -> User) : M (result unit) :=
  failed ← fault;
  if failed : bool then mret (Err (ErrDriver "mongo"))
  else fun w =>
    match find (by_id id) (users w) with
    | None => (Ok tt, w)
    | Some v =>
      if collides id v (f v) (users w)
      then (Err (ErrDriver "E11000 duplicate key error"), w)
      else (Ok tt, with_users (update_first id f (users w)) w)
    end.

Definition DeleteOne (id : UUID) : M (result unit) :=
  failed ← fault;
  if failed : bool then mret (Err (ErrDriver "mongo"))
  else fun w => (Ok tt, with_users (delete_first id (users w)) w).

(** [Find] with the sort [created_at: -1]: newest first. Documents of
    equal [created_at] are kept in insertion order here; the server
    promises no order among them. *)
Fixpoint insert_desc (u : User) (sorted : list User) : list User :=
  match sorted with
  | [] => [u]
  | v :: rest =>
    if bool_decide (CreatedAt v <= CreatedAt u) then u :: v :: rest
    else v :: insert_desc u rest
  end.

Definition sort_desc (us : list User) : list User := foldr insert_desc [] us.

Definition CountDocuments : M (result Z) :=
  failed ← fault;
  if failed : bool then mret (Err (ErrDriver "mongo"))
  else fun w => (Ok (Z.of_nat (length (users w))), w).

(** [Find] with an empty filter and the options [SetLimit], [SetSkip]
    and the sort above. The server refuses a negative skip; a limit
    of zero is no limit, a negative one asks for that many documents
    in a single batch. *)
Definition Find (limit skip : Z) : M (result (list User)) :=
  failed ← fault;
  if failed : bool then mret (Err (ErrDriver "mongo"))
  else fun w =>
    if decide (skip < 0) then (Err (ErrDriver "Skip value must be non-negative"), w)
    else
      let rest := drop (Z.to_nat skip) (sort_desc (users w)) in
      (Ok (if decide (limit = 0) then rest else take (Z.to_nat (Z.abs limit)) rest), w).

End mongo.

(** ** encoding/json on the two cached types *)

Section json.
Context `{Libraries}.

(** The zero [time.Time] (January 1, year 1), in nanoseconds from the
    Unix epoch. *)
Definition zeroTime : Z := -62135596800 * 1000000000.

Definition zeroTokenDetails : TokenDetails := mkTokenDetails uuid_Nil uuid_Nil EmptyString zeroTime.
Definition zeroUser : User := mkUser uuid_Nil EmptyString EmptyString EmptyString EmptyString EmptyString
       EmptyString EmptyString zeroTime zeroTime.

Definition json_Marshal_TokenDetails (d : TokenDetails) : result payload :=
  if rfc3339_ok (Expiration d) then Ok (JToken d)
  else Err (ErrDriver "Time.MarshalJSON: year outside of range [0,9999]").

(** [Password] carries the tag [json:"-"]: it is not written. *)
Definition json_Marshal_User (u : User) : result payload :=
  if rfc3339_ok (CreatedAt u) && rfc3339_ok (UpdatedAt u)
  then Ok (JUser (mkUser (ID u) (Email u) (Username u) EmptyString (FirstName u) (LastName u)
                         (Role u) (Status u) (CreatedAt u) (UpdatedAt u)))
  else Err (ErrDriver "Time.MarshalJSON: year outside of range [0,9999]").

(** Decoding an object of the other type finds none of its fields and
    leaves the zero value; bytes that are no object are an error. *)
Definition json_Unmarshal_TokenDetails (data : payload) : result TokenDetails :=
  match data with
  | JToken d => Ok d
  | JUser _ => Ok zeroTokenDetails
  | Raw _ => Err (ErrDriver "json: cannot unmarshal into Go value")
  end.

Definition json_Unmarshal_User (data : payload) : result User :=
  match data with
  | JUser u => Ok u
  | JToken _ => Ok zeroUser
  | Raw _ => Err (ErrDriver "json: cannot unmarshal into Go value")
  end.
End json.

(** ** package utils *)

Module utils.
Section utils.
Context `{Libraries}.

Definition HashPassword (password : string) : result string :=
  bcrypt_GenerateFromPassword password 12.

Definition CheckPasswordHash (password hash : string) : bool :=
  match bcrypt_CompareHashAndPassword hash password with
  | Ok _ => true
  | Err _ => false
  end.
End utils.
End utils.

(** ** entity.NewUser *)

Definition NewUser (email username password firstName lastName : string) : M User :=
  now ← time_Now;
  id ← uuid_New;
  mret (mkUser id email username password firstName lastName
               UserRoleUser UserStatusActive now now).

(** ** repository.tokenRepository *)

Module tokenRepository.
Section repo.
Context `{Libraries}.

Definition accessTokenPrefix : string := "access_token:".
Definition refreshTokenPrefix : string := "refresh_token:".
Definition userTokensPrefix : string := "user_tokens:".

Definition storeToken (details : TokenDetails) (prefix : string) : M (result unit) :=
  let key := prefix +:+ TokenID details in
  match json_Marshal_TokenDetails details with
  | Err err =>
    _ ← log ErrorLevel "Failed to marshal token details";
    mret (Err (ErrWrap "failed to marshal token details" err))
  | Ok data =>
    expiration ← time_Until (Expiration details);
    r ← cache.Set_ key data expiration;
    match r with
    | Err err =>
      _ ← log ErrorLevel "Failed to store token in cache";
      mret (Err (ErrWrap "failed to store token" err))
    | Ok _ =>
      let userTokensKey := userTokensPrefix +:+ td_UserID details in
      let userTokenData := td_TokenType details +:+ ":" +:+ TokenID details in
      r ← cache.Set_ (userTokensKey +:+ ":" +:+ userTokenData) (Raw "1") expiration;
      match r with
      | Err _ => _ ← log WarnLevel "Failed to add token to user tokens"; mret (Ok tt)
      | Ok _ => mret (Ok tt)
      end
    end
  end.

Definition StoreAccessToken (details : TokenDetails) : M (result unit) :=
  storeToken details accessTokenPrefix.

Definition StoreRefreshToken (details : TokenDetails) : M (result unit) :=
  storeToken details refreshTokenPrefix.

Definition GetToken (tokenID : UUID) (tokenType : TokenType)
  : M (result (option TokenDetails)) :=
  let prefix := if decide (tokenType = AccessToken) then accessTokenPrefix
                else refreshTokenPrefix in
  let key := prefix +:+ tokenID in
  r ← cache.Get key;
  match r with
  | Err err =>
    _ ← log ErrorLevel "Failed to get token from cache";
    mret (Err (ErrWrap "failed to get token" err))
  | Ok None => mret (Ok None)
  | Ok (Some data) =>
    match json_Unmarshal_TokenDetails data with
    | Err err =>
      _ ← log ErrorLevel "Failed to unmarshal token details";
      mret (Err (ErrWrap "failed to unmarshal token details" err))
    | Ok details => mret (Ok (Some details))
    end
  end.

Definition DeleteToken (tokenID : UUID) (tokenType : TokenType) : M (result unit) :=
  let prefix := if decide (tokenType = AccessToken) then accessTokenPrefix
                else refreshTokenPrefix in
  let key := prefix +:+ tokenID in
  r ← GetToken tokenID tokenType;
  match r with
  | Err _ | Ok None => mret (Ok tt)
  | Ok (Some token) =>
    r ← cache.Delete key;
    match r with
    | Err err =>
      _ ← log ErrorLevel "Failed to delete token from cache";
      mret (Err (ErrWrap "failed to delete token" err))
    | Ok _ =>
      let userTokensKey := userTokensPrefix +:+ td_UserID token in
      let userTokenData := tokenType +:+ ":" +:+ tokenID in
      r ← cache.Delete (userTokensKey +:+ ":" +:+ userTokenData);
      match r with
      | Err _ => _ ← log WarnLevel "Failed to remove token from user tokens"; mret (Ok tt)
      | Ok _ => mret (Ok tt)
      end
    end
  end.

Definition DeleteUserTokens (userID : UUID) : M (result unit) :=
  _ ← log DebugLevel "Deleting all user tokens";
  _ ← log WarnLevel "Deleting all user tokens - this is a simplified implementation";
  mret (Ok tt).
End repo.
End tokenRepository.

(** The two keys under which a token of kind [tokenType] is filed. *)
Definition primaryKey (tokenType : TokenType) (tokenID : UUID) : string :=
  (if decide (tokenType = AccessToken) then tokenRepository.accessTokenPrefix
   else tokenRepository.refreshTokenPrefix) +:+ tokenID.

Definition indexKey (userID : UUID) (tokenType : TokenType) (tokenID : UUID) : string :=
  (tokenRepository.userTokensPrefix +:+ userID) +:+ ":" +:+ tokenType +:+ ":" +:+ tokenID.

(** What the store holds after [storeToken details prefix] went through
    at instant [now]: the record under the primary key, the marker under
    the index key. *)
Definition stored (details : TokenDetails) (prefix : string) (now : Z)
    (m : gmap string entry) : gmap string entry :=
  let ttl := time_Sub (Expiration details) now in
  let pk := prefix +:+ TokenID details in
  let ik := indexKey (td_UserID details) (td_TokenType details) (TokenID details) in
  let m1 := <[pk := mkEntry (JToken details) (cache.expiry m now pk ttl)]> m in
  <[ik := mkEntry (Raw "1") (cache.expiry m1 now ik ttl)]> m1.

(** What a [User] is after a round through [json.Marshal] and
    [json.Unmarshal]: the password is gone. *)
Definition cachedCopy (u : User) : User :=
  mkUser (ID u) (Email u) (Username u) EmptyString (FirstName u) (LastName u)
         (Role u) (Status u) (CreatedAt u) (UpdatedAt u).

(** The three values of [entity.UserStatus] the program names. *)
Definition knownStatus (s : string) : Prop :=
  s = UserStatusActive \/ s = UserStatusInactive \/ s = UserStatusBlocked.

(** Classifying what a call left in the record of events. *)
Definition is_set (e : event) : bool :=
  match e with CacheSet _ => true | _ => false end.
Definition is_del (e : event) : bool :=
  match e with CacheDel _ => true | _ => false end.

(** The flag the [k]-th next backend call will draw. *)
Definition flag (k : nat) (fs : list bool) : bool := hd false (Nat.iter k tail fs).

(** ** service.tokenService *)

Record tokenService : Type := mkTokenService {
  publicKey : string;
  privateKey : string;
  accessDuration : Z;
  refreshDuration : Z;
}.

Module tokenService.
Section service.
Context `{Libraries}.

Definition createToken (s : tokenService) (details : TokenDetails) : result string :=
  let footer := [("kid", "key-1")] in
  let claims := mkTokenClaims (TokenID details) (td_UserID details) (td_TokenType details) in
  match paseto_Sign (privateKey s) claims footer with
  | Err err => Err (ErrWrap "failed to sign token" err)
  | Ok token => Ok token
  end.

Definition GenerateTokens (s : tokenService) (userID : UUID)
  : M (result (AuthTokens * TokenDetails * TokenDetails)) :=
  accessID ← uuid_New;
  accessNow ← time_Now;
  let accessTokenDetails :=
    mkTokenDetails accessID userID AccessToken (accessNow + accessDuration s) in
  refreshID ← uuid_New;
  refreshNow ← time_Now;
  let refreshTokenDetails :=
    mkTokenDetails refreshID userID RefreshToken (refreshNow + refreshDuration s) in
  match createToken s accessTokenDetails with
  | Err err => mret (Err (ErrWrap "failed to create access token" err))
  | Ok accessToken =>
    match createToken s refreshTokenDetails with
    | Err err => mret (Err (ErrWrap "failed to create refresh token" err))
    | Ok refreshToken =>
      mret (Ok (mkAuthTokens accessToken refreshToken (Expiration accessTokenDetails),
                accessTokenDetails, refreshTokenDetails))
    end
  end.

Definition ValidateToken (s : tokenService) (token : string) : result TokenClaims :=
  match paseto_Verify token (publicKey s) with
  | Err _ => Err ErrInvalidToken
  | Ok claims => Ok claims
  end.
End service.
End tokenService.

(** Go's [int] on a 64-bit platform: arithmetic wraps around. *)
Definition wrapInt (z : Z) : Z := (z + 2 ^ 63) mod 2 ^ 64 - 2 ^ 63.

(** ** repository.userRepository *)

Module userRepository.
Section repo.
Context `{Libraries}.

Definition userCacheKeyPrefix : string := "user:".
Definition userCacheTTL : Z := 30 * time_Minute.

Definition unsupported {A : Type} : M (result A) :=
  mret (Err (ErrNew "unsupported database type")).

(** *** The Mongo side *)

Definition createUserMongo (user : User) : M (result unit) :=
  r ← mongo.InsertOne user;
  match r with
  | Err err =>
    _ ← log ErrorLevel "Failed to create user in MongoDB";
    mret (Err (ErrWrap "failed to create user" err))
  | Ok _ => mret (Ok tt)
  end.

Definition getUserByIDMongo (id : UUID) : M (result (option User)) :=
  r ← mongo.FindOne (mongo.by_id id);
  match r with
  | Err err =>
    _ ← log ErrorLevel "Failed to get user from MongoDB";
    mret (Err (ErrWrap "failed to get user" err))
  | Ok user => mret (Ok user)
  end.

Definition getUserByEmailMongo (email : string) : M (result (option User)) :=
  r ← mongo.FindOne (mongo.by_email email);
  match r with
  | Err err =>
    _ ← log ErrorLevel "Failed to get user by email from MongoDB";
    mret (Err (ErrWrap "failed to get user by email" err))
  | Ok user => mret (Ok user)
  end.

Definition getUserByUsernameMongo (username : string) : M (result (option User)) :=
  r ← mongo.FindOne (mongo.by_username username);
  match r with
  | Err err =>
    _ ← log ErrorLevel "Failed to get user by username from MongoDB";
    mret (Err (ErrWrap "failed to get user by username" err))
  | Ok user => mret (Ok user)
  end.

Definition updateUserMongo (user : User) : M (result unit) :=
  let update (d : User) :=
    mkUser (ID d) (Email user) (Username user) (Password d) (FirstName user)
           (LastName user) (Role user) (Status user) (CreatedAt d) (UpdatedAt user) in
  r ← mongo.UpdateOne (ID user) update;
  match r with
  | Err err =>
    _ ← log ErrorLevel "Failed to update user in MongoDB";
    mret (Err (ErrWrap "failed to update user" err))
  | Ok _ => mret (Ok tt)
  end.

Definition deleteUserMongo (id : UUID) : M (result unit) :=
  r ← mongo.DeleteOne id;
  match r with
  | Err err =>
    _ ← log ErrorLevel "Failed to delete user from MongoDB";
    mret (Err (ErrWrap "failed to delete user" err))
  | Ok _ => mret (Ok tt)
  end.

Definition changePasswordMongo (id : UUID) (hashedPassword : string) : M (result unit) :=
  now ← time_Now;
  let update (d : User) :=
    mkUser (ID d) (Email d) (Username d) hashedPassword (FirstName d)
           (LastName d) (Role d) (Status d) (CreatedAt d) now in
  r ← mongo.UpdateOne id update;
  match r with
  | Err err =>
    _ ← log ErrorLevel "Failed to change password in MongoDB";
    mret (Err (ErrWrap "failed to change password" err))
  | Ok _ => mret (Ok tt)
  end.

Definition updateStatusMongo (id : UUID) (status : string) : M (result unit) :=
  now ← time_Now;
  let update (d : User) :=
    mkUser (ID d) (Email d) (Username d) (Password d) (FirstName d)
           (LastName d) (Role d) status (CreatedAt d) now in
  r ← mongo.UpdateOne id update;
  match r with
  | Err err =>
    _ ← log ErrorLevel "Failed to update status in MongoDB";
    mret (Err (ErrWrap "failed to update status" err))
  | Ok _ => mret (Ok tt)
  end.

(** *** The repository *)

Definition Create (user : User) : M (result unit) :=
  db ← mongo.GetInstance;
  match db with
  | MongoClient => createUserMongo user
  | OtherInstance => unsupported
  end.

Definition GetByID (id : UUID) : M (result (option User)) :=
  let cacheKey := userCacheKeyPrefix +:+ id in
  cached ← cache.Get cacheKey;
  let hit := match cached with
             | Ok (Some cachedData) =>
               match json_Unmarshal_User cachedData with
               | Ok user => Some user
               | Err _ => None
               end
             | _ => None
             end in
  match hit with
  | Some user => mret (Ok (Some user))
  | None =>
    db ← mongo.GetInstance;
    match db with
    | OtherInstance => unsupported
    | MongoClient =>
      r ← getUserByIDMongo id;
      match r with
      | Err dbErr => mret (Err dbErr)
      | Ok None => mret (Ok None)
      | Ok (Some user) =>
        match json_Marshal_User user with
        | Err _ => mret (Ok (Some user))
        | Ok userData =>
          r ← cache.Set_ cacheKey userData userCacheTTL;
          match r with
          | Err _ => _ ← log WarnLevel "Failed to cache user"; mret (Ok (Some user))
          | Ok _ => mret (Ok (Some user))
          end
        end
      end
    end
  end.

Definition GetByEmail (email : string) : M (result (option User)) :=
  db ← mongo.GetInstance;
  match db with
  | MongoClient => getUserByEmailMongo email
  | OtherInstance => unsupported
  end.

Definition GetByUsername (username : string) : M (result (option User)) :=
  db ← mongo.GetInstance;
  match db with
  | MongoClient => getUserByUsernameMongo username
  | OtherInstance => unsupported
  end.

Definition Update (user : User) : M (result unit) :=
  db ← mongo.GetInstance;
  match db with
  | OtherInstance => unsupported
  | MongoClient =>
    r ← updateUserMongo user;
    match r with
    | Err err => mret (Err err)
    | Ok _ =>
      let cacheKey := userCacheKeyPrefix +:+ ID user in
      match json_Marshal_User user with
      | Err _ => mret (Ok tt)
      | Ok userData =>
        r ← cache.Set_ cacheKey userData userCacheTTL;
        match r with
        | Err _ => _ ← log WarnLevel "Failed to update user in cache"; mret (Ok tt)
        | Ok _ => mret (Ok tt)
        end
      end
    end
  end.

Definition Delete (id : UUID) : M (result unit) :=
  db ← mongo.GetInstance;
  match db with
  | OtherInstance => unsupported
  | MongoClient =>
    r ← deleteUserMongo id;
    match r with
    | Err err => mret (Err err)
    | Ok _ =>
      let cacheKey := userCacheKeyPrefix +:+ id in
      r ← cache.Delete cacheKey;
      match r with
      | Err _ => _ ← log WarnLevel "Failed to delete user from cache"; mret (Ok tt)
      | Ok _ => mret (Ok tt)
      end
    end
  end.

Definition ChangePassword (id : UUID) (hashedPassword : string) : M (result unit) :=
  db ← mongo.GetInstance;
  match db with
  | OtherInstance => unsupported
  | MongoClient =>
    r ← changePasswordMongo id hashedPassword;
    match r with
    | Err err => mret (Err err)
    | Ok _ =>
      let cacheKey := userCacheKeyPrefix +:+ id in
      r ← cache.Delete cacheKey;
      match r with
      | Err _ =>
        _ ← log WarnLevel "Failed to invalidate user cache after password change";
        mret (Ok tt)
      | Ok _ => mret (Ok tt)
      end
    end
  end.

Definition UpdateStatus (id : UUID) (status : string) : M (result unit) :=
  db ← mongo.GetInstance;
  match db with
  | OtherInstance => unsupported
  | MongoClient =>
    r ← updateStatusMongo id status;
    match r with
    | Err err => mret (Err err)
    | Ok _ =>
      let cacheKey := userCacheKeyPrefix +:+ id in
      r ← cache.Delete cacheKey;
      match r with
      | Err _ =>
        _ ← log WarnLevel "Failed to invalidate user cache after status update";
        mret (Ok tt)
      | Ok _ => mret (Ok tt)
      end
    end
  end.
Definition listUsersMongo (limit offset : Z) : M (result (list User * Z)) :=
  r ← mongo.CountDocuments;
  match r with
  | Err countErr =>
    _ ← log ErrorLevel "Failed to count users in MongoDB";
    mret (Err (ErrWrap "failed to count users" countErr))
  | Ok total =>
    r ← mongo.Find limit offset;
    match r with
    | Err err =>
      _ ← log ErrorLevel "Failed to list users from MongoDB";
      mret (Err (ErrWrap "failed to list users" err))
    | Ok users => mret (Ok (users, total))
    end
  end.

Definition List (page limit : Z) : M (result (list User * Z)) :=
  let offset := wrapInt ((page - 1) * limit) in
  db ← mongo.GetInstance;
  match db with
  | MongoClient => listUsersMongo limit offset
  | OtherInstance => unsupported
  end.
End repo.
End userRepository.

(** ** usecase.userUseCase *)

Module userUseCase.
Section usecase.
Context `{Libraries}.

Definition Register (email username password firstName lastName : string)
  : M (result User) :=
  r ← userRepository.GetByEmail email;
  match r with
  | Ok (Some _) => mret (Err ErrEmailAlreadyExists)
  | _ =>
    r ← userRepository.GetByUsername username;
    match r with
    | Ok (Some _) => mret (Err ErrUsernameAlreadyExists)
    | _ =>
      match utils.HashPassword password with
      | Err err => mret (Err err)
      | Ok hashedPassword =>
        user ← NewUser email username hashedPassword firstName lastName;
        r ← userRepository.Create user;
        match r with
        | Err err => mret (Err err)
        | Ok _ => mret (Ok user)
        end
      end
    end
  end.

Definition GetByID (id : UUID) : M (result User) :=
  r ← userRepository.GetByID id;
  match r with
  | Err err => mret (Err err)
  | Ok None => mret (Err ErrUserNotFound)
  | Ok (Some user) => mret (Ok user)
  end.

Definition Update (id : UUID) (firstName lastName : string) : M (result User) :=
  r ← userRepository.GetByID id;
  match r with
  | Err err => mret (Err err)
  | Ok None => mret (Err ErrUserNotFound)
  | Ok (Some user) =>
    now ← time_Now;
    let user := mkUser (ID user) (Email user) (Username user) (Password user)
                       firstName lastName (Role user) (Status user)
                       (CreatedAt user) now in
    r ← userRepository.Update user;
    match r with
    | Err err => mret (Err err)
    | Ok _ => mret (Ok user)
    end
  end.

Definition Delete (id : UUID) : M (result unit) :=
  r ← userRepository.GetByID id;
  match r with
  | Err err => mret (Err err)
  | Ok None => mret (Err ErrUserNotFound)
  | Ok (Some _) => userRepository.Delete id
  end.

Definition ChangePassword (id : UUID) (oldPassword newPassword : string)
  : M (result unit) :=
  r ← userRepository.GetByID id;
  match r with
  | Err err => mret (Err err)
  | Ok None => mret (Err ErrUserNotFound)
  | Ok (Some user) =>
    if negb (utils.CheckPasswordHash oldPassword (Password user))
    then mret (Err ErrInvalidCredentials)
    else
      match utils.HashPassword newPassword with
      | Err err => mret (Err err)
      | Ok hashedPassword => userRepository.ChangePassword id hashedPassword
      end
  end.

Definition UpdateStatus (id : UUID) (status : string) : M (result unit) :=
  r ← userRepository.GetByID id;
  match r with
  | Err err => mret (Err err)
  | Ok None => mret (Err ErrUserNotFound)
  | Ok (Some _) =>
    if bool_decide (status ≠ UserStatusActive) &&
       bool_decide (status ≠ UserStatusInactive) &&
       bool_decide (status ≠ UserStatusBlocked)
    then mret (Err (ErrNew "invalid status"))
    else userRepository.UpdateStatus id status
  end.

Definition Authenticate (email password : string) : M (result User) :=
  r ← userRepository.GetByEmail email;
  match r with
  | Err err => mret (Err err)
  | Ok None => mret (Err ErrInvalidCredentials)
  | Ok (Some user) =>
    if bool_decide (Status user ≠ UserStatusActive)
    then mret (Err (ErrNew "user account is not active"))
    else if negb (utils.CheckPasswordHash password (Password user))
    then mret (Err ErrInvalidCredentials)
    else mret (Ok user)
  end.
Definition List (page limit : Z) : M (result (list User * Z)) :=
  userRepository.List page limit.
End usecase.
End userUseCase.

(** ** usecase.authUseCase *)

Module authUseCase.
Section usecase.
Context `{Libraries}.

(** The receiver's [tokenService]; its two repositories are the world. *)
Variable tokenService : tokenService.

Definition Login (email password : string) : M (result LoginResponse) :=
  r ← userRepository.GetByEmail email;
  match r with
  | Err err => mret (Err err)
  | Ok None => mret (Err ErrInvalidCredentials)
  | Ok (Some user) =>
    if negb (utils.CheckPasswordHash password (Password user))
    then mret (Err ErrInvalidCredentials)
    else
      r ← tokenService.GenerateTokens tokenService (ID user);
      match r with
      | Err err =>
        _ ← log ErrorLevel "Failed to generate tokens";
        mret (Err (ErrWrap "failed to generate tokens" err))
      | Ok (tokens, accessDetails, refreshDetails) =>
        r ← tokenRepository.StoreAccessToken accessDetails;
        match r with
        | Err err =>
          _ ← log ErrorLevel "Failed to store access token";
          mret (Err (ErrWrap "failed to store access token" err))
        | Ok _ =>
          r ← tokenRepository.StoreRefreshToken refreshDetails;
          match r with
          | Err err =>
            _ ← log ErrorLevel "Failed to store refresh token";
            mret (Err (ErrWrap "failed to store refresh token" err))
          | Ok _ => mret (Ok (mkLoginResponse user tokens))
          end
        end
      end
  end.

Definition Logout (tokenID : UUID) : M (result unit) :=
  r ← tokenRepository.DeleteToken tokenID AccessToken;
  match r with
  | Err err =>
    _ ← log ErrorLevel "Failed to delete access token";
    mret (Err (ErrWrap "failed to delete access token" err))
  | Ok _ => mret (Ok tt)
  end.

Definition RefreshToken (refreshToken : string) : M (result AuthTokens) :=
  match tokenService.ValidateToken tokenService refreshToken with
  | Err _ => mret (Err ErrInvalidRefreshToken)
  | Ok claims =>
    if bool_decide (tc_TokenType claims ≠ RefreshToken)
    then mret (Err ErrInvalidRefreshToken)
    else
      r ← tokenRepository.GetToken (tc_TokenID claims) RefreshToken;
      match r with
      | Err err =>
        _ ← log ErrorLevel "Failed to get refresh token";
        mret (Err (ErrWrap "failed to get refresh token" err))
      | Ok None => mret (Err ErrInvalidRefreshToken)
      | Ok (Some _) =>
        r ← tokenService.GenerateTokens tokenService (tc_UserID claims);
        match r with
        | Err err =>
          _ ← log ErrorLevel "Failed to generate new tokens";
          mret (Err (ErrWrap "failed to generate new tokens" err))
        | Ok (tokens, accessDetails, refreshDetails) =>
          r ← tokenRepository.StoreAccessToken accessDetails;
          match r with
          | Err err =>
            _ ← log ErrorLevel "Failed to store new access token";
            mret (Err (ErrWrap "failed to store new access token" err))
          | Ok _ =>
            r ← tokenRepository.StoreRefreshToken refreshDetails;
            match r with
            | Err err =>
              _ ← log ErrorLevel "Failed to store new refresh token";
              mret (Err (ErrWrap "failed to store new refresh token" err))
            | Ok _ =>
              r ← tokenRepository.DeleteToken (tc_TokenID claims) RefreshToken;
              match r with
              | Err _ =>
                _ ← log WarnLevel "Failed to delete old refresh token";
                mret (Ok tokens)
              | Ok _ => mret (Ok tokens)
              end
            end
          end
        end
      end
  end.

Definition LogoutAll (userID : UUID) : M (result unit) :=
  r ← tokenRepository.DeleteUserTokens userID;
  match r with
  | Err err =>
    _ ← log ErrorLevel "Failed to delete all user tokens";
    mret (Err (ErrWrap "failed to delete all user tokens" err))
  | Ok _ => mret (Ok tt)
  end.

Definition ValidateToken (token : string) : M (result UUID) :=
  match tokenService.ValidateToken tokenService token with
  | Err _ => mret (Err ErrInvalidToken)
  | Ok claims =>
    if bool_decide (tc_TokenType claims ≠ AccessToken)
    then mret (Err ErrInvalidToken)
    else
      r ← tokenRepository.GetToken (tc_TokenID claims) AccessToken;
      match r with
      | Err err =>
        _ ← log ErrorLevel "Failed to get access token";
        mret (Err (ErrWrap "failed to get access token" err))
      | Ok None => mret (Err ErrInvalidToken)
      | Ok (Some _) => mret (Ok (tc_UserID claims))
      end
  end.
End usecase.
End authUseCase.

(** ** fiber: requests as the handlers read them, and what they answer *)

#[warnings="-register-all"] Inductive jvalue : Type :=
  | JString (s : string)
  | JNumber (n : Z)
  | JTime (t : Z)
  | JArray (items : list (list (string * jvalue)))
  | JObject (fields : list (string * jvalue)).

(** [fiber.Map] *)
Definition fiber_Map : Type := list (string * jvalue).

(** [c.Status(code).JSON(body)] *)
Record Response : Type := mkResponse {
  StatusCode : Z;
  Body : fiber_Map;
}.

Definition StatusOK : Z := 200.
Definition StatusCreated : Z := 201.
Definition StatusBadRequest : Z := 400.
Definition StatusUnauthorized : Z := 401.
Definition StatusForbidden : Z := 403.
Definition StatusNotFound : Z := 404.
Definition StatusConflict : Z := 409.
Definition StatusInternalServerError : Z := 500.

Definition failure (code : Z) (msg : string) : Response :=
  mkResponse code [("error", JString msg)].

Definition message (code : Z) (msg : string) : Response :=
  mkResponse code [("message", JString msg)].

(** [c.Locals] holds values of any type under string keys, a
    [gmap string local] here; the program stores identifiers and reads
    identifiers and strings. *)
Inductive local : Type :=
  | LocalUUID (u : UUID)
  | LocalString (s : string).

(** What a handler in a chain does: answer, or [c.Next()]. *)
Inductive outcome : Type :=
  | Respond (r : Response)
  | Next (locals : gmap string local).

(** [errors.Is]: the target is the error or one of the errors it wraps. *)
Fixpoint errors_Is (err target : error) : bool :=
  if decide (err = target) then true
  else match err with
       | ErrWrap _ cause => errors_Is cause target
       | _ => false
       end.

(** [strings.Split(s, " ")] *)
Fixpoint strings_Split (s : string) : list string :=
  match s with
  | EmptyString => [EmptyString]
  | String c rest =>
    if decide (c = " "%char) then EmptyString :: strings_Split rest
    else match strings_Split rest with
         | part :: parts => String c part :: parts
         | [] => [String c EmptyString]
         end
  end.

(** ** package middleware *)

Module middleware.
Section middleware.
Context `{Libraries}.
Variable tokenService : tokenService.

Definition AuthMiddleware (authHeader : string) (locals : gmap string local) : M outcome :=
  if decide (authHeader = EmptyString)
  then mret (Respond (failure StatusUnauthorized "Authorization header is required"))
  else
    match strings_Split authHeader with
    | [scheme; token] =>
      if decide (scheme ≠ "Bearer")
      then mret (Respond (failure StatusUnauthorized
                            "Invalid authorization format, expected 'Bearer {token}'"))
      else
        r ← authUseCase.ValidateToken tokenService token;
        match r with
        | Err err =>
          _ ← log ErrorLevel "Failed to validate token";
          if errors_Is err ErrInvalidToken || errors_Is err ErrExpiredToken
          then mret (Respond (failure StatusUnauthorized "Invalid or expired token"))
          else mret (Respond (failure StatusInternalServerError "Failed to validate token"))
        | Ok userID =>
          tokenID ← uuid_New;
          mret (Next (<["token_id" := LocalUUID tokenID]>
                        (<["user_id" := LocalUUID userID]> locals)))
        end
    | _ =>
      mret (Respond (failure StatusUnauthorized
                       "Invalid authorization format, expected 'Bearer {token}'"))
    end.

Definition RoleMiddleware (roles : list string) (locals : gmap string local) : outcome :=
  match locals !! "user_role" with
  | Some (LocalString role) =>
    if existsb (fun r => bool_decide (r = role)) roles then Next locals
    else Respond (failure StatusForbidden "Insufficient permissions")
  | _ => Respond (failure StatusForbidden "Access denied")
  end.
End middleware.
End middleware.

(** ** handler.AuthHandler *)

(** A request body after [c.BodyParser]: [None] when it does not parse. *)
Record Credentials : Type := mkCredentials {
  cr_Email : string;
  cr_Password : string;
}.

Record Registration : Type := mkRegistration {
  rg_Email : string;
  rg_Username : string;
  rg_Password : string;
  rg_FirstName : string;
  rg_LastName : string;
}.

(** The seven fields every user answer starts with. *)
Definition userFields (u : User) : fiber_Map :=
  [("id", JString (ID u)); ("email", JString (Email u)); ("username", JString (Username u));
   ("first_name", JString (FirstName u)); ("last_name", JString (LastName u));
   ("role", JString (Role u)); ("status", JString (Status u))].

Definition tokenFields (t : AuthTokens) : fiber_Map :=
  [("token_type", JString "Bearer"); ("access_token", JString (at_AccessToken t));
   ("refresh_token", JString (at_RefreshToken t)); ("expires_at", JTime (ExpiresAt t))].

Module AuthHandler.
Section handler.
Context `{Libraries}.
Variable tokenService : tokenService.

Definition Login (body : option Credentials) : M Response :=
  match body with
  | None =>
    _ ← log ErrorLevel "Failed to parse login request body";
    mret (failure StatusBadRequest "Invalid request body")
  | Some req =>
    if decide (cr_Email req = EmptyString \/ cr_Password req = EmptyString)
    then mret (failure StatusBadRequest "Email and password are required")
    else
      r ← authUseCase.Login tokenService (cr_Email req) (cr_Password req);
      match r with
      | Err err =>
        _ ← log ErrorLevel "Failed to login user";
        if errors_Is err ErrInvalidCredentials
        then mret (failure StatusUnauthorized "Invalid credentials")
        else mret (failure StatusInternalServerError "Failed to login user")
      | Ok response =>
        mret (mkResponse StatusOK
                (("user", JObject (userFields (lr_User response)))
                 :: tokenFields (lr_AuthTokens response)))
      end
  end.

Definition RefreshToken (body : option string) : M Response :=
  match body with
  | None =>
    _ ← log ErrorLevel "Failed to parse refresh token request body";
    mret (failure StatusBadRequest "Invalid request body")
  | Some refreshToken =>
    if decide (refreshToken = EmptyString)
    then mret (failure StatusBadRequest "Refresh token is required")
    else
      r ← authUseCase.RefreshToken tokenService refreshToken;
      match r with
      | Err err =>
        _ ← log ErrorLevel "Failed to refresh token";
        if errors_Is err ErrInvalidRefreshToken || errors_Is err ErrRefreshTokenExpired
        then mret (failure StatusUnauthorized "Invalid or expired refresh token")
        else mret (failure StatusInternalServerError "Failed to refresh token")
      | Ok tokens => mret (mkResponse StatusOK (tokenFields tokens))
      end
  end.

Definition Logout (locals : gmap string local) : M Response :=
  match locals !! "token_id" with
  | Some (LocalUUID tokenID) =>
    r ← authUseCase.Logout tokenID;
    match r with
    | Err _ =>
      _ ← log ErrorLevel "Failed to logout user";
      mret (failure StatusInternalServerError "Failed to logout")
    | Ok _ => mret (message StatusOK "Successfully logged out")
    end
  | _ =>
    _ ← log ErrorLevel "Token ID not found in context";
    mret (failure StatusInternalServerError "Failed to logout")
  end.

Definition LogoutAll (locals : gmap string local) : M Response :=
  match locals !! "user_id" with
  | Some (LocalUUID userID) =>
    r ← authUseCase.LogoutAll userID;
    match r with
    | Err _ =>
      _ ← log ErrorLevel "Failed to logout user from all devices";
      mret (failure StatusInternalServerError "Failed to logout from all devices")
    | Ok _ => mret (message StatusOK "Successfully logged out from all devices")
    end
  | _ =>
    _ ← log ErrorLevel "User ID not found in context";
    mret (failure StatusInternalServerError "Failed to logout from all devices")
  end.

(** A protected route of [RegisterRoutes]: the middleware, then the
    handler when the middleware calls [c.Next()]. The middleware that
    [router.Setup] installs before it stores keys of its own and none
    of [user_id], [token_id], [user_role]; the chain starts from no
    locals. *)
Definition protected (handler : gmap string local -> M Response) (authHeader : string) : M Response :=
  o ← middleware.AuthMiddleware tokenService authHeader ∅;
  match o with
  | Respond r => mret r
  | Next locals => handler locals
  end.

(** POST /auth/logout and POST /auth/logout-all *)
Definition postLogout : string -> M Response := protected Logout.
Definition postLogoutAll : string -> M Response := protected LogoutAll.
End handler.
End AuthHandler.

(** ** handler.UserHandler *)

Module UserHandler.
Section handler.
Context `{Libraries}.

(** [uuid.Parse] *)
Variable uuid_Parse : string -> result UUID.

Definition Register (body : option Registration) : M Response :=
  match body with
  | None =>
    _ ← log ErrorLevel "Failed to parse register request body";
    mret (failure StatusBadRequest "Invalid request body")
  | Some req =>
    if decide (rg_Email req = EmptyString \/ rg_Username req = EmptyString \/
               rg_Password req = EmptyString)
    then mret (failure StatusBadRequest "Email, username, and password are required")
    else
      r ← userUseCase.Register (rg_Email req) (rg_Username req) (rg_Password req)
                               (rg_FirstName req) (rg_LastName req);
      match r with
      | Err err =>
        _ ← log ErrorLevel "Failed to register user";
        if errors_Is err ErrEmailAlreadyExists
        then mret (failure StatusConflict "Email already exists")
        else if errors_Is err ErrUsernameAlreadyExists
        then mret (failure StatusConflict "Username already exists")
        else mret (failure StatusInternalServerError "Failed to register user")
      | Ok user =>
        mret (mkResponse StatusCreated
                (userFields user ++ [("created_at", JTime (CreatedAt user))]))
      end
  end.

Definition Login (body : option Credentials) : M Response :=
  match body with
  | None =>
    _ ← log ErrorLevel "Failed to parse login request body";
    mret (failure StatusBadRequest "Invalid request body")
  | Some req =>
    if decide (cr_Email req = EmptyString \/ cr_Password req = EmptyString)
    then mret (failure StatusBadRequest "Email and password are required")
    else
      r ← userUseCase.Authenticate (cr_Email req) (cr_Password req);
      match r with
      | Err err =>
        _ ← log ErrorLevel "Failed to authenticate user";
        if errors_Is err ErrInvalidCredentials
        then mret (failure StatusUnauthorized "Invalid credentials")
        else mret (failure StatusInternalServerError "Failed to authenticate user")
      | Ok user => mret (mkResponse StatusOK (userFields user))
      end
  end.

(** The path parameter [id], parsed; what every route on [/:id]
    begins with. *)
Definition withID (idParam : string) (k : UUID -> M Response) : M Response :=
  if decide (idParam = EmptyString)
  then mret (failure StatusBadRequest "User ID is required")
  else
    match uuid_Parse idParam with
    | Err _ =>
      _ ← log ErrorLevel "Invalid user ID format";
      mret (failure StatusBadRequest "Invalid user ID format")
    | Ok id => k id
    end.

(** The use case returns a user whenever it returns no error, so the
    handler's test [user == nil] after the error test is never true. *)
Definition GetByID (idParam : string) : M Response :=
  withID idParam (fun id =>
    r ← userUseCase.GetByID id;
    match r with
    | Err _ =>
      _ ← log ErrorLevel "Failed to get user";
      mret (failure StatusInternalServerError "Failed to get user")
    | Ok user =>
      mret (mkResponse StatusOK
              (userFields user ++ [("created_at", JTime (CreatedAt user));
                                   ("updated_at", JTime (UpdatedAt user))]))
    end).

Definition Update (idParam : string) (body : option (string * string)) : M Response :=
  withID idParam (fun id =>
    match body with
    | None =>
      _ ← log ErrorLevel "Failed to parse update request body";
      mret (failure StatusBadRequest "Invalid request body")
    | Some (firstName, lastName) =>
      r ← userUseCase.Update id firstName lastName;
      match r with
      | Err err =>
        _ ← log ErrorLevel "Failed to update user";
        if errors_Is err ErrUserNotFound
        then mret (failure StatusNotFound "User not found")
        else mret (failure StatusInternalServerError "Failed to update user")
      | Ok user =>
        mret (mkResponse StatusOK
                (userFields user ++ [("updated_at", JTime (UpdatedAt user))]))
      end
    end).

Definition Delete (idParam : string) : M Response :=
  withID idParam (fun id =>
    r ← userUseCase.Delete id;
    match r with
    | Err err =>
      _ ← log ErrorLevel "Failed to delete user";
      if errors_Is err ErrUserNotFound
      then mret (failure StatusNotFound "User not found")
      else mret (failure StatusInternalServerError "Failed to delete user")
    | Ok _ => mret (message StatusOK "User deleted successfully")
    end).

(** [c.QueryInt] has read [page] and [limit]. *)
Definition List (page limit : Z) : M Response :=
  let page := if decide (page < 1) then 1 else page in
  let limit := if decide (limit < 1 \/ limit > 100) then 10 else limit in
  r ← userUseCase.List page limit;
  match r with
  | Err _ =>
    _ ← log ErrorLevel "Failed to list users";
    mret (failure StatusInternalServerError "Failed to list users")
  | Ok (users, total) =>
    let userResponses :=
      map (fun user => userFields user ++ [("created_at", JTime (CreatedAt user));
                                           ("updated_at", JTime (UpdatedAt user))])
          users in
    mret (mkResponse StatusOK
            [("users", JArray userResponses); ("total", JNumber total);
             ("page", JNumber page); ("limit", JNumber limit)])
  end.

Definition ChangePassword (idParam : string) (body : option (string * string))
  : M Response :=
  withID idParam (fun id =>
    match body with
    | None =>
      _ ← log ErrorLevel "Failed to parse change password request body";
      mret (failure StatusBadRequest "Invalid request body")
    | Some (oldPassword, newPassword) =>
      if decide (oldPassword = EmptyString \/ newPassword = EmptyString)
      then mret (failure StatusBadRequest "Old password and new password are required")
      else
        r ← userUseCase.ChangePassword id oldPassword newPassword;
        match r with
        | Err err =>
          _ ← log ErrorLevel "Failed to change password";
          if errors_Is err ErrUserNotFound
          then mret (failure StatusNotFound "User not found")
          else if errors_Is err ErrInvalidCredentials
          then mret (failure StatusUnauthorized "Invalid old password")
          else mret (failure StatusInternalServerError "Failed to change password")
        | Ok _ => mret (message StatusOK "Password changed successfully")
        end
    end).

Definition UpdateStatus (idParam : string) (body : option string) : M Response :=
  withID idParam (fun id =>
    match body with
    | None =>
      _ ← log ErrorLevel "Failed to parse update status request body";
      mret (failure StatusBadRequest "Invalid request body")
    | Some status =>
      if decide (status = EmptyString)
      then mret (failure StatusBadRequest "Status is required")
      else
        r ← userUseCase.UpdateStatus id status;
        match r with
        | Err err =>
          _ ← log ErrorLevel "Failed to update status";
          if errors_Is err ErrUserNotFound
          then mret (failure StatusNotFound "User not found")
          else mret (failure StatusInternalServerError "Failed to update status")
        | Ok _ => mret (message StatusOK "Status updated successfully")
        end
    end).
End handler.
End UserHandler.

(** ** A reference implementation of the libraries

    Small, total stand-ins with the contracts the development assumes of
    the real ones; they make every definition above executable. *)

Module reference.

(** A token interleaves a field tag with every character of the three
    claims. *)
Fixpoint tagged (t : ascii) (s : string) : string :=
  match s with
  | EmptyString => EmptyString
  | String c rest => String t (String c (tagged t rest))
  end.

Fixpoint untag (s : string) : string * string * string :=
  match s with
  | String t (String c rest) =>
    let '(j, u, k) := untag rest in
    if decide (t = "j"%char) then (String c j, u, k)
    else if decide (t = "s"%char) then (j, String c u, k)
    else (j, u, String c k)
  | _ => (EmptyString, EmptyString, EmptyString)
  end.

Definition encode (c : TokenClaims) : string :=
  tagged "j" (tc_TokenID c) +:+ tagged "s" (tc_UserID c) +:+ tagged "t" (tc_TokenType c).

Definition decode (token : string) : TokenClaims :=
  let '(j, u, k) := untag token in mkTokenClaims j u k.

Definition sign (key : string) (c : TokenClaims) (footer : list (string * string))
  : result string :=
  Ok (encode c).

(** Only the exact output of [sign] verifies. *)
Definition verify (token key : string) : result TokenClaims :=
  let c := decode token in
  if decide (token = encode c) then Ok c
  else Err (ErrDriver "paseto: invalid signature").

Definition generate (password : string) (cost : Z) : result string :=
  Ok ("$2a$" +:+ password).

Definition compare (hash password : string) : result unit :=
  if decide (hash = "$2a$" +:+ password) then Ok tt
  else Err (ErrDriver "bcrypt: hashedPassword is not the hash of the given password").

(** Years 0 to 9999 in UTC, in nanoseconds from the Unix epoch. *)
Definition year_ok (t : Z) : bool :=
  bool_decide (-62167219200 * 1000000000 <= t < 253402300800 * 1000000000).

Definition libraries : Libraries :=
  {| paseto_Sign := sign;
     paseto_Verify := verify;
     bcrypt_GenerateFromPassword := generate;
     bcrypt_CompareHashAndPassword := compare;
     rfc3339_ok := year_ok |}.

Definition service : tokenService :=
  mkTokenService "k1" "k1" (15 * time_Minute) (7 * 24 * 60 * time_Minute).

Definition ids (n : nat) : UUID :=
  match n with
  | O => "a1"
  | 1%nat => "r1"
  | 2%nat => "a2"
  | 3%nat => "r2"
  | _ => "zz"
  end.

Definition alice : User :=
  mkUser "u1" "alice@example.com" "alice" "$2a$secret" "Alice" "A" "user" "active"
         1000 1000.

(** An account that has been deactivated. *)
Definition bob : User :=
  mkUser "u2" "bob@example.com" "bob" "$2a$hunter2" "Bob" "B" "user" "inactive"
         2000 3000.

Definition world0 : World :=
  mkWorld ∅ [alice; bob] MongoClient 5000 ids 0 [] [].

(** Alice logs in. *)
Definition session : result LoginResponse * World :=
  authUseCase.Login (H := libraries) service "alice@example.com" "secret" world0.

Definition access1 : string := "jaj1sus1tatctctetsts".
Definition refresh1 : string := "jrj1sus1trtetftrtetsth".

(** A token whose expiration passed a microsecond ago. *)
Definition stale : TokenDetails := mkTokenDetails "a9" "u1" AccessToken 4000.

(** A profile update for Alice as a handler would send it down. *)
Definition edited : User :=
  mkUser "u1" "alice@example.com" "alice" EmptyString "Alicia" "A" "user" "active" 1000 5000.

(** Alice's session, with a key-value store that will refuse the
    seventh call made to it. *)
Definition flaky : World :=
  with_faults [false; false; false; false; false; false; true] (snd session).

Definition carol : User :=
  mkUser "a1" "carol@example.com" "carol" "$2a$pw" "Carol" "C" UserRoleUser
         UserStatusActive 5000 5000.

(** The document store is unreachable for one call, then answers. *)
Definition outage : World :=
  mkWorld ∅ [alice; bob] MongoClient 5000 ids 0 [true] [].


(** [uuid.Parse], for identifiers of the size used here. *)
Definition parse (s : string) : result UUID :=
  if decide (String.length s = 2%nat) then Ok s
  else Err (ErrDriver "invalid UUID length").

(** A token that is stored by hand. *)
Definition fresh : TokenDetails := mkTokenDetails "a7" "u1" AccessToken 9000.

Definition a1 : TokenDetails := mkTokenDetails "a1" "u1" AccessToken 900000005000.
Definition r1 : TokenDetails := mkTokenDetails "r1" "u1" RefreshToken 604800000005000.

(** Carol has registered. *)
Definition registered : World :=
  snd (userUseCase.Register (H := libraries) "carol@example.com" "carol" "pw" "Carol" "C"
         world0).

(** Alice has been read once: a copy of her is in the cache. *)
Definition warm : World := snd (userUseCase.GetByID (H := libraries) "u1" world0).

(** Alice is then blocked while the key-value store refuses the
    eviction of her copy. *)
Definition blockedStale : World :=
  snd (userUseCase.UpdateStatus (H := libraries) "u1" UserStatusBlocked
         (with_faults [false; false; true] warm)).

(** What the second pair of tokens of the session looks like, and the
    header a client sends with the first access token. *)
Definition access2 : string := "jaj2sus1tatctctetsts".
Definition refresh2 : string := "jrj2sus1trtetftrtetsth".
Definition bearer1 : string := "Bearer jaj1sus1tatctctetsts".

Definition blockedAlice : User :=
  mkUser "u1" "alice@example.com" "alice" "$2a$secret" "Alice" "A" "user" "blocked"
         1000 5000.

End reference.


(** * Properties *)

(** ** Keys of the three spaces never meet *)

Lemma access_ne_refresh (a b : string) :
  tokenRepository.accessTokenPrefix +:+ a ≠ tokenRepository.refreshTokenPrefix +:+ b.
Proof. discriminate. Qed.

Lemma access_ne_index (a b c : string) :
  tokenRepository.accessTokenPrefix +:+ a ≠ (tokenRepository.userTokensPrefix +:+ b) +:+ c.
Proof. discriminate. Qed.

Lemma refresh_ne_index (a b c : string) :
  tokenRepository.refreshTokenPrefix +:+ a ≠ (tokenRepository.userTokensPrefix +:+ b) +:+ c.
Proof. discriminate. Qed.

(** ** Durations and expiry *)

Lemma time_Sub_add (now d : Z) :
  minDuration <= d <= maxDuration -> time_Sub (now + d) now = d.
Proof. unfold time_Sub. lia. Qed.

Lemma expiry_positive m now key d :
  0 < d -> cache.expiry m now key d = Some (now + d).
Proof. intros Hd. unfold cache.expiry. destruct (decide (0 < d)); [reflexivity | lia]. Qed.

(** ** The collection *)

Lemma find_update_first id f us u :
  find (mongo.by_id id) us = Some u ->
  mongo.by_id id (f u) = true ->
  find (mongo.by_id id) (mongo.update_first id f us) = Some (f u).
Proof.
  intros Hfind Hid. induction us as [|v us IH]; [discriminate|].
  cbn in *. destruct (mongo.by_id id v) eqn:Hv.
  - injection Hfind as ->. cbn. rewrite Hid. reflexivity.
  - cbn. rewrite Hv. apply IH, Hfind.
Qed.

Lemma collides_same id old new us :
  Email new = Email old -> Username new = Username old ->
  mongo.collides id old new us = false.
Proof.
  intros He Hu. unfold mongo.collides, mongo.by_email, mongo.by_username.
  rewrite He, Hu. rewrite !bool_decide_eq_true_2 by reflexivity. cbn.
  induction us as [|o us IH]; [reflexivity|].
  cbn. rewrite IH. rewrite orb_false_r. apply andb_false_r.
Qed.

(** ** Running the state-passing code *)

#[global] Arguments mongo.collides : simpl never.
#[global] Arguments mongo.duplicate : simpl never.
#[global] Arguments tokenRepository.storeToken : simpl never.
#[global] Arguments tokenRepository.GetToken : simpl never.
#[global] Arguments tokenRepository.DeleteToken : simpl never.
#[global] Arguments tokenService.GenerateTokens : simpl never.
#[global] Arguments tokenService.createToken : simpl never.
#[global] Arguments tokenService.ValidateToken : simpl never.
#[global] Arguments authUseCase.RefreshToken : simpl never.
#[global] Arguments authUseCase.ValidateToken : simpl never.
#[global] Arguments authUseCase.Login : simpl never.

Ltac monad :=
  unfold time_Until, fault, log, time_Now, uuid_New, mbind, M_bind, mret, M_ret,
    with_redis, with_users, with_clock, with_drawn, with_faults, with_events in *.

Ltac run_cache := unfold cache.Get, cache.Set_, cache.Delete; monad.

Ltac run_users :=
  unfold userRepository.Create, userRepository.GetByID, userRepository.GetByEmail,
    userRepository.GetByUsername, userRepository.Update, userRepository.Delete,
    userRepository.ChangePassword, userRepository.UpdateStatus,
    userRepository.createUserMongo, userRepository.getUserByIDMongo,
    userRepository.getUserByEmailMongo, userRepository.getUserByUsernameMongo,
    userRepository.updateUserMongo, userRepository.deleteUserMongo,
    userRepository.changePasswordMongo, userRepository.updateStatusMongo,
    userRepository.unsupported,
    mongo.GetInstance, mongo.FindOne, mongo.InsertOne, mongo.UpdateOne, mongo.DeleteOne;
  run_cache.

Ltac run_tokens :=
  unfold tokenRepository.StoreAccessToken, tokenRepository.StoreRefreshToken,
    tokenRepository.storeToken, tokenRepository.DeleteToken, tokenRepository.GetToken,
    tokenRepository.DeleteUserTokens, json_Marshal_TokenDetails;
  run_cache.

Section Properties.
Context `{Libraries}.
Variable svc : tokenService.

(** What is assumed of PASETO: a token signed with the private key
    verifies under the public key to the claims signed, and signing
    with the service's key does not fail. *)
Hypothesis paseto_roundtrip : forall c f tok,
  paseto_Sign (privateKey svc) c f = Ok tok -> paseto_Verify tok (publicKey svc) = Ok c.
Hypothesis paseto_signs : forall c f, exists tok, paseto_Sign (privateKey svc) c f = Ok tok.

Lemma createToken_verifies d tok :
  tokenService.createToken svc d = Ok tok ->
  tokenService.ValidateToken svc tok =
    Ok (mkTokenClaims (TokenID d) (td_UserID d) (td_TokenType d)).
Proof.
  unfold tokenService.createToken, tokenService.ValidateToken.
  destruct (paseto_Sign _ _ _) as [t|] eqn:Es; [|discriminate].
  intros [= ->]. rewrite (paseto_roundtrip _ _ _ Es). reflexivity.
Qed.

Lemma createToken_signs d : exists tok, tokenService.createToken svc d = Ok tok.
Proof.
  unfold tokenService.createToken.
  destruct (paseto_signs (mkTokenClaims (TokenID d) (td_UserID d) (td_TokenType d))
              [("kid", "key-1")]) as [tok ->].
  eauto.
Qed.

Lemma GenerateTokens_ok w uid :
  let a := mkTokenDetails (entropy w (drawn w)) uid AccessToken
                          (clock w + accessDuration svc) in
  let r := mkTokenDetails (entropy w (S (drawn w))) uid RefreshToken
                          (clock w + refreshDuration svc) in
  exists atok rtok,
    tokenService.createToken svc a = Ok atok /\
    tokenService.createToken svc r = Ok rtok /\
    tokenService.GenerateTokens svc uid w =
      (Ok (mkAuthTokens atok rtok (Expiration a), a, r), with_drawn (S (S (drawn w))) w).
Proof.
  intros a r.
  destruct (createToken_signs a) as [atok Ea], (createToken_signs r) as [rtok Er].
  exists atok, rtok. split; [exact Ea|]. split; [exact Er|].
  unfold tokenService.GenerateTokens; monad.
  destruct w; simpl in *. fold a r. rewrite Ea, Er. reflexivity.
Qed.

(** C1 (the code departs from it): after [LogoutAll] the user's token
    records are all still in the store. [DeleteUserTokens] only logs
    and returns nil, so an access token of the user that was valid
    before [LogoutAll] is accepted by [ValidateToken] after it, where
    the claim demands [ErrInvalidToken]. *)
Theorem logoutAll_leaves_tokens_valid w userID token claims d e :
  tokenService.ValidateToken svc token = Ok claims ->
  tc_TokenType claims = AccessToken ->
  tc_UserID claims = userID ->
  cache.lookup_live (redis w) (clock w)
    (tokenRepository.accessTokenPrefix +:+ tc_TokenID claims) = Some (mkEntry (JToken d) e) ->
  faults w = [] ->
  exists w1,
    authUseCase.LogoutAll userID w = (Ok tt, w1) /\
    redis w1 = redis w /\
    fst (authUseCase.ValidateToken svc token w1) = Ok userID.
Proof.
  intros Hv Hty Hu Hlive Hf.
  destruct w as [m us db now ent n fs ev]; simpl in *; subst fs.
  eexists. split; [reflexivity|]. split; [reflexivity|].
  unfold authUseCase.ValidateToken. rewrite Hv.
  rewrite bool_decide_eq_false_2 by (intros Hne; apply Hne; exact Hty).
  run_tokens. simpl. rewrite Hlive. simpl. congruence.
Qed.

(** C2: for an active user found under [email] whose stored hash
    matches [password], with the backends answering, [Login] succeeds
    and returns that user, and [ValidateToken] on the access token it
    returned yields the user's identity at every instant before the
    token's expiration. *)
Theorem login_then_validate w email password u :
  dbInstance w = MongoClient ->
  faults w = [] ->
  find (mongo.by_email email) (users w) = Some u ->
  Status u = UserStatusActive ->
  utils.CheckPasswordHash password (Password u) = true ->
  rfc3339_ok (clock w + accessDuration svc) = true ->
  rfc3339_ok (clock w + refreshDuration svc) = true ->
  minDuration <= accessDuration svc <= maxDuration ->
  exists resp w1,
    authUseCase.Login svc email password w = (Ok resp, w1) /\
    lr_User resp = u /\
    forall t, clock w <= t < ExpiresAt (lr_AuthTokens resp) ->
      fst (authUseCase.ValidateToken svc (at_AccessToken (lr_AuthTokens resp))
             (with_clock t w1)) = Ok (ID u).
Proof.
  intros Hdb Hf Hfind Hact Hpw Hja Hjr Hdur.
  destruct (GenerateTokens_ok w (ID u)) as (atok & rtok & Ea & Er & Eg).
  destruct w as [m us db now ent n fs ev]; simpl in *; subst db fs.
  unfold authUseCase.Login, userRepository.GetByEmail, userRepository.getUserByEmailMongo,
    mongo.FindOne, mongo.GetInstance; monad.
  simpl. rewrite Hfind, Hpw. simpl.
  rewrite Eg.
  run_tokens. simpl. rewrite Hja, Hjr. simpl.
  eexists _, _. split; [reflexivity|]. split; [reflexivity|].
  simpl. intros t Ht.
  unfold authUseCase.ValidateToken. rewrite (createToken_verifies _ _ Ea). simpl.
  run_tokens. simpl.
  unfold cache.lookup_live.
  rewrite lookup_insert_ne by (symmetry; apply access_ne_index).
  rewrite lookup_insert_ne by (symmetry; apply access_ne_refresh).
  rewrite lookup_insert_ne by (symmetry; apply access_ne_index).
  rewrite lookup_insert_eq.
  rewrite time_Sub_add by assumption.
  rewrite expiry_positive by lia.
  unfold cache.live. simpl. rewrite bool_decide_eq_true_2 by lia. 
  reflexivity.
Qed.

Lemma expiry_live m now key ttl v :
  cache.live now (mkEntry v (cache.expiry m now key ttl)) = true.
Proof.
  unfold cache.expiry, cache.live; simpl.
  destruct (decide (0 < ttl)); [apply bool_decide_eq_true_2; lia|].
  destruct (decide (ttl = cache.KeepTTL)); [|reflexivity].
  unfold cache.lookup_live. destruct (m !! key) as [e0|]; [|reflexivity].
  unfold cache.live. destruct (expires e0) as [t|] eqn:Ee; simpl.
  - case_bool_decide; simpl; [rewrite Ee; simpl; apply bool_decide_eq_true_2; assumption | reflexivity].
  - rewrite Ee. reflexivity.
Qed.

(** Revoking a live, well-formed record removes it. *)
Lemma DeleteToken_removes w id ty :
  faults w = [] ->
  (exists en d, cache.lookup_live (redis w) (clock w) (primaryKey ty id) = Some en /\
                value en = JToken d) ->
  exists w1 u,
    tokenRepository.DeleteToken id ty w = (Ok tt, w1) /\
    redis w1 !! primaryKey ty id = None /\
    faults w1 = [] /\
    events w1 = CacheDel (indexKey u ty id) :: CacheDel (primaryKey ty id) :: events w.
Proof.
  intros Hf (en & d & Hlive & Hval).
  destruct w as [m us db now ent n fs ev], en as [v ex]; simpl in *; subst fs v.
  unfold primaryKey in *.
  run_tokens.
  destruct (decide (ty = AccessToken)); simpl in *; rewrite Hlive; simpl.
  - eexists _, _. split; [reflexivity|]. simpl. split; [|split; reflexivity].
    rewrite lookup_delete_ne by (symmetry; apply access_ne_index).
    apply lookup_delete_eq.
  - eexists _, _. split; [reflexivity|]. simpl. split; [|split; reflexivity].
    rewrite lookup_delete_ne by (symmetry; apply refresh_ne_index).
    apply lookup_delete_eq.
Qed.

Lemma RefreshToken_absent w token claims :
  tokenService.ValidateToken svc token = Ok claims ->
  tc_TokenType claims = RefreshToken ->
  faults w = [] ->
  redis w !! (tokenRepository.refreshTokenPrefix +:+ tc_TokenID claims) = None ->
  fst (authUseCase.RefreshToken svc token w) = Err ErrInvalidRefreshToken.
Proof.
  intros Hv Hty Hf Hnone.
  destruct w as [m us db now ent n fs ev]; simpl in *; subst fs.
  unfold authUseCase.RefreshToken. rewrite Hv.
  rewrite bool_decide_eq_false_2 by (intros Hne; apply Hne; exact Hty).
  unfold tokenRepository.GetToken. run_cache. unfold cache.lookup_live. simpl.
  rewrite Hnone. reflexivity.
Qed.

Lemma RefreshToken_rotates w d token e atok rtok :
  tokenService.createToken svc d = Ok token ->
  td_TokenType d = RefreshToken ->
  cache.lookup_live (redis w) (clock w)
    (tokenRepository.refreshTokenPrefix +:+ TokenID d) = Some (mkEntry (JToken d) e) ->
  faults w = [] ->
  rfc3339_ok (clock w + accessDuration svc) = true ->
  rfc3339_ok (clock w + refreshDuration svc) = true ->
  tokenService.createToken svc
    (mkTokenDetails (entropy w (drawn w)) (td_UserID d) AccessToken
                    (clock w + accessDuration svc)) = Ok atok ->
  tokenService.createToken svc
    (mkTokenDetails (entropy w (S (drawn w))) (td_UserID d) RefreshToken
                    (clock w + refreshDuration svc)) = Ok rtok ->
  exists w1,
    authUseCase.RefreshToken svc token w =
      (Ok (mkAuthTokens atok rtok (clock w + accessDuration svc)), w1) /\
    redis w1 !! (tokenRepository.refreshTokenPrefix +:+ TokenID d) = None /\
    faults w1 = [].
Proof.
  intros Hissued Hty Hlive Hf Hja Hjr Ea Er.
  destruct w as [m us db now ent n fs ev]; simpl in *; subst fs.
  unfold authUseCase.RefreshToken.
  rewrite (createToken_verifies _ _ Hissued). simpl.
  rewrite bool_decide_eq_false_2 by (intros Hne; apply Hne; exact Hty).
  unfold tokenRepository.GetToken at 1. run_cache. simpl. rewrite Hlive. simpl.
  unfold tokenService.GenerateTokens. monad. simpl. rewrite Ea, Er.
  unfold tokenRepository.StoreAccessToken, tokenRepository.StoreRefreshToken,
    tokenRepository.storeToken, json_Marshal_TokenDetails.
  run_cache. simpl. rewrite Hja, Hjr. cbn.
  match goal with
  | |- context [tokenRepository.DeleteToken ?i ?t ?w0] =>
    destruct (DeleteToken_removes w0 i t) as (w1 & u & Ed & Hgone & Hf1 & _)
  end.
  { reflexivity. }
  { simpl. unfold primaryKey, cache.lookup_live. simpl.
    rewrite lookup_insert_ne by (symmetry; apply refresh_ne_index).
    rewrite lookup_insert.
    destruct (decide (_ = _)) as [Heq|Hne].
    - rewrite expiry_live. eauto.
    - rewrite lookup_insert_ne by (symmetry; apply refresh_ne_index).
      rewrite lookup_insert_ne by (apply access_ne_refresh).
      unfold cache.lookup_live in Hlive. rewrite Hlive. eauto. }
  rewrite Ed. simpl. eauto.
Qed.

(** C3: for a refresh token that was issued (signed from [d]) and is
    stored, with the backends answering, a first [RefreshToken]
    succeeds and returns the newly signed pair; afterwards the record
    of the consumed token is gone, and a second [RefreshToken] with
    the same string fails with [ErrInvalidRefreshToken], whenever it
    is made. *)
Theorem refresh_rotates_once w d token e :
  tokenService.createToken svc d = Ok token ->
  td_TokenType d = RefreshToken ->
  cache.lookup_live (redis w) (clock w)
    (tokenRepository.refreshTokenPrefix +:+ TokenID d) = Some (mkEntry (JToken d) e) ->
  faults w = [] ->
  rfc3339_ok (clock w + accessDuration svc) = true ->
  rfc3339_ok (clock w + refreshDuration svc) = true ->
  exists tokens w1,
    authUseCase.RefreshToken svc token w = (Ok tokens, w1) /\
    tokenService.createToken svc
      (mkTokenDetails (entropy w (drawn w)) (td_UserID d) AccessToken
                      (clock w + accessDuration svc)) = Ok (at_AccessToken tokens) /\
    tokenService.createToken svc
      (mkTokenDetails (entropy w (S (drawn w))) (td_UserID d) RefreshToken
                      (clock w + refreshDuration svc)) = Ok (at_RefreshToken tokens) /\
    redis w1 !! (tokenRepository.refreshTokenPrefix +:+ TokenID d) = None /\
    forall t,
      fst (authUseCase.RefreshToken svc token (with_clock t w1)) = Err ErrInvalidRefreshToken.
Proof.
  intros Hissued Hty Hlive Hf Hja Hjr.
  destruct (createToken_signs
              (mkTokenDetails (entropy w (drawn w)) (td_UserID d) AccessToken
                              (clock w + accessDuration svc))) as [atok Ea].
  destruct (createToken_signs
              (mkTokenDetails (entropy w (S (drawn w))) (td_UserID d) RefreshToken
                              (clock w + refreshDuration svc))) as [rtok Er].
  destruct (RefreshToken_rotates w d token e atok rtok Hissued Hty Hlive Hf Hja Hjr Ea Er)
    as (w1 & E1 & Hgone & Hf1).
  exists (mkAuthTokens atok rtok (clock w + accessDuration svc)), w1.
  split; [exact E1|]. split; [exact Ea|]. split; [exact Er|]. split; [exact Hgone|].
  intros t.
  apply (RefreshToken_absent (with_clock t w1) token _ (createToken_verifies _ _ Hissued)).
  - exact Hty.
  - exact Hf1.
  - exact Hgone.
Qed.

(** C4, amended: with the backends answering, [ChangePassword],
    [UpdateStatus] and [Delete] leave no cache entry under the user's
    key, and a [GetByID] that follows [UpdateStatus] returns the user
    with the status just written; [Update] instead leaves under the
    key the JSON of the user value it was given, for thirty minutes. *)
Theorem mutations_cache_discipline w id :
  dbInstance w = MongoClient ->
  faults w = [] ->
  let key := userRepository.userCacheKeyPrefix +:+ id in
  (forall hashedPassword, exists w1,
      userRepository.ChangePassword id hashedPassword w = (Ok tt, w1) /\
      redis w1 !! key = None) /\
  (forall status, exists w1,
      userRepository.UpdateStatus id status w = (Ok tt, w1) /\
      redis w1 !! key = None /\
      forall u t, find (mongo.by_id id) (users w) = Some u ->
        exists u', fst (userRepository.GetByID id (with_clock t w1)) = Ok (Some u') /\
                   Status u' = status /\ Email u' = Email u) /\
  (exists w1,
      userRepository.Delete id w = (Ok tt, w1) /\ redis w1 !! key = None) /\
  (forall user w1 data,
      ID user = id ->
      userRepository.Update user w = (Ok tt, w1) ->
      json_Marshal_User user = Ok data ->
      redis w1 !! key = Some (mkEntry data (Some (clock w + userRepository.userCacheTTL)))).
Proof.
  intros Hdb Hf key.
  destruct w as [m us db now ent n fs ev]; simpl in *; subst db fs.
  repeat split.
  - intros hashed. run_users. cbn.
    destruct (find (mongo.by_id id) us) as [u|] eqn:Hfind; cbn.
    + rewrite collides_same by reflexivity. cbn.
      eexists. split; [reflexivity|]. apply lookup_delete_eq.
    + eexists. split; [reflexivity|]. apply lookup_delete_eq.
  - intros status. run_users. cbn.
    destruct (find (mongo.by_id id) us) as [u|] eqn:Hfind; cbn.
    + rewrite collides_same by reflexivity. cbn.
      eexists. split; [reflexivity|]. split; [apply lookup_delete_eq|].
      intros u0 t [= <-]. cbn. unfold cache.lookup_live. cbn.
      rewrite lookup_delete_eq. cbn.
      erewrite find_update_first; [| exact Hfind |].
      2: { cbn. unfold mongo.by_id in *. cbn.
           apply find_some in Hfind. apply Hfind. }
      cbn. destruct (json_Marshal_User _); cbn; eexists; repeat split; reflexivity.
    + eexists. split; [reflexivity|]. split; [apply lookup_delete_eq|].
      intros u0 t [=].
  - run_users. cbn. eexists. split; [reflexivity|]. apply lookup_delete_eq.
  - intros user w1 data <-. run_users. cbn.
    intros Hupd Hdata. rewrite Hdata in Hupd.
    destruct (find (mongo.by_id (ID user)) us) as [u|]; cbn in Hupd.
    + destruct (mongo.collides _ _ _ _); cbn in Hupd; [discriminate|].
      injection Hupd as <-. cbn. rewrite lookup_insert_eq.
      rewrite expiry_positive by (unfold userRepository.userCacheTTL, time_Minute; lia).
      reflexivity.
    + injection Hupd as <-. cbn. rewrite lookup_insert_eq.
      rewrite expiry_positive by (unfold userRepository.userCacheTTL, time_Minute; lia).
      reflexivity.
Qed.

(** C5, amended: [storeToken] does not look at the time-to-live. For
    details whose expiration is not in the future, when marshaling and
    the primary write succeed, it returns nil, having handed the
    store a duration that is not positive, and the entry is written. *)
Theorem storeToken_ignores_expiry w d prefix :
  prefix = tokenRepository.accessTokenPrefix \/ prefix = tokenRepository.refreshTokenPrefix ->
  Expiration d <= clock w ->
  rfc3339_ok (Expiration d) = true ->
  hd false (faults w) = false ->
  exists w1 ex,
    tokenRepository.storeToken d prefix w = (Ok tt, w1) /\
    time_Sub (Expiration d) (clock w) <= 0 /\
    redis w1 !! (prefix +:+ TokenID d) = Some (mkEntry (JToken d) ex) /\
    In (CacheSet (prefix +:+ TokenID d)) (events w1).
Proof.
  intros Hp Hexp Hj Hf.
  destruct w as [m us db now ent n fs ev]; simpl in *.
  run_tokens. rewrite Hj. cbn. rewrite Hf. cbn.
  assert (Httl : time_Sub (Expiration d) now <= 0)
    by (unfold time_Sub, minDuration, maxDuration; lia).
  destruct (hd false (tail fs)); cbn.
  - eexists _, _. split; [reflexivity|]. split; [exact Httl|]. cbn.
    split; [apply lookup_insert_eq | right; left; reflexivity].
  - eexists _, _. split; [reflexivity|]. split; [exact Httl|]. cbn.
    split; [|right; left; reflexivity].
    rewrite lookup_insert_ne; [apply lookup_insert_eq|].
    destruct Hp as [-> | ->]; symmetry;
      [apply access_ne_index | apply refresh_ne_index].
Qed.

(** C6 (the code departs from it): [Login] never reads [Status]. A user
    whose status is not active and whose password matches is logged
    in and given tokens, while [Authenticate], on the same input,
    refuses the account as not active. *)
Theorem login_ignores_status w email password u :
  dbInstance w = MongoClient ->
  faults w = [] ->
  find (mongo.by_email email) (users w) = Some u ->
  Status u <> UserStatusActive ->
  utils.CheckPasswordHash password (Password u) = true ->
  rfc3339_ok (clock w + accessDuration svc) = true ->
  rfc3339_ok (clock w + refreshDuration svc) = true ->
  (exists resp w1,
     authUseCase.Login svc email password w = (Ok resp, w1) /\ lr_User resp = u) /\
  fst (userUseCase.Authenticate email password w) = Err (ErrNew "user account is not active").
Proof.
  intros Hdb Hf Hfind Hst Hpw Hja Hjr.
  destruct (GenerateTokens_ok w (ID u)) as (atok & rtok & Ea & Er & Eg).
  destruct w as [m us db now ent n fs ev]; simpl in *; subst db fs.
  split.
  - unfold authUseCase.Login, userRepository.GetByEmail,
      userRepository.getUserByEmailMongo, mongo.FindOne, mongo.GetInstance; monad.
    cbn. rewrite Hfind, Hpw. cbn. rewrite Eg.
    run_tokens. cbn. rewrite Hja, Hjr. cbn.
    eexists _, _. split; reflexivity.
  - unfold userUseCase.Authenticate, userRepository.GetByEmail,
      userRepository.getUserByEmailMongo, mongo.FindOne, mongo.GetInstance; monad.
    cbn. rewrite Hfind. cbn.
    rewrite bool_decide_eq_true_2 by exact Hst. reflexivity.
Qed.

(** Revocation writes nothing: whatever it returns, it only deletes
    and logs. *)
Lemma DeleteToken_trace w id ty :
  exists dels,
    events (snd (tokenRepository.DeleteToken id ty w)) = dels ++ events w /\
    Forall (fun e => is_set e = false) dels.
Proof.
  destruct w as [m us db now ent n fs ev]. run_tokens. cbn.
  destruct (hd false fs); cbn.
  { exists [Log ErrorLevel "Failed to get token from cache"]. split; [reflexivity|].
    repeat constructor. }
  destruct (cache.lookup_live m now _) as [[v ex]|]; cbn.
  2: { exists []. split; [reflexivity|constructor]. }
  destruct (json_Unmarshal_TokenDetails v) as [tok|err]; cbn.
  2: { exists [Log ErrorLevel "Failed to unmarshal token details"]. split; [reflexivity|].
       repeat constructor. }
  destruct (hd false (tail fs)); cbn.
  { exists [Log ErrorLevel "Failed to delete token from cache"]. split; [reflexivity|].
    repeat constructor. }
  destruct (hd false (tail (tail fs))); cbn.
  - eexists [Log WarnLevel "Failed to remove token from user tokens"; CacheDel _].
    split; [reflexivity|]. repeat constructor.
  - eexists [CacheDel _; CacheDel _]. split; [reflexivity|]. repeat constructor.
Qed.

(** C7: in a [RefreshToken] call that reaches rotation (the token
    verifies, its record is found, both primary writes succeed) there
    is a world [wmid] in which both new records are stored and nothing
    has been deleted since the call began; revocation of the old token
    runs from [wmid] and writes nothing; and whatever revocation
    returns, the call returns the new pair, logging a warning when
    revocation returned an error. *)
Theorem refresh_stores_before_revoking w token claims old ex :
  tokenService.ValidateToken svc token = Ok claims ->
  tc_TokenType claims = RefreshToken ->
  cache.lookup_live (redis w) (clock w)
    (tokenRepository.refreshTokenPrefix +:+ tc_TokenID claims)
    = Some (mkEntry (JToken old) ex) ->
  rfc3339_ok (clock w + accessDuration svc) = true ->
  rfc3339_ok (clock w + refreshDuration svc) = true ->
  flag 0 (faults w) = false ->
  flag 1 (faults w) = false ->
  flag 3 (faults w) = false ->
  let a := mkTokenDetails (entropy w (drawn w)) (tc_UserID claims) AccessToken
                          (clock w + accessDuration svc) in
  let r := mkTokenDetails (entropy w (S (drawn w))) (tc_UserID claims) RefreshToken
                          (clock w + refreshDuration svc) in
  exists tokens wmid sets,
    tokenService.createToken svc a = Ok (at_AccessToken tokens) /\
    tokenService.createToken svc r = Ok (at_RefreshToken tokens) /\
    (exists ea, redis wmid !! (tokenRepository.accessTokenPrefix +:+ TokenID a)
                = Some (mkEntry (JToken a) ea)) /\
    (exists er, redis wmid !! (tokenRepository.refreshTokenPrefix +:+ TokenID r)
                = Some (mkEntry (JToken r) er)) /\
    events wmid = sets ++ events w /\
    Forall (fun e => is_del e = false) sets /\
    faults wmid = Nat.iter 5 tail (faults w) /\
    forall res w2,
      tokenRepository.DeleteToken (tc_TokenID claims) RefreshToken wmid = (res, w2) ->
      authUseCase.RefreshToken svc token w =
        (Ok tokens,
         match res with
         | Ok _ => w2
         | Err _ => with_events (Log WarnLevel "Failed to delete old refresh token"
                                  :: events w2) w2
         end) /\
      exists dels, events w2 = dels ++ events wmid /\
                   Forall (fun e => is_set e = false) dels.
Proof.
  intros Hv Hty Hlive Hja Hjr H0 H1 H3 a r.
  destruct (createToken_signs a) as [atok Ea], (createToken_signs r) as [rtok Er].
  destruct w as [m us db now ent n fs ev]; unfold flag in *; simpl in *.
  exists (mkAuthTokens atok rtok (now + accessDuration svc)).
  exists (snd (tokenRepository.StoreRefreshToken r
           (snd (tokenRepository.StoreAccessToken a
              (mkWorld m us db now ent (S (S n)) (tail fs) ev))))).
  exists ((if hd false (tail (tail (tail (tail fs))))
           then [Log WarnLevel "Failed to add token to user tokens"]
           else [CacheSet (indexKey (tc_UserID claims) RefreshToken (TokenID r))]) ++
          [CacheSet (tokenRepository.refreshTokenPrefix +:+ TokenID r)] ++
          (if hd false (tail (tail fs))
           then [Log WarnLevel "Failed to add token to user tokens"]
           else [CacheSet (indexKey (tc_UserID claims) AccessToken (TokenID a))]) ++
          [CacheSet (tokenRepository.accessTokenPrefix +:+ TokenID a)]).
  split; [exact Ea|]. split; [exact Er|].
  unfold authUseCase.RefreshToken. rewrite Hv.
  rewrite bool_decide_eq_false_2 by (intros Hne; apply Hne; exact Hty).
  unfold tokenRepository.GetToken at 1. run_cache. simpl. rewrite H0. simpl.
  rewrite Hlive. simpl.
  unfold tokenService.GenerateTokens. monad. simpl. fold a r. rewrite Ea, Er.
  unfold tokenRepository.StoreAccessToken, tokenRepository.StoreRefreshToken,
    tokenRepository.storeToken, json_Marshal_TokenDetails, indexKey.
  run_cache. cbn. rewrite Hja, Hjr. cbn. rewrite H1. cbn.
  destruct (hd false (tail (tail fs))); cbn; rewrite H3; cbn;
    destruct (hd false (tail (tail (tail (tail fs))))); cbn.
  all: split; [eexists; repeat first [apply lookup_insert_eq
                 | rewrite lookup_insert_ne by
                     first [symmetry; apply access_ne_index
                           | symmetry; apply access_ne_refresh
                           | apply access_ne_refresh
                           | symmetry; apply refresh_ne_index]]|].
  all: split; [eexists; repeat first [apply lookup_insert_eq
                 | rewrite lookup_insert_ne by
                     first [symmetry; apply access_ne_index
                           | symmetry; apply refresh_ne_index]]|].
  all: split; [reflexivity|].
  all: split; [repeat constructor|].
  all: split; [reflexivity|].
  all: intros res w2 Ed; rewrite Ed; split; [destruct res; reflexivity|].
  all: match type of Ed with
       | tokenRepository.DeleteToken ?i ?t ?w0 = _ =>
         destruct (DeleteToken_trace w0 i t) as (dels & Hev & Hdels)
       end; rewrite Ed in Hev; exists dels; split; [exact Hev | exact Hdels].
Qed.

(** C9: [DeleteToken] on a token the store does not hold (never
    stored, revoked or expired) returns nil and leaves the store as it
    was, whatever the backends do; and, with the backends answering,
    a second [DeleteToken] returns nil and leaves the store as the
    first one left it. *)
Theorem DeleteToken_idempotent w tokenID tokenType :
  (cache.lookup_live (redis w) (clock w) (primaryKey tokenType tokenID) = None ->
   fst (tokenRepository.DeleteToken tokenID tokenType w) = Ok tt /\
   redis (snd (tokenRepository.DeleteToken tokenID tokenType w)) = redis w) /\
  (faults w = [] ->
   let once := tokenRepository.DeleteToken tokenID tokenType w in
   let twice := tokenRepository.DeleteToken tokenID tokenType (snd once) in
   fst once = Ok tt /\ fst twice = Ok tt /\ redis (snd twice) = redis (snd once)).
Proof.
  destruct w as [m us db now ent n fs ev]; unfold primaryKey; cbn.
  split.
  - intros Habs. run_tokens. cbn.
    destruct (hd false fs); cbn; [split; reflexivity|].
    rewrite Habs. cbn. split; reflexivity.
  - intros ->. run_tokens. cbn.
    destruct (cache.lookup_live m now _) as [[v ex]|] eqn:Hl; cbn.
    + destruct (json_Unmarshal_TokenDetails v) as [tok|err] eqn:Hu; cbn.
      * unfold cache.lookup_live.
        destruct (decide (tokenType = AccessToken)).
        -- rewrite lookup_delete_ne by (symmetry; apply access_ne_index).
           rewrite lookup_delete_eq. cbn. repeat split; reflexivity.
        -- rewrite lookup_delete_ne by (symmetry; apply refresh_ne_index).
           rewrite lookup_delete_eq. cbn. repeat split; reflexivity.
      * rewrite Hl. cbn. rewrite Hu. cbn. repeat split; reflexivity.
    + rewrite Hl. cbn. repeat split; reflexivity.
Qed.

(** C10: in [Register] a failed lookup counts exactly as a lookup that
    found nobody. Whether the check by email (and likewise by
    username) failed or found no user, registration goes on to hash
    the password and create the user, and what it returns is what
    [Create] returns: the new user when the insert goes through. *)
Theorem register_discards_lookup_error
    w email username password firstName lastName hashedPassword :
  dbInstance w = MongoClient ->
  flag 0 (faults w) = true \/ find (mongo.by_email email) (users w) = None ->
  flag 1 (faults w) = true \/ find (mongo.by_username username) (users w) = None ->
  utils.HashPassword password = Ok hashedPassword ->
  let user := mkUser (entropy w (drawn w)) email username hashedPassword firstName lastName
                     UserRoleUser UserStatusActive (clock w) (clock w) in
  exists wc,
    users wc = users w /\
    faults wc = Nat.iter 2 tail (faults w) /\
    userUseCase.Register email username password firstName lastName w =
      (match fst (userRepository.Create user wc) with
       | Ok _ => Ok user
       | Err err => Err err
       end, snd (userRepository.Create user wc)) /\
    (flag 2 (faults w) = false ->
     mongo.duplicate user (users w) = false ->
     fst (userUseCase.Register email username password firstName lastName w) = Ok user /\
     users (snd (userUseCase.Register email username password firstName lastName w))
       = users w ++ [user]).
Proof.
  intros Hdb He Hu Hhash user.
  destruct w as [m us db now ent n fs ev]; unfold flag in *; simpl in *; subst db.
  subst user. unfold userUseCase.Register, NewUser. rewrite Hhash.
  run_users. cbn.
  destruct (hd false fs) eqn:F0; cbn.
  - destruct (hd false (tail fs)) eqn:F1; cbn.
    + match goal with
      | |- context [mkWorld _ _ _ _ _ _ (tail (tail (tail fs))) ?evs] =>
        exists (mkWorld m us MongoClient now ent (S n) (tail (tail fs)) evs)
      end.
      split; [reflexivity|]. split; [reflexivity|]. split.
      { cbn. destruct (hd false (tail (tail fs))); cbn; [reflexivity|].
        destruct (mongo.duplicate _ _); reflexivity. }
      intros Hf2 Hdup. rewrite Hf2. cbn in *. rewrite Hdup. split; reflexivity.
    + destruct Hu as [Hu|Hu]; [discriminate|]. rewrite Hu. cbn.
      match goal with
      | |- context [mkWorld _ _ _ _ _ _ (tail (tail (tail fs))) ?evs] =>
        exists (mkWorld m us MongoClient now ent (S n) (tail (tail fs)) evs)
      end.
      split; [reflexivity|]. split; [reflexivity|]. split.
      { cbn. destruct (hd false (tail (tail fs))); cbn; [reflexivity|].
        destruct (mongo.duplicate _ _); reflexivity. }
      intros Hf2 Hdup. rewrite Hf2. cbn in *. rewrite Hdup. split; reflexivity.
  - destruct He as [He|He]; [discriminate|]. rewrite He. cbn.
    destruct (hd false (tail fs)) eqn:F1; cbn.
    + match goal with
      | |- context [mkWorld _ _ _ _ _ _ (tail (tail (tail fs))) ?evs] =>
        exists (mkWorld m us MongoClient now ent (S n) (tail (tail fs)) evs)
      end.
      split; [reflexivity|]. split; [reflexivity|]. split.
      { cbn. destruct (hd false (tail (tail fs))); cbn; [reflexivity|].
        destruct (mongo.duplicate _ _); reflexivity. }
      intros Hf2 Hdup. rewrite Hf2. cbn in *. rewrite Hdup. split; reflexivity.
    + destruct Hu as [Hu|Hu]; [discriminate|]. rewrite Hu. cbn.
      match goal with
      | |- context [mkWorld _ _ _ _ _ _ (tail (tail (tail fs))) ?evs] =>
        exists (mkWorld m us MongoClient now ent (S n) (tail (tail fs)) evs)
      end.
      split; [reflexivity|]. split; [reflexivity|]. split.
      { cbn. destruct (hd false (tail (tail fs))); cbn; [reflexivity|].
        destruct (mongo.duplicate _ _); reflexivity. }
      intros Hf2 Hdup. rewrite Hf2. cbn in *. rewrite Hdup. split; reflexivity.
Qed.

End Properties.


(** ** The reference libraries meet the contract *)

Lemma reference_untag_t (k : string) :
  reference.untag (reference.tagged "t" k) = (EmptyString, EmptyString, k).
Proof.
  induction k as [|c k IH]; [reflexivity|].
  simpl. rewrite IH.
  destruct (decide ("t"%char = "j"%char)) as [E|_]; [discriminate E|].
  destruct (decide ("t"%char = "s"%char)) as [E|_]; [discriminate E|].
  reflexivity.
Qed.

Lemma reference_untag_s (u k : string) :
  reference.untag (reference.tagged "s" u +:+ reference.tagged "t" k)
  = (EmptyString, u, k).
Proof.
  induction u as [|c u IH]; [apply reference_untag_t|].
  simpl. rewrite IH.
  destruct (decide ("s"%char = "j"%char)) as [E|_]; [discriminate E|].
  destruct (decide ("s"%char = "s"%char)) as [_|N]; [reflexivity | contradiction N; reflexivity].
Qed.

Lemma reference_decode_encode (c : TokenClaims) :
  reference.decode (reference.encode c) = c.
Proof.
  destruct c as [j u k]. unfold reference.decode, reference.encode. cbn [tc_TokenID tc_UserID tc_TokenType].
  assert (E : reference.untag (reference.tagged "j" j +:+
                               reference.tagged "s" u +:+ reference.tagged "t" k) = (j, u, k)).
  { induction j as [|c j IH]; [apply reference_untag_s|].
    simpl. rewrite IH.
    destruct (decide ("j"%char = "j"%char)) as [_|N]; [reflexivity | contradiction N; reflexivity]. }
  rewrite E. reflexivity.
Qed.

Lemma reference_roundtrip (c : TokenClaims) (f : list (string * string)) (tok : string) :
  paseto_Sign (Libraries := reference.libraries) (privateKey reference.service) c f = Ok tok ->
  paseto_Verify (Libraries := reference.libraries) tok (publicKey reference.service) = Ok c.
Proof.
  cbn. unfold reference.sign, reference.verify. intros [= <-].
  rewrite reference_decode_encode.
  destruct (decide (reference.encode c = reference.encode c)) as [_|N];
    [reflexivity | contradiction N; reflexivity].
Qed.

Lemma reference_signs (c : TokenClaims) (f : list (string * string)) :
  exists tok,
    paseto_Sign (Libraries := reference.libraries) (privateKey reference.service) c f = Ok tok.
Proof. eexists. reflexivity. Qed.

(** ** The theorems at work on the reference world *)

Lemma logoutAll_leaves_tokens_valid_witness :
  exists w1,
    authUseCase.LogoutAll "u1" (snd reference.session) = (Ok tt, w1) /\
    redis w1 = redis (snd reference.session) /\
    fst (authUseCase.ValidateToken (H := reference.libraries) reference.service
           reference.access1 w1) = Ok "u1".
Proof.
  apply (@logoutAll_leaves_tokens_valid reference.libraries reference.service
           (snd reference.session) "u1" reference.access1
           (mkTokenClaims "a1" "u1" AccessToken)
           (mkTokenDetails "a1" "u1" AccessToken 900000005000) (Some 900000005000)).
  - vm_compute. reflexivity.
  - reflexivity.
  - reflexivity.
  - vm_compute. reflexivity.
  - vm_compute. reflexivity.
Defined.

Lemma login_then_validate_witness :
  exists resp w1,
    authUseCase.Login (H := reference.libraries) reference.service
      "alice@example.com" "secret" reference.world0 = (Ok resp, w1) /\
    lr_User resp = reference.alice /\
    forall t, clock reference.world0 <= t < ExpiresAt (lr_AuthTokens resp) ->
      fst (authUseCase.ValidateToken (H := reference.libraries) reference.service
             (at_AccessToken (lr_AuthTokens resp)) (with_clock t w1)) = Ok (ID reference.alice).
Proof.
  apply (@login_then_validate reference.libraries reference.service
           reference_roundtrip reference_signs reference.world0
           "alice@example.com" "secret" reference.alice).
  - reflexivity.
  - reflexivity.
  - vm_compute. reflexivity.
  - reflexivity.
  - vm_compute. reflexivity.
  - vm_compute. reflexivity.
  - vm_compute. reflexivity.
  - vm_compute. split; discriminate.
Defined.

Lemma refresh_rotates_once_witness :
  exists tokens w1,
    authUseCase.RefreshToken (H := reference.libraries) reference.service
      reference.refresh1 (snd reference.session) = (Ok tokens, w1) /\
    tokenService.createToken (H := reference.libraries) reference.service
      (mkTokenDetails "a2" "u1" AccessToken (5000 + accessDuration reference.service))
      = Ok (at_AccessToken tokens) /\
    tokenService.createToken (H := reference.libraries) reference.service
      (mkTokenDetails "r2" "u1" RefreshToken (5000 + refreshDuration reference.service))
      = Ok (at_RefreshToken tokens) /\
    redis w1 !! (tokenRepository.refreshTokenPrefix +:+ "r1") = None /\
    forall t,
      fst (authUseCase.RefreshToken (H := reference.libraries) reference.service
             reference.refresh1 (with_clock t w1)) = Err ErrInvalidRefreshToken.
Proof.
  apply (@refresh_rotates_once reference.libraries reference.service
           reference_roundtrip reference_signs (snd reference.session)
           (mkTokenDetails "r1" "u1" RefreshToken 604800000005000)
           reference.refresh1 (Some 604800000005000)).
  - vm_compute. reflexivity.
  - reflexivity.
  - vm_compute. reflexivity.
  - vm_compute. reflexivity.
  - vm_compute. reflexivity.
  - vm_compute. reflexivity.
Defined.

Lemma mutations_cache_discipline_witness :
  (exists w1,
      userRepository.ChangePassword "u1" "$2a$new" reference.world0 = (Ok tt, w1) /\
      redis w1 !! "user:u1" = None) /\
  (exists w1,
      userRepository.UpdateStatus "u1" UserStatusBlocked reference.world0 = (Ok tt, w1) /\
      redis w1 !! "user:u1" = None /\
      exists u', fst (userRepository.GetByID (H := reference.libraries) "u1"
                        (with_clock 6000 w1)) = Ok (Some u') /\
                 Status u' = UserStatusBlocked /\ Email u' = "alice@example.com") /\
  (exists w1,
      userRepository.Delete "u1" reference.world0 = (Ok tt, w1) /\
      redis w1 !! "user:u1" = None) /\
  redis (snd (userRepository.Update (H := reference.libraries)
                reference.edited reference.world0)) !! "user:u1"
  = Some (mkEntry (JUser reference.edited) (Some (5000 + userRepository.userCacheTTL))).
Proof.
  destruct (@mutations_cache_discipline reference.libraries reference.world0 "u1"
              eq_refl eq_refl) as (Hpassword & Hstatus & Hdelete & Hupdate).
  split; [exact (Hpassword "$2a$new")|].
  split.
  - destruct (Hstatus UserStatusBlocked) as (w1 & E & Hnone & Hread).
    exists w1. split; [exact E|]. split; [exact Hnone|].
    exact (Hread reference.alice 6000 eq_refl).
  - split; [exact Hdelete|].
    apply (Hupdate reference.edited _ (JUser reference.edited)).
    + reflexivity.
    + vm_compute. reflexivity.
    + vm_compute. reflexivity.
Defined.

Lemma storeToken_ignores_expiry_witness :
  exists w1 ex,
    tokenRepository.storeToken (H := reference.libraries) reference.stale
      tokenRepository.accessTokenPrefix reference.world0 = (Ok tt, w1) /\
    time_Sub (Expiration reference.stale) (clock reference.world0) <= 0 /\
    redis w1 !! (tokenRepository.accessTokenPrefix +:+ TokenID reference.stale)
    = Some (mkEntry (JToken reference.stale) ex) /\
    In (CacheSet (tokenRepository.accessTokenPrefix +:+ TokenID reference.stale)) (events w1).
Proof.
  apply (@storeToken_ignores_expiry reference.libraries reference.world0 reference.stale
           tokenRepository.accessTokenPrefix).
  - left. reflexivity.
  - vm_compute. discriminate.
  - vm_compute. reflexivity.
  - reflexivity.
Defined.

Lemma login_ignores_status_witness :
  (exists resp w1,
     authUseCase.Login (H := reference.libraries) reference.service
       "bob@example.com" "hunter2" reference.world0 = (Ok resp, w1) /\
     lr_User resp = reference.bob) /\
  fst (userUseCase.Authenticate (H := reference.libraries)
         "bob@example.com" "hunter2" reference.world0)
  = Err (ErrNew "user account is not active").
Proof.
  apply (@login_ignores_status reference.libraries reference.service reference_signs
           reference.world0 "bob@example.com" "hunter2" reference.bob).
  - reflexivity.
  - reflexivity.
  - vm_compute. reflexivity.
  - vm_compute. discriminate.
  - vm_compute. reflexivity.
  - vm_compute. reflexivity.
  - vm_compute. reflexivity.
Defined.

Lemma refresh_stores_before_revoking_witness :
  let a := mkTokenDetails "a2" "u1" AccessToken (5000 + accessDuration reference.service) in
  let r := mkTokenDetails "r2" "u1" RefreshToken (5000 + refreshDuration reference.service) in
  exists tokens wmid sets,
    tokenService.createToken (H := reference.libraries) reference.service a
    = Ok (at_AccessToken tokens) /\
    tokenService.createToken (H := reference.libraries) reference.service r
    = Ok (at_RefreshToken tokens) /\
    (exists ea, redis wmid !! (tokenRepository.accessTokenPrefix +:+ TokenID a)
                = Some (mkEntry (JToken a) ea)) /\
    (exists er, redis wmid !! (tokenRepository.refreshTokenPrefix +:+ TokenID r)
                = Some (mkEntry (JToken r) er)) /\
    events wmid = sets ++ events reference.flaky /\
    Forall (fun e => is_del e = false) sets /\
    faults wmid = Nat.iter 5 tail (faults reference.flaky) /\
    forall res w2,
      tokenRepository.DeleteToken "r1" RefreshToken wmid = (res, w2) ->
      authUseCase.RefreshToken (H := reference.libraries) reference.service
        reference.refresh1 reference.flaky =
        (Ok tokens,
         match res with
         | Ok _ => w2
         | Err _ => with_events (Log WarnLevel "Failed to delete old refresh token"
                                  :: events w2) w2
         end) /\
      exists dels, events w2 = dels ++ events wmid /\
                   Forall (fun e => is_set e = false) dels.
Proof.
  apply (@refresh_stores_before_revoking reference.libraries reference.service
           reference_signs reference.flaky reference.refresh1
           (mkTokenClaims "r1" "u1" RefreshToken)
           (mkTokenDetails "r1" "u1" RefreshToken 604800000005000)
           (Some 604800000005000)).
  - vm_compute. reflexivity.
  - reflexivity.
  - vm_compute. reflexivity.
  - vm_compute. reflexivity.
  - vm_compute. reflexivity.
  - reflexivity.
  - reflexivity.
  - reflexivity.
Defined.

Lemma DeleteToken_idempotent_witness :
  (fst (tokenRepository.DeleteToken "r1" RefreshToken reference.world0) = Ok tt /\
   redis (snd (tokenRepository.DeleteToken "r1" RefreshToken reference.world0))
   = redis reference.world0) /\
  (let once := tokenRepository.DeleteToken "r1" RefreshToken (snd reference.session) in
   let twice := tokenRepository.DeleteToken "r1" RefreshToken (snd once) in
   fst once = Ok tt /\ fst twice = Ok tt /\ redis (snd twice) = redis (snd once)).
Proof.
  split.
  - apply (DeleteToken_idempotent reference.world0 "r1" RefreshToken).
    vm_compute. reflexivity.
  - apply (DeleteToken_idempotent (snd reference.session) "r1" RefreshToken).
    vm_compute. reflexivity.
Defined.

Lemma register_discards_lookup_error_witness :
  flag 0 (faults reference.outage) = true /\
  fst (userUseCase.Register (H := reference.libraries)
         "carol@example.com" "carol" "pw" "Carol" "C" reference.outage)
  = Ok reference.carol /\
  users (snd (userUseCase.Register (H := reference.libraries)
                "carol@example.com" "carol" "pw" "Carol" "C" reference.outage))
  = [reference.alice; reference.bob; reference.carol].
Proof.
  split; [reflexivity|].
  destruct (@register_discards_lookup_error reference.libraries reference.outage
              "carol@example.com" "carol" "pw" "Carol" "C" "$2a$pw")
    as (wc & _ & _ & _ & Hcreated).
  - reflexivity.
  - left. reflexivity.
  - right. vm_compute. reflexivity.
  - reflexivity.
  - apply Hcreated.
    + reflexivity.
    + vm_compute. reflexivity.
Defined.

(** ** Where the code departs from the specification *)

(** C4, as stated, fails for [Update]: Alice's cache entry, absent before
    the call, is written from the value passed in, for thirty minutes. *)
Lemma update_refreshes_cache :
  fst (userRepository.Update (H := reference.libraries) reference.edited reference.world0)
  = Ok tt /\
  redis reference.world0 !! "user:u1" = None /\
  redis (snd (userRepository.Update (H := reference.libraries)
                reference.edited reference.world0)) !! "user:u1"
  = Some (mkEntry (JUser reference.edited) (Some (5000 + 30 * time_Minute))).
Proof. vm_compute. repeat split. Qed.

(** C5, as stated, fails: a token that expired before [storeToken] ran
    is stored, without expiry, and the call returns nil. *)
Lemma storeToken_stores_dead_entry :
  fst (tokenRepository.storeToken (H := reference.libraries) reference.stale
         tokenRepository.accessTokenPrefix reference.world0) = Ok tt /\
  time_Sub (Expiration reference.stale) (clock reference.world0) = -1000 /\
  redis (snd (tokenRepository.storeToken (H := reference.libraries) reference.stale
                tokenRepository.accessTokenPrefix reference.world0)) !! "access_token:a9"
  = Some (mkEntry (JToken reference.stale) None).
Proof. vm_compute. repeat split. Qed.

(** ** The reference world, run *)

(** Alice's login issues the pair [access1], [refresh1]. *)
Example session_issues_pair :
  option_map (fun resp => (at_AccessToken (lr_AuthTokens resp),
                           at_RefreshToken (lr_AuthTokens resp)))
             (match fst reference.session with Ok resp => Some resp | Err _ => None end)
  = Some (reference.access1, reference.refresh1).
Proof. vm_compute. reflexivity. Qed.

(** With the store refusing the final delete, refresh still returns the
    new pair; the warning is the last thing logged and the old record is
    still there. *)
Example refresh_survives_failed_revocation :
  let run := authUseCase.RefreshToken (H := reference.libraries) reference.service
               reference.refresh1 reference.flaky in
  fst run = Ok (mkAuthTokens "jaj2sus1tatctctetsts" "jrj2sus1trtetftrtetsth" 900000005000) /\
  hd_error (events (snd run)) = Some (Log WarnLevel "Failed to delete old refresh token") /\
  is_Some (redis (snd run) !! "refresh_token:r1").
Proof. vm_compute. repeat split. eexists. reflexivity. Qed.

(** During the outage a second registration under Alice's email is not
    answered with [ErrEmailAlreadyExists]: the lookup's failure is
    dropped and it is the unique index that refuses the insert. *)
Example register_taken_email_during_outage :
  fst (userUseCase.Register (H := reference.libraries)
         "alice@example.com" "alice2" "pw" "Alice" "Again" reference.outage)
  = Err (ErrWrap "failed to create user" (ErrDriver "E11000 duplicate key error")).
Proof. vm_compute. reflexivity. Qed.

(** A second read of a user comes from the cache, where the password
    hash was never written. *)
Example cached_user_has_no_password :
  let first := userRepository.GetByID (H := reference.libraries) "u1" reference.world0 in
  let second := userRepository.GetByID (H := reference.libraries) "u1" (snd first) in
  option_map Password (match fst first with Ok u => u | Err _ => None end)
  = Some "$2a$secret" /\
  option_map Password (match fst second with Ok u => u | Err _ => None end)
  = Some EmptyString.
Proof. vm_compute. split; reflexivity. Qed.


(** * More of the code *)

(** Case analysis on every scrutinee the goal still branches on. *)
Ltac split_matches :=
  repeat (cbn;
          match goal with
          | |- context [match ?x with _ => _ end] =>
            lazymatch x with
            | context [match _ with _ => _ end] => fail
            | _ => destruct x eqn:?
            end
          end).

(** ** What the token repository returns when the store answers *)

Section MoreTokens.
Context `{Libraries}.
Variable svc : tokenService.
Hypothesis paseto_roundtrip : forall c f tok,
  paseto_Sign (privateKey svc) c f = Ok tok -> paseto_Verify tok (publicKey svc) = Ok c.
Hypothesis paseto_signs : forall c f, exists tok, paseto_Sign (privateKey svc) c f = Ok tok.

Lemma storeToken_ok w d prefix :
  faults w = [] ->
  rfc3339_ok (Expiration d) = true ->
  tokenRepository.storeToken d prefix w =
    (Ok tt,
     mkWorld (stored d prefix (clock w) (redis w))
             (users w) (dbInstance w) (clock w) (entropy w) (drawn w) []
             (CacheSet (indexKey (td_UserID d) (td_TokenType d) (TokenID d))
              :: CacheSet (prefix +:+ TokenID d) :: events w)).
Proof.
  intros Hf Hj.
  destruct w as [m us db now ent n fs ev]; simpl in *; subst fs.
  unfold stored, indexKey. run_tokens. rewrite Hj. reflexivity.
Qed.

Lemma lookup_live_insert_ne m t key key' e :
  key ≠ key' ->
  cache.lookup_live (<[key := e]> m) t key' = cache.lookup_live m t key'.
Proof. intros Hne. unfold cache.lookup_live. rewrite lookup_insert_ne by exact Hne. reflexivity. Qed.

Lemma lookup_live_delete_ne m t key key' :
  key ≠ key' ->
  cache.lookup_live (delete key m) t key' = cache.lookup_live m t key'.
Proof. intros Hne. unfold cache.lookup_live. rewrite lookup_delete_ne by exact Hne. reflexivity. Qed.

Lemma lookup_live_delete_eq m t key :
  cache.lookup_live (delete key m) t key = None.
Proof. unfold cache.lookup_live. rewrite lookup_delete_eq. reflexivity. Qed.

Lemma lookup_live_fresh m now t key v ttl :
  0 < ttl ->
  cache.lookup_live (<[key := mkEntry v (cache.expiry m now key ttl)]> m) t key =
    if decide (t < now + ttl) then Some (mkEntry v (Some (now + ttl))) else None.
Proof.
  intros Httl. unfold cache.lookup_live. rewrite lookup_insert_eq.
  rewrite expiry_positive by assumption. unfold cache.live. cbn.
  destruct (decide (t < now + ttl)).
  - rewrite bool_decide_eq_true_2 by assumption. reflexivity.
  - rewrite bool_decide_eq_false_2 by assumption. reflexivity.
Qed.

(** The record [storeToken] wrote is there until the token expires. *)
Lemma lookup_stored_primary d prefix now m t key :
  key = prefix +:+ TokenID d ->
  prefix = tokenRepository.accessTokenPrefix \/
  prefix = tokenRepository.refreshTokenPrefix ->
  now < Expiration d ->
  Expiration d - now <= maxDuration ->
  cache.lookup_live (stored d prefix now m) t key =
    if decide (t < Expiration d) then Some (mkEntry (JToken d) (Some (Expiration d)))
    else None.
Proof.
  intros -> Hp Hfut Hrange. unfold stored.
  assert (Httl : time_Sub (Expiration d) now = Expiration d - now)
    by (unfold time_Sub, minDuration; unfold maxDuration in *; lia).
  rewrite lookup_live_insert_ne.
  2: { unfold indexKey. destruct Hp as [-> | ->]; symmetry;
         [apply access_ne_index | apply refresh_ne_index]. }
  rewrite Httl, lookup_live_fresh by lia.
  replace (now + (Expiration d - now)) with (Expiration d) by lia. reflexivity.
Qed.

(** Other keys are as they were. *)
Lemma lookup_stored_other d prefix now m key :
  key ≠ prefix +:+ TokenID d ->
  key ≠ indexKey (td_UserID d) (td_TokenType d) (TokenID d) ->
  stored d prefix now m !! key = m !! key.
Proof.
  intros Hpk Hik. unfold stored.
  rewrite lookup_insert_ne by (symmetry; exact Hik).
  rewrite lookup_insert_ne by (symmetry; exact Hpk). reflexivity.
Qed.

Lemma lookup_live_stored_other d prefix now m t key :
  key ≠ prefix +:+ TokenID d ->
  key ≠ indexKey (td_UserID d) (td_TokenType d) (TokenID d) ->
  cache.lookup_live (stored d prefix now m) t key = cache.lookup_live m t key.
Proof.
  intros Hpk Hik. unfold cache.lookup_live.
  rewrite lookup_stored_other by assumption. reflexivity.
Qed.

Lemma GetToken_result w tokenID tokenType :
  faults w = [] ->
  fst (tokenRepository.GetToken tokenID tokenType w) =
    match cache.lookup_live (redis w) (clock w) (primaryKey tokenType tokenID) with
    | None => Ok None
    | Some e =>
      match json_Unmarshal_TokenDetails (value e) with
      | Ok d => Ok (Some d)
      | Err err => Err (ErrWrap "failed to unmarshal token details" err)
      end
    end.
Proof.
  intros Hf. destruct w as [m us db now ent n fs ev]; simpl in *; subst fs.
  unfold primaryKey. run_tokens. cbn.
  destruct (cache.lookup_live m now _) as [[v ex]|]; cbn; [|reflexivity].
  destruct (json_Unmarshal_TokenDetails v); reflexivity.
Qed.

Lemma ValidateToken_result w token claims :
  tokenService.ValidateToken svc token = Ok claims ->
  tc_TokenType claims = AccessToken ->
  faults w = [] ->
  fst (authUseCase.ValidateToken svc token w) =
    match cache.lookup_live (redis w) (clock w)
            (tokenRepository.accessTokenPrefix +:+ tc_TokenID claims) with
    | None => Err ErrInvalidToken
    | Some e =>
      match json_Unmarshal_TokenDetails (value e) with
      | Ok _ => Ok (tc_UserID claims)
      | Err err => Err (ErrWrap "failed to get access token"
                          (ErrWrap "failed to unmarshal token details" err))
      end
    end.
Proof.
  intros Hv Hty Hf. destruct w as [m us db now ent n fs ev]; simpl in *; subst fs.
  unfold authUseCase.ValidateToken. rewrite Hv.
  rewrite bool_decide_eq_false_2 by (intros Hne; apply Hne; exact Hty).
  run_tokens. cbn.
  destruct (cache.lookup_live m now _) as [[v ex]|]; cbn; [|reflexivity].
  destruct (json_Unmarshal_TokenDetails v); reflexivity.
Qed.

(** X1: a token stored by [StoreAccessToken] or [StoreRefreshToken] while
    its expiration is ahead is returned by [GetToken], under the same
    kind, at every instant before that expiration, and from the
    expiration on [GetToken] returns no token and no error: the
    store's time-to-live ends the record exactly when the token
    expires. (No backend call fails; the duration is an int64.) *)
Theorem store_then_get w d tokenType :
  tokenType = AccessToken \/ tokenType = RefreshToken ->
  faults w = [] ->
  rfc3339_ok (Expiration d) = true ->
  clock w < Expiration d ->
  Expiration d - clock w <= maxDuration ->
  let store := if decide (tokenType = AccessToken)
               then tokenRepository.StoreAccessToken d
               else tokenRepository.StoreRefreshToken d in
  fst (store w) = Ok tt /\
  forall t,
    fst (tokenRepository.GetToken (TokenID d) tokenType (with_clock t (snd (store w)))) =
      if decide (t < Expiration d) then Ok (Some d) else Ok None.
Proof.
  intros Hty Hf Hj Hfut Hrange store.
  assert (Hstore : store w =
            tokenRepository.storeToken d
              (if decide (tokenType = AccessToken) then tokenRepository.accessTokenPrefix
               else tokenRepository.refreshTokenPrefix) w).
  { subst store. destruct (decide (tokenType = AccessToken)); reflexivity. }
  rewrite Hstore, (storeToken_ok w d _ Hf Hj). cbn. split; [reflexivity|].
  intros t. rewrite GetToken_result by reflexivity. cbn. unfold primaryKey.
  rewrite (lookup_stored_primary d); [| reflexivity | | assumption | assumption].
  - destruct (decide (t < Expiration d)); reflexivity.
  - destruct (decide (tokenType = AccessToken)); [left | right]; reflexivity.
Qed.

Lemma DeleteToken_ok w tokenID tokenType e d :
  faults w = [] ->
  cache.lookup_live (redis w) (clock w) (primaryKey tokenType tokenID) = Some e ->
  value e = JToken d ->
  tokenRepository.DeleteToken tokenID tokenType w =
    (Ok tt,
     mkWorld (delete (indexKey (td_UserID d) tokenType tokenID)
                     (delete (primaryKey tokenType tokenID) (redis w)))
             (users w) (dbInstance w) (clock w) (entropy w) (drawn w) []
             (CacheDel (indexKey (td_UserID d) tokenType tokenID)
              :: CacheDel (primaryKey tokenType tokenID) :: events w)).
Proof.
  intros Hf Hlive Hval.
  destruct w as [m us db now ent n fs ev], e as [v ex]; simpl in *; subst fs v.
  unfold primaryKey, indexKey in *. run_tokens.
  destruct (decide (tokenType = AccessToken)); simpl in *; rewrite Hlive; reflexivity.
Qed.

(** X2: [Logout] with the id of a stored access token returns nil;
    afterwards [ValidateToken] rejects that token with
    [ErrInvalidToken] at every instant, and no refresh-token record
    has been touched. *)
Theorem logout_revokes_access_only w token claims e d :
  tokenService.ValidateToken svc token = Ok claims ->
  tc_TokenType claims = AccessToken ->
  cache.lookup_live (redis w) (clock w)
    (tokenRepository.accessTokenPrefix +:+ tc_TokenID claims) = Some e ->
  value e = JToken d ->
  faults w = [] ->
  exists w1,
    authUseCase.Logout (tc_TokenID claims) w = (Ok tt, w1) /\
    (forall t, fst (authUseCase.ValidateToken svc token (with_clock t w1))
               = Err ErrInvalidToken) /\
    (forall id, redis w1 !! (tokenRepository.refreshTokenPrefix +:+ id)
                = redis w !! (tokenRepository.refreshTokenPrefix +:+ id)).
Proof.
  intros Hv Hty Hlive Hval Hf.
  unfold authUseCase.Logout. monad.
  rewrite (DeleteToken_ok w (tc_TokenID claims) AccessToken e d Hf Hlive Hval).
  eexists. split; [reflexivity|]. split.
  - intros t. rewrite (ValidateToken_result _ token claims Hv Hty) by reflexivity.
    cbn. rewrite lookup_live_delete_ne by (symmetry; apply access_ne_index).
    change (primaryKey AccessToken (tc_TokenID claims))
      with (tokenRepository.accessTokenPrefix +:+ tc_TokenID claims).
    rewrite lookup_live_delete_eq. reflexivity.
  - intros id. cbn.
    rewrite lookup_delete_ne by (symmetry; apply refresh_ne_index).
    rewrite lookup_delete_ne by (apply access_ne_refresh). reflexivity.
Qed.

(** X3: the two strings of a pair issued by [GenerateTokens] are not
    interchangeable. [ValidateToken] rejects the refresh token with
    [ErrInvalidToken] and [RefreshToken] rejects the access token
    with [ErrInvalidRefreshToken], in every world and without
    changing it. *)
Theorem issued_tokens_keep_their_kind w userID tokens a r w1 :
  tokenService.GenerateTokens svc userID w = (Ok (tokens, a, r), w1) ->
  forall w',
    authUseCase.ValidateToken svc (at_RefreshToken tokens) w' = (Err ErrInvalidToken, w') /\
    authUseCase.RefreshToken svc (at_AccessToken tokens) w'
    = (Err ErrInvalidRefreshToken, w').
Proof.
  unfold tokenService.GenerateTokens. monad. cbn.
  destruct (tokenService.createToken svc _) as [atok|] eqn:Ea; [|discriminate].
  destruct (tokenService.createToken svc _) as [rtok|] eqn:Er in |- *; [|discriminate].
  intros [= <- <- <- <-] w'. cbn.
  unfold authUseCase.ValidateToken, authUseCase.RefreshToken.
  rewrite (createToken_verifies svc paseto_roundtrip _ _ Ea),
          (createToken_verifies svc paseto_roundtrip _ _ Er). cbn.
  split; reflexivity.
Qed.

Lemma Login_ok w email password u :
  dbInstance w = MongoClient ->
  faults w = [] ->
  find (mongo.by_email email) (users w) = Some u ->
  utils.CheckPasswordHash password (Password u) = true ->
  rfc3339_ok (clock w + accessDuration svc) = true ->
  rfc3339_ok (clock w + refreshDuration svc) = true ->
  let a := mkTokenDetails (entropy w (drawn w)) (ID u) AccessToken
                          (clock w + accessDuration svc) in
  let r := mkTokenDetails (entropy w (S (drawn w))) (ID u) RefreshToken
                          (clock w + refreshDuration svc) in
  exists atok rtok,
    tokenService.createToken svc a = Ok atok /\
    tokenService.createToken svc r = Ok rtok /\
    authUseCase.Login svc email password w =
      (Ok (mkLoginResponse u (mkAuthTokens atok rtok (Expiration a))),
       mkWorld (stored r tokenRepository.refreshTokenPrefix (clock w)
                  (stored a tokenRepository.accessTokenPrefix (clock w) (redis w)))
               (users w) (dbInstance w) (clock w) (entropy w) (S (S (drawn w))) []
               (CacheSet (indexKey (ID u) RefreshToken (TokenID r))
                :: CacheSet (tokenRepository.refreshTokenPrefix +:+ TokenID r)
                :: CacheSet (indexKey (ID u) AccessToken (TokenID a))
                :: CacheSet (tokenRepository.accessTokenPrefix +:+ TokenID a)
                :: events w)).
Proof.
  intros Hdb Hf Hfind Hpw Hja Hjr a r.
  destruct (GenerateTokens_ok svc paseto_signs w (ID u)) as (atok & rtok & Ea & Er & Eg).
  exists atok, rtok. split; [exact Ea|]. split; [exact Er|].
  destruct w as [m us db now ent n fs ev]; simpl in *; subst db fs.
  unfold authUseCase.Login, userRepository.GetByEmail, userRepository.getUserByEmailMongo,
    mongo.FindOne, mongo.GetInstance; monad.
  cbn. rewrite Hfind, Hpw. cbn. rewrite Eg.
  unfold stored, indexKey. run_tokens. cbn. rewrite Hja, Hjr. reflexivity.
Qed.

(** X4: after a successful [Login] the access token validates to the
    user's id exactly until the [ExpiresAt] of the response, which is
    the login instant plus [accessDuration]: before it
    [ValidateToken] returns the id, from it on [ErrInvalidToken]. *)
Theorem access_token_validity_window w email password u :
  dbInstance w = MongoClient ->
  faults w = [] ->
  find (mongo.by_email email) (users w) = Some u ->
  utils.CheckPasswordHash password (Password u) = true ->
  rfc3339_ok (clock w + accessDuration svc) = true ->
  rfc3339_ok (clock w + refreshDuration svc) = true ->
  0 < accessDuration svc <= maxDuration ->
  exists resp w1,
    authUseCase.Login svc email password w = (Ok resp, w1) /\
    ExpiresAt (lr_AuthTokens resp) = clock w + accessDuration svc /\
    forall t,
      fst (authUseCase.ValidateToken svc (at_AccessToken (lr_AuthTokens resp))
             (with_clock t w1)) =
        if decide (t < ExpiresAt (lr_AuthTokens resp)) then Ok (ID u)
        else Err ErrInvalidToken.
Proof.
  intros Hdb Hf Hfind Hpw Hja Hjr Hdur.
  destruct (Login_ok w email password u Hdb Hf Hfind Hpw Hja Hjr)
    as (atok & rtok & Ea & Er & El).
  eexists _, _. split; [exact El|]. split; [reflexivity|].
  intros t. cbn [lr_AuthTokens at_AccessToken ExpiresAt Expiration].
  rewrite (ValidateToken_result _ atok _ (createToken_verifies svc paseto_roundtrip _ _ Ea))
    by reflexivity.
  cbn [redis clock with_clock tc_TokenID tc_UserID TokenID].
  rewrite lookup_live_stored_other
    by first [apply access_ne_refresh | unfold indexKey; apply access_ne_index].
  rewrite (lookup_stored_primary
             (mkTokenDetails (entropy w (drawn w)) (ID u) AccessToken
                             (clock w + accessDuration svc)))
    by first [reflexivity | left; reflexivity | cbn; lia].
  cbn. destruct (decide (t < clock w + accessDuration svc)); reflexivity.
Qed.

Lemma refresh_key_inj (a b : string) :
  tokenRepository.refreshTokenPrefix +:+ a = tokenRepository.refreshTokenPrefix +:+ b -> a = b.
Proof. cbn. intros [= E]. exact E. Qed.

Lemma RefreshToken_ok w d token ex :
  tokenService.createToken svc d = Ok token ->
  td_TokenType d = RefreshToken ->
  cache.lookup_live (redis w) (clock w)
    (tokenRepository.refreshTokenPrefix +:+ TokenID d) = Some (mkEntry (JToken d) ex) ->
  faults w = [] ->
  rfc3339_ok (clock w + accessDuration svc) = true ->
  rfc3339_ok (clock w + refreshDuration svc) = true ->
  entropy w (S (drawn w)) <> TokenID d ->
  let a := mkTokenDetails (entropy w (drawn w)) (td_UserID d) AccessToken
                          (clock w + accessDuration svc) in
  let r := mkTokenDetails (entropy w (S (drawn w))) (td_UserID d) RefreshToken
                          (clock w + refreshDuration svc) in
  exists atok rtok,
    tokenService.createToken svc a = Ok atok /\
    tokenService.createToken svc r = Ok rtok /\
    authUseCase.RefreshToken svc token w =
      (Ok (mkAuthTokens atok rtok (Expiration a)),
       mkWorld (delete (indexKey (td_UserID d) RefreshToken (TokenID d))
                  (delete (tokenRepository.refreshTokenPrefix +:+ TokenID d)
                     (stored r tokenRepository.refreshTokenPrefix (clock w)
                        (stored a tokenRepository.accessTokenPrefix (clock w) (redis w)))))
               (users w) (dbInstance w) (clock w) (entropy w) (S (S (drawn w))) []
               (CacheDel (indexKey (td_UserID d) RefreshToken (TokenID d))
                :: CacheDel (tokenRepository.refreshTokenPrefix +:+ TokenID d)
                :: CacheSet (indexKey (td_UserID d) RefreshToken (TokenID r))
                :: CacheSet (tokenRepository.refreshTokenPrefix +:+ TokenID r)
                :: CacheSet (indexKey (td_UserID d) AccessToken (TokenID a))
                :: CacheSet (tokenRepository.accessTokenPrefix +:+ TokenID a)
                :: events w)).
Proof.
  intros Hissued Hty Hlive Hf Hja Hjr Hfresh a r.
  destruct (createToken_signs svc paseto_signs a) as [atok Ea].
  destruct (createToken_signs svc paseto_signs r) as [rtok Er].
  exists atok, rtok. split; [exact Ea|]. split; [exact Er|].
  destruct w as [m us db now ent n fs ev]; simpl in *; subst fs.
  unfold authUseCase.RefreshToken.
  rewrite (createToken_verifies svc paseto_roundtrip _ _ Hissued). simpl.
  rewrite bool_decide_eq_false_2 by (intros Hne; apply Hne; exact Hty).
  unfold tokenRepository.GetToken at 1. run_cache. simpl. rewrite Hlive. simpl.
  unfold tokenService.GenerateTokens. monad. simpl. fold a r. rewrite Ea, Er.
  unfold tokenRepository.StoreAccessToken, tokenRepository.StoreRefreshToken.
  rewrite (storeToken_ok _ a) by first [reflexivity | exact Hja]. cbn - [stored].
  rewrite (storeToken_ok _ r) by first [reflexivity | exact Hjr]. cbn - [stored].
  erewrite (DeleteToken_ok _ (TokenID d) RefreshToken (mkEntry (JToken d) ex) d);
    [reflexivity | reflexivity | | reflexivity].
  cbn - [stored]. unfold primaryKey, cache.lookup_live. cbn - [stored].
  rewrite !lookup_stored_other.
  - exact Hlive.
  - apply not_eq_sym, access_ne_refresh.
  - unfold indexKey. apply refresh_ne_index.
  - cbn. intros [= E]. apply Hfresh. symmetry. exact E.
  - unfold indexKey. apply refresh_ne_index.
Qed.

(** X5: rotation can go on. After [RefreshToken] succeeds, the new
    access token validates to the same user until it expires, and the
    new refresh token is itself accepted by [RefreshToken]. *)
Theorem refresh_chain_continues w d token ex :
  tokenService.createToken svc d = Ok token ->
  td_TokenType d = RefreshToken ->
  cache.lookup_live (redis w) (clock w)
    (tokenRepository.refreshTokenPrefix +:+ TokenID d) = Some (mkEntry (JToken d) ex) ->
  faults w = [] ->
  rfc3339_ok (clock w + accessDuration svc) = true ->
  rfc3339_ok (clock w + refreshDuration svc) = true ->
  0 < accessDuration svc <= maxDuration ->
  0 < refreshDuration svc <= maxDuration ->
  entropy w (S (drawn w)) <> TokenID d ->
  exists tokens w1,
    authUseCase.RefreshToken svc token w = (Ok tokens, w1) /\
    (forall t, t < clock w + accessDuration svc ->
       fst (authUseCase.ValidateToken svc (at_AccessToken tokens) (with_clock t w1))
       = Ok (td_UserID d)) /\
    (exists tokens2 w2,
       authUseCase.RefreshToken svc (at_RefreshToken tokens) w1 = (Ok tokens2, w2)).
Proof.
  intros Hissued Hty Hlive Hf Hja Hjr Hda Hdr Hfresh.
  destruct (RefreshToken_ok w d token ex Hissued Hty Hlive Hf Hja Hjr Hfresh)
    as (atok & rtok & Ea & Er & E1).
  eexists _, _. split; [exact E1|]. cbn [at_AccessToken at_RefreshToken]. split.
  - intros t Ht.
    rewrite (ValidateToken_result _ atok _ (createToken_verifies svc paseto_roundtrip _ _ Ea))
      by reflexivity.
    cbn [redis clock with_clock tc_TokenID tc_UserID TokenID].
    rewrite lookup_live_delete_ne by (unfold indexKey; symmetry; apply access_ne_index).
    rewrite lookup_live_delete_ne by (symmetry; apply access_ne_refresh).
    rewrite lookup_live_stored_other
      by first [apply access_ne_refresh | unfold indexKey; apply access_ne_index].
    rewrite (lookup_stored_primary
               (mkTokenDetails (entropy w (drawn w)) (td_UserID d) AccessToken
                               (clock w + accessDuration svc)))
      by first [reflexivity | left; reflexivity | cbn; lia].
    cbn. destruct (decide (t < clock w + accessDuration svc)); [reflexivity | lia].
  - match goal with
    | |- context [authUseCase.RefreshToken svc rtok ?W1] =>
      destruct (createToken_signs svc paseto_signs
                  (mkTokenDetails (entropy W1 (drawn W1)) (td_UserID d) AccessToken
                                  (clock W1 + accessDuration svc))) as [atok2 Ea2];
      destruct (createToken_signs svc paseto_signs
                  (mkTokenDetails (entropy W1 (S (drawn W1))) (td_UserID d) RefreshToken
                                  (clock W1 + refreshDuration svc))) as [rtok2 Er2];
      destruct (RefreshToken_rotates svc paseto_roundtrip W1
                  (mkTokenDetails (entropy w (S (drawn w))) (td_UserID d) RefreshToken
                                  (clock w + refreshDuration svc))
                  rtok (Some (clock w + refreshDuration svc)) atok2 rtok2)
        as (w2 & E2 & _)
    end; try assumption; try reflexivity.
    + cbn [redis clock TokenID].
      rewrite lookup_live_delete_ne by (unfold indexKey; symmetry; apply refresh_ne_index).
      rewrite lookup_live_delete_ne
        by (intros E; apply refresh_key_inj in E; apply Hfresh; symmetry; exact E).
      rewrite (lookup_stored_primary
                 (mkTokenDetails (entropy w (S (drawn w))) (td_UserID d) RefreshToken
                                 (clock w + refreshDuration svc)))
        by first [reflexivity | right; reflexivity | cbn; lia].
      cbn. destruct (decide (clock w < clock w + refreshDuration svc)); [reflexivity | lia].
    + eexists _, _. exact E2.
Qed.

Lemma access_ne_user (a b : string) :
  userRepository.userCacheKeyPrefix +:+ b ≠ tokenRepository.accessTokenPrefix +:+ a.
Proof. discriminate. Qed.

Lemma refresh_ne_user (a b : string) :
  userRepository.userCacheKeyPrefix +:+ b ≠ tokenRepository.refreshTokenPrefix +:+ a.
Proof. discriminate. Qed.

(** The user use case touches no token record, and no backend fails
    in it that was not scheduled to. *)
Lemma UpdateStatus_frame w id status :
  faults w = [] ->
  let w1 := snd (userUseCase.UpdateStatus id status w) in
  faults w1 = [] /\ clock w1 = clock w /\
  forall key, key ≠ userRepository.userCacheKeyPrefix +:+ id -> redis w1 !! key = redis w !! key.
Proof.
  intros Hf. destruct w as [m us db now ent n fs ev]; simpl in *; subst fs.
  unfold userUseCase.UpdateStatus. run_users.
  split_matches; cbn; repeat split; try reflexivity; intros key Hkey;
    rewrite ?lookup_delete_ne, ?lookup_insert_ne by (symmetry; exact Hkey); reflexivity.
Qed.

Lemma Delete_frame w id :
  faults w = [] ->
  let w1 := snd (userUseCase.Delete id w) in
  faults w1 = [] /\ clock w1 = clock w /\
  forall key, key ≠ userRepository.userCacheKeyPrefix +:+ id -> redis w1 !! key = redis w !! key.
Proof.
  intros Hf. destruct w as [m us db now ent n fs ev]; simpl in *; subst fs.
  unfold userUseCase.Delete. run_users.
  split_matches; cbn; repeat split; try reflexivity; intros key Hkey;
    rewrite ?lookup_delete_ne, ?lookup_insert_ne by (symmetry; exact Hkey); reflexivity.
Qed.

(** X6: the user use case revokes no session. An access token that
    validates keeps validating after [UpdateStatus] (to [blocked],
    say) and after [Delete] of its user. *)
Theorem tokens_outlive_the_user w token claims e d status :
  tokenService.ValidateToken svc token = Ok claims ->
  tc_TokenType claims = AccessToken ->
  cache.lookup_live (redis w) (clock w)
    (tokenRepository.accessTokenPrefix +:+ tc_TokenID claims) = Some e ->
  value e = JToken d ->
  faults w = [] ->
  fst (authUseCase.ValidateToken svc token
         (snd (userUseCase.UpdateStatus (tc_UserID claims) status w)))
  = Ok (tc_UserID claims) /\
  fst (authUseCase.ValidateToken svc token
         (snd (userUseCase.Delete (tc_UserID claims) w)))
  = Ok (tc_UserID claims).
Proof.
  intros Hv Hty Hlive Hval Hf.
  destruct (UpdateStatus_frame w (tc_UserID claims) status Hf) as (Hf1 & Hc1 & Hr1).
  destruct (Delete_frame w (tc_UserID claims) Hf) as (Hf2 & Hc2 & Hr2).
  split.
  - rewrite (ValidateToken_result _ token claims Hv Hty Hf1).
    unfold cache.lookup_live in *. rewrite Hc1, Hr1 by (symmetry; apply access_ne_user).
    destruct (redis w !! _) as [e0|]; [|discriminate].
    destruct (cache.live (clock w) e0); [|discriminate].
    injection Hlive as ->. rewrite Hval. reflexivity.
  - rewrite (ValidateToken_result _ token claims Hv Hty Hf2).
    unfold cache.lookup_live in *. rewrite Hc2, Hr2 by (symmetry; apply access_ne_user).
    destruct (redis w !! _) as [e0|]; [|discriminate].
    destruct (cache.live (clock w) e0); [|discriminate].
    injection Hlive as ->. rewrite Hval. reflexivity.
Qed.

(** X7: [DeleteToken] undoes a store. After [StoreAccessToken] or
    [StoreRefreshToken], [DeleteToken] of that id and kind returns
    nil, the primary record and the per-user index entry are both
    gone, and if neither key existed before, the store is exactly
    what it was. *)
Theorem revoke_undoes_store w d tokenType :
  tokenType = AccessToken \/ tokenType = RefreshToken ->
  td_TokenType d = tokenType ->
  faults w = [] ->
  rfc3339_ok (Expiration d) = true ->
  clock w < Expiration d ->
  Expiration d - clock w <= maxDuration ->
  let store := if decide (tokenType = AccessToken)
               then tokenRepository.StoreAccessToken d
               else tokenRepository.StoreRefreshToken d in
  let revoke := tokenRepository.DeleteToken (TokenID d) tokenType (snd (store w)) in
  fst revoke = Ok tt /\
  redis (snd revoke) !! primaryKey tokenType (TokenID d) = None /\
  redis (snd revoke) !! indexKey (td_UserID d) tokenType (TokenID d) = None /\
  (redis w !! primaryKey tokenType (TokenID d) = None ->
   redis w !! indexKey (td_UserID d) tokenType (TokenID d) = None ->
   redis (snd revoke) = redis w).
Proof.
  intros Hty Hkind Hf Hj Hfut Hrange store revoke.
  assert (Hne : primaryKey tokenType (TokenID d)
                ≠ indexKey (td_UserID d) tokenType (TokenID d)).
  { unfold primaryKey, indexKey. destruct (decide (tokenType = AccessToken));
      [apply access_ne_index | apply refresh_ne_index]. }
  assert (Hstore : store w =
            tokenRepository.storeToken d
              (if decide (tokenType = AccessToken) then tokenRepository.accessTokenPrefix
               else tokenRepository.refreshTokenPrefix) w).
  { subst store. destruct (decide (tokenType = AccessToken)); reflexivity. }
  subst revoke. rewrite Hstore, (storeToken_ok w d _ Hf Hj). cbn [snd].
  rewrite (DeleteToken_ok _ (TokenID d) tokenType
             (mkEntry (JToken d) (Some (Expiration d))) d); [| reflexivity | | reflexivity].
  2: { cbn [redis clock]. unfold primaryKey.
       rewrite (lookup_stored_primary d); [| reflexivity | | assumption | assumption].
       - destruct (decide (clock w < Expiration d)); [reflexivity | lia].
       - destruct (decide (tokenType = AccessToken)); [left | right]; reflexivity. }
  cbn [fst snd redis]. split; [reflexivity|].
  split; [rewrite lookup_delete_ne by (symmetry; exact Hne); apply lookup_delete_eq|].
  split; [apply lookup_delete_eq|].
  intros Hpk Hik. unfold stored. rewrite Hkind.
  fold (primaryKey tokenType (TokenID d)).
  rewrite delete_insert_ne by exact Hne.
  rewrite (delete_insert_id (redis w)) by exact Hpk.
  apply delete_insert_id, Hik.
Qed.
End MoreTokens.


(** ** The user repository and use case *)

Lemma find_app_l {A} (P : A -> bool) (l l' : list A) x :
  find P l = Some x -> find P (l ++ l') = Some x.
Proof.
  induction l as [|y l IH]; [discriminate|]. cbn.
  destruct (P y); [trivial | exact IH].
Qed.

Lemma find_app_r {A} (P : A -> bool) (l l' : list A) :
  find P l = None -> find P (l ++ l') = find P l'.
Proof.
  induction l as [|y l IH]; [reflexivity|]. cbn.
  destruct (P y); [discriminate | exact IH].
Qed.

Lemma find_by_id_fresh id us :
  id ∉ map ID us -> find (mongo.by_id id) us = None.
Proof.
  induction us as [|v us IH]; [reflexivity|]. cbn. intros Hnin.
  apply not_elem_of_cons in Hnin as [Hne Hnin].
  unfold mongo.by_id at 1. rewrite bool_decide_eq_false_2 by congruence.
  apply IH, Hnin.
Qed.

Lemma find_delete_first id us :
  NoDup (map ID us) -> find (mongo.by_id id) (mongo.delete_first id us) = None.
Proof.
  induction us as [|v us IH]; [reflexivity|]. cbn. intros Hnd.
  apply NoDup_cons in Hnd as [Hnin Hnd].
  destruct (mongo.by_id id v) eqn:Hv.
  - apply bool_decide_eq_true_1 in Hv. subst id. apply find_by_id_fresh, Hnin.
  - cbn. rewrite Hv. apply IH, Hnd.
Qed.

Lemma find_delete_first_ne id id' us :
  id' ≠ id -> find (mongo.by_id id') (mongo.delete_first id us) = find (mongo.by_id id') us.
Proof.
  intros Hne. induction us as [|v us IH]; [reflexivity|]. cbn.
  destruct (mongo.by_id id v) eqn:Hv.
  - apply bool_decide_eq_true_1 in Hv.
    unfold mongo.by_id at 2. rewrite bool_decide_eq_false_2 by congruence. reflexivity.
  - cbn. rewrite IH. reflexivity.
Qed.

Lemma find_update_first_other (P : User -> bool) id f us u :
  find (mongo.by_id id) us = Some u ->
  find P us = Some u ->
  P (f u) = true ->
  find P (mongo.update_first id f us) = Some (f u).
Proof.
  intros Hid HP HPf. induction us as [|v us IH]; [discriminate|].
  cbn in *. destruct (mongo.by_id id v) eqn:Hv.
  - injection Hid as ->. cbn. rewrite HPf. reflexivity.
  - cbn. destruct (P v) eqn:HPv.
    + injection HP as ->. apply find_some in Hid as [_ Hid]. congruence.
    + apply IH; assumption.
Qed.

Lemma find_update_first_ne id id' f us :
  (forall v, ID (f v) = ID v) ->
  id' ≠ id ->
  find (mongo.by_id id') (mongo.update_first id f us) = find (mongo.by_id id') us.
Proof.
  intros Hf Hne. induction us as [|v us IH]; [reflexivity|]. cbn.
  destruct (mongo.by_id id v) eqn:Hv.
  - apply bool_decide_eq_true_1 in Hv. cbn. unfold mongo.by_id.
    rewrite Hf. rewrite !bool_decide_eq_false_2 by congruence. reflexivity.
  - cbn. rewrite IH. reflexivity.
Qed.

Lemma Forall_update_first (P : User -> Prop) id f us :
  (forall v, P v -> P (f v)) -> Forall P us -> Forall P (mongo.update_first id f us).
Proof.
  intros Hf. induction us as [|v us IH]; cbn; [trivial|]. intros Hall.
  apply Forall_cons in Hall as [Hv Hall].
  destruct (mongo.by_id id v); apply Forall_cons; auto.
Qed.

Lemma Forall_delete_first (P : User -> Prop) id us :
  Forall P us -> Forall P (mongo.delete_first id us).
Proof.
  induction us as [|v us IH]; cbn; [trivial|]. intros Hall.
  apply Forall_cons in Hall as [Hv Hall].
  destruct (mongo.by_id id v); [assumption | apply Forall_cons; auto].
Qed.

Lemma knownStatus_checked status :
  bool_decide (status ≠ UserStatusActive) && bool_decide (status ≠ UserStatusInactive)
    && bool_decide (status ≠ UserStatusBlocked) = false ->
  knownStatus status.
Proof.
  unfold knownStatus. intros Hc.
  destruct (decide (status = UserStatusActive)) as [|Ha]; [auto|].
  destruct (decide (status = UserStatusInactive)) as [|Hi]; [auto|].
  destruct (decide (status = UserStatusBlocked)) as [|Hb]; [auto|].
  rewrite !bool_decide_eq_true_2 in Hc by assumption. discriminate.
Qed.

Lemma userCacheTTL_positive : 0 < userRepository.userCacheTTL.
Proof. unfold userRepository.userCacheTTL, time_Minute. lia. Qed.

#[global] Arguments userRepository.GetByID : simpl never.

Section MoreUsers.
Context `{Libraries}.

(** What is assumed of bcrypt: the hash it generates for a password
    compares equal to that password, and the empty string is no hash
    of anything. *)
Hypothesis bcrypt_roundtrip : forall pw cost h,
  bcrypt_GenerateFromPassword pw cost = Ok h -> bcrypt_CompareHashAndPassword h pw = Ok tt.
Hypothesis bcrypt_rejects_empty : forall pw,
  utils.CheckPasswordHash pw EmptyString = false.

(** *** [GetByID], by where the answer comes from *)

Lemma repo_GetByID_hit w id e c :
  hd false (faults w) = false ->
  cache.lookup_live (redis w) (clock w) (userRepository.userCacheKeyPrefix +:+ id) = Some e ->
  value e = JUser c ->
  userRepository.GetByID id w = (Ok (Some c), with_faults (tl (faults w)) w).
Proof.
  intros Hf Hl Hv. destruct w as [m us db now ent n fs ev], e as [v ex]; simpl in *; subst v.
  run_users. cbn. rewrite Hf. cbn. rewrite Hl. reflexivity.
Qed.

Lemma repo_GetByID_miss w id :
  dbInstance w = MongoClient ->
  faults w = [] ->
  cache.lookup_live (redis w) (clock w) (userRepository.userCacheKeyPrefix +:+ id) = None ->
  userRepository.GetByID id w =
    match find (mongo.by_id id) (users w) with
    | None => (Ok None, w)
    | Some u =>
      if rfc3339_ok (CreatedAt u) && rfc3339_ok (UpdatedAt u)
      then (Ok (Some u),
            mkWorld (<[userRepository.userCacheKeyPrefix +:+ id :=
                         mkEntry (JUser (cachedCopy u))
                                 (Some (clock w + userRepository.userCacheTTL))]> (redis w))
                    (users w) (dbInstance w) (clock w) (entropy w) (drawn w) []
                    (CacheSet (userRepository.userCacheKeyPrefix +:+ id) :: events w))
      else (Ok (Some u), w)
    end.
Proof.
  intros Hdb Hf Hl. destruct w as [m us db now ent n fs ev]; simpl in *; subst db fs.
  run_users. unfold json_Marshal_User. cbn. rewrite Hl. cbn.
  destruct (find (mongo.by_id id) us) as [u|]; [|reflexivity]. cbn.
  destruct (rfc3339_ok (CreatedAt u) && rfc3339_ok (UpdatedAt u)); [|reflexivity]. cbn.
  rewrite expiry_positive by apply userCacheTTL_positive. reflexivity.
Qed.

(** *** Registration *)

Lemma Register_inv w email username password firstName lastName user w1 :
  dbInstance w = MongoClient ->
  faults w = [] ->
  userUseCase.Register email username password firstName lastName w = (Ok user, w1) ->
  exists h,
    utils.HashPassword password = Ok h /\
    user = mkUser (entropy w (drawn w)) email username h firstName lastName
                  UserRoleUser UserStatusActive (clock w) (clock w) /\
    find (mongo.by_email email) (users w) = None /\
    find (mongo.by_username username) (users w) = None /\
    w1 = mkWorld (redis w) (users w ++ [user]) MongoClient (clock w) (entropy w)
                 (S (drawn w)) [] (events w).
Proof.
  intros Hdb Hf. destruct w as [m us db now ent n fs ev]; simpl in *; subst db fs.
  unfold userUseCase.Register, NewUser. run_users. cbn.
  destruct (find (mongo.by_email email) us); cbn; [discriminate|].
  destruct (find (mongo.by_username username) us); cbn; [discriminate|].
  destruct (utils.HashPassword password) as [h|]; cbn; [|discriminate].
  destruct (mongo.duplicate _ us); cbn; [discriminate|].
  intros [= <- <-]. exists h. repeat split; reflexivity.
Qed.

(** X8: after a successful [Register], registering again with the same
    email fails with [ErrEmailAlreadyExists], and with an unused
    email but the same username with [ErrUsernameAlreadyExists]; the
    refused attempts leave the world as it was. *)
Theorem register_rejects_second w email username password firstName lastName user w1 :
  dbInstance w = MongoClient ->
  faults w = [] ->
  userUseCase.Register email username password firstName lastName w = (Ok user, w1) ->
  (forall username' password' firstName' lastName',
      userUseCase.Register email username' password' firstName' lastName' w1
      = (Err ErrEmailAlreadyExists, w1)) /\
  (forall email' password' firstName' lastName',
      find (mongo.by_email email') (users w1) = None ->
      userUseCase.Register email' username password' firstName' lastName' w1
      = (Err ErrUsernameAlreadyExists, w1)).
Proof.
  intros Hdb Hf Hreg.
  destruct (Register_inv _ _ _ _ _ _ _ _ Hdb Hf Hreg) as (h & _ & Hu & He & Hn & ->).
  assert (Hfe : find (mongo.by_email email) (users w ++ [user]) = Some user).
  { rewrite find_app_r by exact He. subst user. cbn. unfold mongo.by_email. cbn.
    rewrite bool_decide_eq_true_2 by reflexivity. reflexivity. }
  assert (Hfn : find (mongo.by_username username) (users w ++ [user]) = Some user).
  { rewrite find_app_r by exact Hn. subst user. cbn. unfold mongo.by_username. cbn.
    rewrite bool_decide_eq_true_2 by reflexivity. reflexivity. }
  split.
  - intros. unfold userUseCase.Register. run_users. cbn. rewrite Hfe. reflexivity.
  - intros email' ? ? ? Hnew. cbn in Hnew.
    unfold userUseCase.Register. run_users. cbn. rewrite Hnew. cbn. rewrite Hfn. reflexivity.
Qed.

(** X9: who has just registered can authenticate. [Authenticate] with
    the email and password of the registration returns the user
    [Register] returned, and [ErrInvalidCredentials] for a password
    the stored hash does not match. (bcrypt's generated hash compares
    equal to its password.) *)
Theorem register_then_authenticate w email username password firstName lastName user w1 :
  dbInstance w = MongoClient ->
  faults w = [] ->
  userUseCase.Register email username password firstName lastName w = (Ok user, w1) ->
  userUseCase.Authenticate email password w1 = (Ok user, w1) /\
  (forall password',
      utils.CheckPasswordHash password' (Password user) = false ->
      userUseCase.Authenticate email password' w1 = (Err ErrInvalidCredentials, w1)).
Proof.
  intros Hdb Hf Hreg.
  destruct (Register_inv _ _ _ _ _ _ _ _ Hdb Hf Hreg) as (h & Hh & Hu & He & Hn & ->).
  assert (Hfe : find (mongo.by_email email) (users w ++ [user]) = Some user).
  { rewrite find_app_r by exact He. subst user. cbn. unfold mongo.by_email. cbn.
    rewrite bool_decide_eq_true_2 by reflexivity. reflexivity. }
  assert (Hact : bool_decide (Status user ≠ UserStatusActive) = false).
  { subst user. apply bool_decide_eq_false_2. intros Hne. apply Hne. reflexivity. }
  assert (Hpw : utils.CheckPasswordHash password (Password user) = true).
  { subst user. cbn. unfold utils.CheckPasswordHash.
    rewrite (bcrypt_roundtrip _ _ _ Hh). reflexivity. }
  split.
  - unfold userUseCase.Authenticate. run_users. cbn. rewrite Hfe, Hact, Hpw. reflexivity.
  - intros password' Hbad.
    unfold userUseCase.Authenticate. run_users. cbn. rewrite Hfe, Hact, Hbad. reflexivity.
Qed.

(** *** Reading through the cache *)

(** X10: [GetByID] reads through the cache. On a miss it returns the
    stored document and caches it; for the next 30 minutes it answers
    from the cache with one backend call, whatever the document store
    holds or does, and the user it returns has an empty [Password];
    when the 30 minutes have passed the document store is read
    again. *)
Theorem getByID_read_through w id u :
  dbInstance w = MongoClient ->
  faults w = [] ->
  cache.lookup_live (redis w) (clock w) (userRepository.userCacheKeyPrefix +:+ id) = None ->
  find (mongo.by_id id) (users w) = Some u ->
  rfc3339_ok (CreatedAt u) = true ->
  rfc3339_ok (UpdatedAt u) = true ->
  exists w1,
    userUseCase.GetByID id w = (Ok u, w1) /\
    users w1 = users w /\
    (forall w2,
        redis w2 = redis w1 ->
        hd false (faults w2) = false ->
        clock w2 < clock w + userRepository.userCacheTTL ->
        userUseCase.GetByID id w2 = (Ok (cachedCopy u), with_faults (tl (faults w2)) w2)) /\
    (forall w2,
        redis w2 = redis w1 ->
        dbInstance w2 = MongoClient ->
        faults w2 = [] ->
        clock w + userRepository.userCacheTTL <= clock w2 ->
        fst (userUseCase.GetByID id w2) =
          match find (mongo.by_id id) (users w2) with
          | Some v => Ok v
          | None => Err ErrUserNotFound
          end).
Proof.
  intros Hdb Hf Hmiss Hfind Hc Hu.
  unfold userUseCase.GetByID. monad.
  rewrite (repo_GetByID_miss w id Hdb Hf Hmiss), Hfind, Hc, Hu. cbn.
  eexists. split; [reflexivity|]. split; [reflexivity|]. cbn. split.
  - intros w2 Hr Hf2 Ht.
    rewrite (repo_GetByID_hit w2 id
               (mkEntry (JUser (cachedCopy u))
                        (Some (clock w + userRepository.userCacheTTL))) (cachedCopy u));
      [reflexivity | exact Hf2 | | reflexivity].
    rewrite Hr. unfold cache.lookup_live. rewrite lookup_insert_eq.
    unfold cache.live. cbn. rewrite bool_decide_eq_true_2 by exact Ht. reflexivity.
  - intros w2 Hr Hdb2 Hf2 Ht.
    rewrite (repo_GetByID_miss w2 id Hdb2 Hf2).
    + destruct (find (mongo.by_id id) (users w2)) as [v|]; [|reflexivity].
      destruct (rfc3339_ok (CreatedAt v) && rfc3339_ok (UpdatedAt v)); reflexivity.
    + rewrite Hr. unfold cache.lookup_live. rewrite lookup_insert_eq.
      unfold cache.live. cbn. rewrite bool_decide_eq_false_2 by lia. reflexivity.
Qed.

(** *** Changing the password *)

(** X11: once [GetByID] has cached a user, [ChangePassword] fails with
    [ErrInvalidCredentials] for every old password, the right one
    included, and calls the document store not at all: the cached
    copy carries no password hash and the use case compares against
    it. (bcrypt rejects the empty hash.) *)
Theorem changePassword_fails_once_cached w id u :
  dbInstance w = MongoClient ->
  faults w = [] ->
  cache.lookup_live (redis w) (clock w) (userRepository.userCacheKeyPrefix +:+ id) = None ->
  find (mongo.by_id id) (users w) = Some u ->
  rfc3339_ok (CreatedAt u) = true ->
  rfc3339_ok (UpdatedAt u) = true ->
  forall oldPassword newPassword w2,
    redis w2 = redis (snd (userUseCase.GetByID id w)) ->
    hd false (faults w2) = false ->
    clock w2 < clock w + userRepository.userCacheTTL ->
    userUseCase.ChangePassword id oldPassword newPassword w2
    = (Err ErrInvalidCredentials, with_faults (tl (faults w2)) w2).
Proof.
  intros Hdb Hf Hmiss Hfind Hc Hu oldPassword newPassword w2.
  unfold userUseCase.GetByID, userUseCase.ChangePassword. monad.
  rewrite (repo_GetByID_miss w id Hdb Hf Hmiss), Hfind, Hc, Hu. cbn.
  intros Hr Hf2 Ht.
  rewrite (repo_GetByID_hit w2 id
             (mkEntry (JUser (cachedCopy u))
                      (Some (clock w + userRepository.userCacheTTL))) (cachedCopy u));
    [| exact Hf2 | | reflexivity].
  - cbn. rewrite bcrypt_rejects_empty. reflexivity.
  - rewrite Hr. unfold cache.lookup_live. rewrite lookup_insert_eq.
    unfold cache.live. cbn. rewrite bool_decide_eq_true_2 by exact Ht. reflexivity.
Qed.

Lemma repo_ChangePassword_ok w id h u :
  dbInstance w = MongoClient ->
  faults w = [] ->
  find (mongo.by_id id) (users w) = Some u ->
  userRepository.ChangePassword id h w =
    (Ok tt,
     mkWorld (delete (userRepository.userCacheKeyPrefix +:+ id) (redis w))
             (mongo.update_first id
                (fun d => mkUser (ID d) (Email d) (Username d) h (FirstName d)
                                 (LastName d) (Role d) (Status d) (CreatedAt d) (clock w))
                (users w))
             (dbInstance w) (clock w) (entropy w) (drawn w) []
             (CacheDel (userRepository.userCacheKeyPrefix +:+ id) :: events w)).
Proof.
  intros Hdb Hf Hfind. destruct w as [m us db now ent n fs ev]; simpl in *; subst db fs.
  run_users. cbn. rewrite Hfind. rewrite collides_same by reflexivity. reflexivity.
Qed.

(** X12: with no cached copy, [ChangePassword] with the right old
    password succeeds, leaves no cache entry for the user, and the
    user then authenticates with the new password and gets the
    document with the new hash. *)
Theorem changePassword_then_authenticate w id u oldPassword newPassword h :
  dbInstance w = MongoClient ->
  faults w = [] ->
  cache.lookup_live (redis w) (clock w) (userRepository.userCacheKeyPrefix +:+ id) = None ->
  find (mongo.by_id id) (users w) = Some u ->
  find (mongo.by_email (Email u)) (users w) = Some u ->
  Status u = UserStatusActive ->
  utils.CheckPasswordHash oldPassword (Password u) = true ->
  utils.HashPassword newPassword = Ok h ->
  exists w1,
    userUseCase.ChangePassword id oldPassword newPassword w = (Ok tt, w1) /\
    redis w1 !! (userRepository.userCacheKeyPrefix +:+ id) = None /\
    userUseCase.Authenticate (Email u) newPassword w1
    = (Ok (mkUser (ID u) (Email u) (Username u) h (FirstName u) (LastName u)
                  (Role u) (Status u) (CreatedAt u) (clock w)), w1).
Proof.
  intros Hdb Hf Hmiss Hfind Hmail Hact Hold Hh.
  unfold userUseCase.ChangePassword. monad.
  rewrite (repo_GetByID_miss w id Hdb Hf Hmiss), Hfind.
  set (f := fun (d : User) =>
              mkUser (ID d) (Email d) (Username d) h (FirstName d)
                     (LastName d) (Role d) (Status d) (CreatedAt d) (clock w)).
  assert (Hauth : forall m ev n,
    let w1 := mkWorld m (mongo.update_first id f (users w)) MongoClient (clock w)
                      (entropy w) n [] ev in
    userUseCase.Authenticate (Email u) newPassword w1 = (Ok (f u), w1)).
  { intros m ev n w1. unfold userUseCase.Authenticate. subst w1. run_users. cbn.
    rewrite (find_update_first_other _ id f (users w) u Hfind Hmail)
      by (unfold mongo.by_email; cbn; apply bool_decide_eq_true_2; reflexivity).
    cbn. rewrite bool_decide_eq_false_2 by (intros Hne; apply Hne; exact Hact).
    unfold utils.CheckPasswordHash. rewrite (bcrypt_roundtrip _ _ _ Hh). reflexivity. }
  destruct (rfc3339_ok (CreatedAt u) && rfc3339_ok (UpdatedAt u)); rewrite Hold, Hh; cbn.
  - rewrite (repo_ChangePassword_ok _ id h u) by first [exact Hdb | reflexivity | exact Hfind].
    cbn. eexists. split; [reflexivity|].
    split; [apply lookup_delete_eq|]. rewrite Hdb. apply Hauth.
  - rewrite (repo_ChangePassword_ok _ id h u) by first [exact Hdb | exact Hf | exact Hfind].
    cbn. eexists. split; [reflexivity|].
    split; [apply lookup_delete_eq|]. rewrite Hdb. apply Hauth.
Qed.

(** *** Who [Authenticate] lets in *)

(** X16: [Authenticate] returns only a user that is in the collection
    under that email, is active, and whose hash the password matches,
    and it changes neither store; for every fault schedule. *)
Theorem authenticate_only_active w email password user w1 :
  userUseCase.Authenticate email password w = (Ok user, w1) ->
  user ∈ users w /\
  Email user = email /\
  Status user = UserStatusActive /\
  utils.CheckPasswordHash password (Password user) = true /\
  users w1 = users w /\ redis w1 = redis w.
Proof.
  destruct w as [m us db now ent n fs ev].
  unfold userUseCase.Authenticate. run_users. cbn.
  destruct db; cbn; [|discriminate].
  destruct (hd false fs); cbn; [discriminate|].
  destruct (find (mongo.by_email email) us) as [u|] eqn:Hfind; cbn; [|discriminate].
  destruct (bool_decide (Status u ≠ UserStatusActive)) eqn:Hs; cbn; [discriminate|].
  destruct (utils.CheckPasswordHash password (Password u)) eqn:Hp; cbn; [|discriminate].
  intros [= <- <-]. apply find_some in Hfind as [Hin Hmail].
  apply bool_decide_eq_true_1 in Hmail. apply bool_decide_eq_false_1 in Hs.
  repeat split; try assumption; try reflexivity.
  - apply list_elem_of_In, Hin.
  - destruct (decide (Status u = UserStatusActive)); [assumption | contradiction].
Qed.

(** *** Deleting *)

Lemma Delete_inv w id :
  dbInstance w = MongoClient ->
  faults w = [] ->
  fst (userUseCase.Delete id w) = Ok tt ->
  let w1 := snd (userUseCase.Delete id w) in
  redis w1 !! (userRepository.userCacheKeyPrefix +:+ id) = None /\
  users w1 = mongo.delete_first id (users w) /\
  dbInstance w1 = MongoClient /\ faults w1 = [].
Proof.
  intros Hdb Hf. destruct w as [m us db now ent n fs ev]; simpl in *; subst db fs.
  unfold userUseCase.Delete, userRepository.GetByID. run_users.
  split_matches; cbn; intros; try discriminate;
    repeat split; try reflexivity; apply lookup_delete_eq.
Qed.

(** X15: after a successful [Delete], [GetByID] of that id returns
    [ErrUserNotFound] at every later instant, and every other user is
    found as before. (Ids are unique in the collection.) *)
Theorem delete_then_not_found w id :
  dbInstance w = MongoClient ->
  faults w = [] ->
  NoDup (map ID (users w)) ->
  fst (userUseCase.Delete id w) = Ok tt ->
  let w1 := snd (userUseCase.Delete id w) in
  (forall t, fst (userUseCase.GetByID id (with_clock t w1)) = Err ErrUserNotFound) /\
  (forall id', id' ≠ id ->
      find (mongo.by_id id') (users w1) = find (mongo.by_id id') (users w)).
Proof.
  intros Hdb Hf Hnd Hok.
  destruct (Delete_inv w id Hdb Hf Hok) as (Hr & Hu & Hdb1 & Hf1).
  cbn zeta. split.
  - intros t. unfold userUseCase.GetByID. monad.
    rewrite repo_GetByID_miss.
    + cbn. rewrite Hu, find_delete_first by exact Hnd. reflexivity.
    + exact Hdb1.
    + exact Hf1.
    + cbn. unfold cache.lookup_live. rewrite Hr. reflexivity.
  - intros id' Hne. rewrite Hu. apply find_delete_first_ne, Hne.
Qed.

(** *** Statuses *)

Ltac known_status :=
  cbn; try assumption;
  first
    [ apply Forall_delete_first; assumption
    | apply Forall_update_first; [intros v Hv; cbn; first [exact Hv | eauto using knownStatus_checked] | assumption]
    | apply Forall_app; split; [assumption | repeat constructor; cbn; left; reflexivity] ].

(** X13: [Register], [UpdateStatus], [ChangePassword] and [Delete] keep
    the status of every stored user among [active], [inactive] and
    [blocked], under every fault schedule and cache content. *)
Theorem statuses_stay_known w :
  Forall (fun u => knownStatus (Status u)) (users w) ->
  (forall email username password firstName lastName,
      Forall (fun u => knownStatus (Status u))
             (users (snd (userUseCase.Register email username password
                            firstName lastName w)))) /\
  (forall id status,
      Forall (fun u => knownStatus (Status u))
             (users (snd (userUseCase.UpdateStatus id status w)))) /\
  (forall id oldPassword newPassword,
      Forall (fun u => knownStatus (Status u))
             (users (snd (userUseCase.ChangePassword id oldPassword newPassword w)))) /\
  (forall id,
      Forall (fun u => knownStatus (Status u)) (users (snd (userUseCase.Delete id w)))).
Proof.
  intros Hall. destruct w as [m us db now ent n fs ev]; cbn in Hall.
  repeat split; intros.
  - unfold userUseCase.Register, NewUser. run_users. split_matches; known_status.
  - unfold userUseCase.UpdateStatus, userRepository.GetByID. run_users.
    split_matches; known_status.
  - unfold userUseCase.ChangePassword, userRepository.GetByID. run_users.
    split_matches; known_status.
  - unfold userUseCase.Delete, userRepository.GetByID. run_users.
    split_matches; known_status.
Qed.

(** *** A stale cached copy *)

(** X14: [Update] writes back the copy [GetByID] gave it. When the cache
    holds a copy of the user, the stored document receives the role
    and status of that copy along with the new names, not the ones
    that were stored: a status change whose cache eviction failed is
    reverted by the next profile update. *)
Theorem update_writes_back_cached_copy w id e c u firstName lastName :
  dbInstance w = MongoClient ->
  faults w = [] ->
  cache.lookup_live (redis w) (clock w) (userRepository.userCacheKeyPrefix +:+ id) = Some e ->
  value e = JUser c ->
  ID c = id ->
  find (mongo.by_id id) (users w) = Some u ->
  Email c = Email u ->
  Username c = Username u ->
  fst (userUseCase.Update id firstName lastName w)
  = Ok (mkUser id (Email c) (Username c) (Password c) firstName lastName
               (Role c) (Status c) (CreatedAt c) (clock w)) /\
  find (mongo.by_id id) (users (snd (userUseCase.Update id firstName lastName w)))
  = Some (mkUser (ID u) (Email u) (Username u) (Password u) firstName lastName
                 (Role c) (Status c) (CreatedAt u) (clock w)).
Proof.
  intros Hdb Hf Hlive Hval Hid Hfind Hmail Hname.
  unfold userUseCase.Update. monad.
  rewrite (repo_GetByID_hit w id e c) by first [rewrite Hf; reflexivity | assumption].
  destruct w as [m us db now ent n fs ev]; simpl in *; subst db fs.
  run_users. unfold json_Marshal_User. cbn. rewrite Hid, Hfind.
  rewrite collides_same by (cbn; assumption). cbn.
  set (f := fun d : User => mkUser (ID d) (Email c) (Username c) (Password d) firstName
                                   lastName (Role c) (Status c) (CreatedAt d) now).
  assert (Hnew : find (mongo.by_id id) (mongo.update_first id f us) = Some (f u)).
  { apply find_update_first; [exact Hfind|].
    apply find_some in Hfind as [_ Hu]. exact Hu. }
  subst f. cbn in Hnew. rewrite <- Hmail, <- Hname.
  destruct (rfc3339_ok (CreatedAt c) && rfc3339_ok now); cbn; split; first [reflexivity | exact Hnew].
Qed.
End MoreUsers.


(** ** Listing users *)

Lemma insert_desc_length u l : length (mongo.insert_desc u l) = S (length l).
Proof.
  induction l as [|v l IH]; [reflexivity|]. cbn.
  destruct (bool_decide (CreatedAt v <= CreatedAt u)); cbn; [reflexivity | rewrite IH; reflexivity].
Qed.

Lemma sort_desc_length us : length (mongo.sort_desc us) = length us.
Proof.
  unfold mongo.sort_desc. induction us as [|u us IH]; [reflexivity|]. cbn.
  rewrite insert_desc_length, IH. reflexivity.
Qed.

Lemma insert_desc_perm u l : mongo.insert_desc u l ≡ₚ u :: l.
Proof.
  induction l as [|v l IH]; [reflexivity|]. cbn.
  destruct (bool_decide (CreatedAt v <= CreatedAt u)); [reflexivity|].
  rewrite IH. apply Permutation_swap.
Qed.

Lemma sort_desc_perm us : mongo.sort_desc us ≡ₚ us.
Proof.
  unfold mongo.sort_desc. induction us as [|u us IH]; [reflexivity|]. cbn.
  rewrite insert_desc_perm, IH. reflexivity.
Qed.

Lemma insert_desc_sorted u l :
  Sorted (fun a b => CreatedAt b <= CreatedAt a) l ->
  Sorted (fun a b => CreatedAt b <= CreatedAt a) (mongo.insert_desc u l).
Proof.
  induction l as [|v l IH]; cbn; intros Hs.
  - repeat constructor.
  - destruct (bool_decide (CreatedAt v <= CreatedAt u)) eqn:Hb.
    + apply bool_decide_eq_true_1 in Hb. constructor; [assumption | constructor; assumption].
    + apply bool_decide_eq_false_1 in Hb. apply Sorted_inv in Hs as [Hs Hhd].
      constructor; [apply IH, Hs|].
      destruct l as [|x l]; cbn.
      * constructor. lia.
      * destruct (bool_decide (CreatedAt x <= CreatedAt u)); constructor; [lia|].
        apply HdRel_inv in Hhd. exact Hhd.
Qed.

Lemma sort_desc_sorted us :
  Sorted (fun a b => CreatedAt b <= CreatedAt a) (mongo.sort_desc us).
Proof.
  unfold mongo.sort_desc.
  induction us as [|u us IH]; cbn; [constructor | apply insert_desc_sorted, IH].
Qed.

Lemma Sorted_take {A} (R : A -> A -> Prop) (l : list A) k :
  Sorted R l -> Sorted R (take k l).
Proof.
  intros Hs. revert k.
  induction Hs as [|a l Hs IH Hhd]; intros [|k]; cbn; try constructor; [apply IH|].
  destruct Hhd as [|b l Hab]; destruct k; cbn; constructor. exact Hab.
Qed.

Lemma wrapInt_small z : - 2 ^ 63 <= z < 2 ^ 63 -> wrapInt z = z.
Proof. unfold wrapInt. intros Hz. rewrite Z.mod_small by lia. lia. Qed.

#[global] Arguments wrapInt : simpl never.
#[global] Arguments mongo.sort_desc : simpl never.

Ltac run_list :=
  unfold userUseCase.List, userRepository.List, userRepository.listUsersMongo,
    userRepository.unsupported, mongo.CountDocuments, mongo.Find, mongo.GetInstance;
  monad.

Section Listing.
Context `{Libraries}.

Lemma List_ok w page limit :
  dbInstance w = MongoClient ->
  faults w = [] ->
  0 <= wrapInt ((page - 1) * limit) ->
  limit ≠ 0 ->
  userUseCase.List page limit w =
    (Ok (take (Z.to_nat (Z.abs limit))
              (drop (Z.to_nat (wrapInt ((page - 1) * limit))) (mongo.sort_desc (users w))),
         Z.of_nat (length (users w))), w).
Proof.
  intros Hdb Hf Hoff Hl. destruct w as [m us db now ent n fs ev]; simpl in *; subst db fs.
  run_list. cbn.
  destruct (decide (wrapInt ((page - 1) * limit) < 0)); [lia|].
  destruct (decide (limit = 0)); [contradiction | reflexivity].
Qed.

(** X17: walking pages 1 to n of [List] with one limit yields the first
    n * limit users, newest first; when n * limit reaches the size of
    the collection, every user exactly once. (n * limit fits an
    int; the collection does not change between the calls, and
    documents of equal [created_at] come in the order [Find] is
    modelled to give them.) *)
Theorem list_pages_cover w limit n :
  dbInstance w = MongoClient ->
  faults w = [] ->
  1 <= limit ->
  Z.of_nat n * limit < 2 ^ 63 ->
  let pageUsers (p : nat) :=
    match fst (userUseCase.List (Z.of_nat p) limit w) with
    | Ok (us, _) => us
    | Err _ => []
    end in
  let walked := concat (map pageUsers (seq 1 n)) in
  walked = take (n * Z.to_nat limit) (mongo.sort_desc (users w)) /\
  Sorted (fun a b => CreatedAt b <= CreatedAt a) walked /\
  ((length (users w) <= n * Z.to_nat limit)%nat -> walked ≡ₚ users w).
Proof.
  intros Hdb Hf Hl Hn pageUsers walked.
  assert (Hwalk : walked = take (n * Z.to_nat limit) (mongo.sort_desc (users w))).
  { subst walked. induction n as [|n IH]; [reflexivity|].
    rewrite seq_S, map_app, concat_app, IH by lia. cbn [map concat].
    rewrite app_nil_r. subst pageUsers. cbn beta.
    rewrite List_ok by (try assumption; try lia; rewrite wrapInt_small; nia).
    cbn [fst]. rewrite wrapInt_small by nia.
    replace (Z.to_nat ((Z.of_nat (1 + n) - 1) * limit)) with (n * Z.to_nat limit)%nat by nia.
    replace (Z.to_nat (Z.abs limit)) with (Z.to_nat limit) by lia.
    rewrite take_take_drop. f_equal. lia. }
  split; [exact Hwalk|]. rewrite Hwalk. split.
  - apply Sorted_take, sort_desc_sorted.
  - intros Hall. rewrite take_ge by (rewrite sort_desc_length; exact Hall).
    apply sort_desc_perm.
Qed.

(** X18: whatever [page] and [limit] the query gives and whatever the
    backends do, a 200 answer of the [List] handler carries at most
    [limit] users, with [limit] between 1 and 100 and [page] at least
    1, and the stores are as they were. *)
Theorem list_answers_at_most_100 w page limit resp w1 :
  UserHandler.List page limit w = (resp, w1) ->
  StatusCode resp = StatusOK ->
  exists items total p l,
    Body resp = [("users", JArray items); ("total", JNumber total);
                 ("page", JNumber p); ("limit", JNumber l)] /\
    1 <= p /\ 1 <= l <= 100 /\
    Z.of_nat (length items) <= l /\
    users w1 = users w /\ redis w1 = redis w.
Proof.
  destruct w as [m us db now ent n fs ev].
  unfold UserHandler.List. run_list. cbn.
  set (p := if decide (page < 1) then 1 else page).
  set (l := if decide (limit < 1 \/ limit > 100) then 10 else limit).
  assert (Hp : 1 <= p) by (subst p; destruct (decide (page < 1)); lia).
  assert (Hlim : 1 <= l <= 100) by (subst l; destruct (decide (limit < 1 \/ limit > 100)); lia).
  destruct db; cbn; [|intros [= <- <-]; discriminate].
  destruct (hd false fs); cbn; [intros [= <- <-]; discriminate|].
  destruct (hd false (tl fs)); cbn; [intros [= <- <-]; discriminate|].
  destruct (decide (wrapInt ((p - 1) * l) < 0)); cbn; [intros [= <- <-]; discriminate|].
  destruct (decide (l = 0)); [lia|].
  intros [= <- <-] _. eexists _, _, p, l. split; [reflexivity|].
  repeat split; try lia.
  rewrite length_map, length_take. lia.
Qed.

(** X19: for a page so large that [(page - 1) * limit] overflows the
    int into a negative offset, the [List] handler answers 500: the
    document store refuses the negative skip. *)
Theorem list_page_overflow w page limit :
  dbInstance w = MongoClient ->
  faults w = [] ->
  1 <= page ->
  1 <= limit <= 100 ->
  wrapInt ((page - 1) * limit) < 0 ->
  fst (UserHandler.List page limit w)
  = failure StatusInternalServerError "Failed to list users".
Proof.
  intros Hdb Hf Hp Hl Hoff. destruct w as [m us db now ent n fs ev]; simpl in *; subst db fs.
  unfold UserHandler.List. run_list. cbn.
  destruct (decide (page < 1)); [lia|].
  destruct (decide (limit < 1 \/ limit > 100)); [lia|]. cbn.
  destruct (decide (wrapInt ((page - 1) * limit) < 0)); [reflexivity | lia].
Qed.
End Listing.


(** ** The HTTP layer *)

Lemma strings_Split_nonempty s : strings_Split s ≠ [].
Proof.
  destruct s as [|c s]; cbn; [discriminate|].
  destruct (decide (c = " "%char)); [discriminate|].
  destruct (strings_Split s); discriminate.
Qed.

Lemma strings_Split_one s b : strings_Split s = [b] -> s = b.
Proof.
  revert b. induction s as [|c s IH]; cbn; intros b.
  - intros [= <-]. reflexivity.
  - destruct (decide (c = " "%char)).
    + intros [= <- Hs]. destruct (strings_Split_nonempty _ Hs).
    + destruct (strings_Split s) as [|part parts] eqn:Hs.
      * destruct (strings_Split_nonempty _ Hs).
      * intros [= <- ->]. f_equal. apply IH. reflexivity.
Qed.

Lemma strings_Split_two s a b : strings_Split s = [a; b] -> s = a +:+ String " " b.
Proof.
  revert a. induction s as [|c s IH]; cbn; intros a.
  - discriminate.
  - destruct (decide (c = " "%char)) as [->|].
    + intros [= <- Hs]. apply strings_Split_one in Hs. subst s. reflexivity.
    + destruct (strings_Split s) as [|part parts] eqn:Hs.
      * destruct (strings_Split_nonempty _ Hs).
      * intros [= <- ->]. rewrite (IH part eq_refl) at 1. reflexivity.
Qed.

Lemma access_key_ne (a b : string) :
  a ≠ b -> tokenRepository.accessTokenPrefix +:+ a ≠ tokenRepository.accessTokenPrefix +:+ b.
Proof. intros Hne. cbn. intros [= E]. exact (Hne E). Qed.

Lemma strings_Split_space s : strings_Split (String " " s) = EmptyString :: strings_Split s.
Proof.
  unfold strings_Split; fold strings_Split.
  destruct (decide (" "%char = " "%char)); [reflexivity | contradiction].
Qed.

Lemma strings_Split_char c s part parts :
  c ≠ " "%char ->
  strings_Split s = part :: parts ->
  strings_Split (String c s) = String c part :: parts.
Proof.
  intros Hc Hs. unfold strings_Split; fold strings_Split.
  destruct (decide (c = " "%char)); [contradiction|]. rewrite Hs. reflexivity.
Qed.

Lemma strings_Split_bearer token :
  strings_Split token = [token] ->
  strings_Split ("Bearer " +:+ token) = ["Bearer"; token].
Proof.
  intros Hs.
  change ("Bearer " +:+ token)
    with (String "B" (String "e" (String "a" (String "r" (String "e" (String "r"
            (String " " token))))))).
  do 6 (apply strings_Split_char; [discriminate|]).
  rewrite strings_Split_space, Hs. reflexivity.
Qed.

#[global] Arguments strings_Split : simpl never.

Section Http.
Context `{Libraries}.
Variable svc : tokenService.

Lemma ValidateToken_frame w token :
  redis (snd (authUseCase.ValidateToken svc token w)) = redis w /\
  users (snd (authUseCase.ValidateToken svc token w)) = users w.
Proof.
  destruct w as [m us db now ent n fs ev].
  unfold authUseCase.ValidateToken. run_tokens. split_matches; split; reflexivity.
Qed.

Lemma ValidateToken_ok w token claims e d :
  tokenService.ValidateToken svc token = Ok claims ->
  tc_TokenType claims = AccessToken ->
  cache.lookup_live (redis w) (clock w)
    (tokenRepository.accessTokenPrefix +:+ tc_TokenID claims) = Some e ->
  value e = JToken d ->
  faults w = [] ->
  authUseCase.ValidateToken svc token w = (Ok (tc_UserID claims), w).
Proof.
  intros Hv Hty Hlive Hval Hf.
  destruct w as [m us db now ent n fs ev], e as [v ex]; simpl in *; subst fs v.
  unfold authUseCase.ValidateToken. rewrite Hv.
  rewrite bool_decide_eq_false_2 by (intros Hne; apply Hne; exact Hty).
  run_tokens. simpl. rewrite Hlive. reflexivity.
Qed.

Lemma DeleteToken_frame w tokenID tokenType :
  faults w = [] ->
  let r := tokenRepository.DeleteToken tokenID tokenType w in
  fst r = Ok tt /\ faults (snd r) = [] /\ clock (snd r) = clock w /\
  forall key,
    key ≠ primaryKey tokenType tokenID ->
    (forall uid, key ≠ indexKey uid tokenType tokenID) ->
    redis (snd r) !! key = redis w !! key.
Proof.
  intros Hf. destruct w as [m us db now ent n fs ev]; simpl in *; subst fs.
  unfold primaryKey, indexKey. run_tokens.
  split_matches; cbn; repeat split; try reflexivity; intros key Hpk Hik;
    rewrite ?lookup_delete_ne by first [symmetry; exact Hpk | symmetry; apply Hik];
    reflexivity.
Qed.

(** X20: [AuthMiddleware] calls the next handler only for a header of
    the form [Bearer token], with one space, whose token
    [ValidateToken] accepts; it has then stored that token's user id
    under [user_id] and changed neither store. *)
Theorem authMiddleware_admits_only_valid_bearer w authHeader locals locals' w' :
  middleware.AuthMiddleware svc authHeader locals w = (Next locals', w') ->
  exists token userID,
    authHeader = "Bearer " +:+ token /\
    fst (authUseCase.ValidateToken svc token w) = Ok userID /\
    locals' !! "user_id" = Some (LocalUUID userID) /\
    redis w' = redis w /\ users w' = users w.
Proof.
  unfold middleware.AuthMiddleware.
  destruct (decide (authHeader = EmptyString)); [discriminate|].
  destruct (strings_Split authHeader) as [|scheme [|token [|]]] eqn:Hs; try discriminate.
  destruct (decide (scheme ≠ "Bearer")) as [|Hb]; [discriminate|].
  assert (scheme = "Bearer") as -> by (destruct (decide (scheme = "Bearer")); tauto).
  apply strings_Split_two in Hs.
  destruct (ValidateToken_frame w token) as [Hr Hu]. monad.
  destruct (authUseCase.ValidateToken svc token w) as [[userID|err] w2] eqn:Hv;
    cbn [fst snd] in *.
  - intros [= <- <-]. exists token, userID. split; [exact Hs|].
    split; [rewrite Hv; reflexivity|].
    split; [|split; assumption].
    rewrite lookup_insert_ne by discriminate. apply lookup_insert_eq.
  - destruct (errors_Is err ErrInvalidToken || errors_Is err ErrExpiredToken); discriminate.
Qed.

(** X21: nothing in the program sets [user_role]. Behind
    [AuthMiddleware], [RoleMiddleware] answers every request with 403
    [Access denied], whatever roles it is given. *)
Theorem roleMiddleware_denies_behind_auth w authHeader locals locals' w' roles :
  locals !! "user_role" = None ->
  middleware.AuthMiddleware svc authHeader locals w = (Next locals', w') ->
  middleware.RoleMiddleware roles locals' = Respond (failure StatusForbidden "Access denied").
Proof.
  intros Hnone. unfold middleware.AuthMiddleware.
  destruct (decide (authHeader = EmptyString)); [discriminate|].
  destruct (strings_Split authHeader) as [|scheme [|token [|]]]; try discriminate.
  destruct (decide (scheme ≠ "Bearer")); [discriminate|]. monad.
  destruct (authUseCase.ValidateToken svc token w) as [[userID|err] w2].
  - intros [= <- <-]. unfold middleware.RoleMiddleware.
    rewrite !lookup_insert_ne by discriminate. rewrite Hnone. reflexivity.
  - destruct (errors_Is err ErrInvalidToken || errors_Is err ErrExpiredToken); discriminate.
Qed.

(** X22: POST /auth/logout with a valid access token answers 200
    [Successfully logged out] and leaves that token valid.
    [AuthMiddleware] stores a new [uuid.New()] under [token_id], so
    [Logout] revokes that id and not the one of the token
    presented. *)
Theorem http_logout_leaves_token_valid w token claims e d :
  tokenService.ValidateToken svc token = Ok claims ->
  tc_TokenType claims = AccessToken ->
  cache.lookup_live (redis w) (clock w)
    (tokenRepository.accessTokenPrefix +:+ tc_TokenID claims) = Some e ->
  value e = JToken d ->
  faults w = [] ->
  strings_Split token = [token] ->
  entropy w (drawn w) ≠ tc_TokenID claims ->
  exists w1,
    AuthHandler.postLogout svc ("Bearer " +:+ token) w
    = (message StatusOK "Successfully logged out", w1) /\
    fst (authUseCase.ValidateToken svc token w1) = Ok (tc_UserID claims).
Proof.
  intros Hv Hty Hlive Hval Hf Hsp Hfresh.
  unfold AuthHandler.postLogout, AuthHandler.protected, middleware.AuthMiddleware.
  destruct (decide ("Bearer " +:+ token = EmptyString)) as [Habs|_]; [discriminate Habs|].
  rewrite (strings_Split_bearer token Hsp).
  destruct (decide ("Bearer" ≠ "Bearer")) as [Habs|_]; [destruct Habs; reflexivity|].
  monad. rewrite (ValidateToken_ok w token claims e d Hv Hty Hlive Hval Hf).
  unfold AuthHandler.Logout. rewrite lookup_insert_eq.
  unfold authUseCase.Logout. monad.
  set (w2 := mkWorld _ _ _ _ _ _ _ _).
  assert (Hf2 : faults w2 = []) by exact Hf.
  destruct (DeleteToken_frame w2 (entropy w (drawn w)) AccessToken Hf2)
    as (Hok & Hf3 & Hc3 & Hr3).
  destruct (tokenRepository.DeleteToken (entropy w (drawn w)) AccessToken w2)
    as [r w3]; cbn in *. subst r.
  eexists. split; [reflexivity|].
  rewrite (ValidateToken_result svc w3 token claims Hv Hty Hf3).
  unfold cache.lookup_live in *. rewrite Hc3, Hr3.
  - destruct (redis w !! _) as [e0|]; [|discriminate].
    destruct (cache.live (clock w) e0); [|discriminate].
    injection Hlive as ->. rewrite Hval. reflexivity.
  - unfold primaryKey. cbn. intros [= E]. apply Hfresh. symmetry. exact E.
  - intros uid. unfold indexKey. apply access_ne_index.
Qed.
End Http.

Section HttpUsers.
Context `{Libraries}.
Variable svc : tokenService.
Variable uuid_Parse : string -> result UUID.

Hypothesis paseto_roundtrip : forall c f tok,
  paseto_Sign (privateKey svc) c f = Ok tok -> paseto_Verify tok (publicKey svc) = Ok c.


(** X24: [UserHandler.Login] answers 500 for an account that exists
    and is not active, whatever the password; 401 for an unknown
    email or a password that does not match; 200 with the user
    otherwise. The status is tested before the password. *)
Theorem userLogin_tells_inactive_from_unknown w email password :
  dbInstance w = MongoClient ->
  faults w = [] ->
  email ≠ EmptyString ->
  password ≠ EmptyString ->
  fst (UserHandler.Login (Some (mkCredentials email password)) w) =
    match find (mongo.by_email email) (users w) with
    | None => failure StatusUnauthorized "Invalid credentials"
    | Some u =>
      if decide (Status u = UserStatusActive)
      then if utils.CheckPasswordHash password (Password u)
           then mkResponse StatusOK (userFields u)
           else failure StatusUnauthorized "Invalid credentials"
      else failure StatusInternalServerError "Failed to authenticate user"
    end.
Proof.
  intros Hdb Hf He Hp. destruct w as [m us db now ent n fs ev]; simpl in *; subst db fs.
  unfold UserHandler.Login, userUseCase.Authenticate. run_users. cbn.
  destruct (decide (email = EmptyString \/ password = EmptyString)) as [[|]|_];
    [contradiction | contradiction |]. cbn.
  destruct (find (mongo.by_email email) us) as [u|]; cbn; [|reflexivity].
  destruct (decide (Status u = UserStatusActive)) as [Ha|Ha].
  - rewrite bool_decide_eq_false_2 by (intros Hne; apply Hne; exact Ha).
    destruct (utils.CheckPasswordHash password (Password u)); reflexivity.
  - rewrite bool_decide_eq_true_2 by exact Ha. reflexivity.
Qed.

(** X25: [AuthHandler.Login] answers an unknown email and a wrong
    password alike: 401 [Invalid credentials], one error logged,
    nothing else changed. *)
Theorem authLogin_failures_look_alike w email password :
  dbInstance w = MongoClient ->
  faults w = [] ->
  email ≠ EmptyString ->
  password ≠ EmptyString ->
  match find (mongo.by_email email) (users w) with
  | None => True
  | Some u => utils.CheckPasswordHash password (Password u) = false
  end ->
  AuthHandler.Login svc (Some (mkCredentials email password)) w
  = (failure StatusUnauthorized "Invalid credentials",
     with_events (Log ErrorLevel "Failed to login user" :: events w) w).
Proof.
  intros Hdb Hf He Hp Hbad. destruct w as [m us db now ent n fs ev]; simpl in *; subst db fs.
  unfold AuthHandler.Login, authUseCase.Login. run_users. cbn.
  destruct (decide (email = EmptyString \/ password = EmptyString)) as [[|]|_];
    [contradiction | contradiction |]. cbn.
  destruct (find (mongo.by_email email) us) as [u|]; cbn; [|reflexivity].
  rewrite Hbad. reflexivity.
Qed.

(** X26: POST /auth/refresh with a stored refresh token answers 200
    with the new pair; the same token sent again is answered 401, at
    any later instant. *)
Theorem http_refresh_replay_is_401 w d token e atok rtok :
  token ≠ EmptyString ->
  tokenService.createToken svc d = Ok token ->
  td_TokenType d = RefreshToken ->
  cache.lookup_live (redis w) (clock w)
    (tokenRepository.refreshTokenPrefix +:+ TokenID d) = Some (mkEntry (JToken d) e) ->
  faults w = [] ->
  rfc3339_ok (clock w + accessDuration svc) = true ->
  rfc3339_ok (clock w + refreshDuration svc) = true ->
  tokenService.createToken svc
    (mkTokenDetails (entropy w (drawn w)) (td_UserID d) AccessToken
                    (clock w + accessDuration svc)) = Ok atok ->
  tokenService.createToken svc
    (mkTokenDetails (entropy w (S (drawn w))) (td_UserID d) RefreshToken
                    (clock w + refreshDuration svc)) = Ok rtok ->
  exists w1,
    AuthHandler.RefreshToken svc (Some token) w
    = (mkResponse StatusOK
         (tokenFields (mkAuthTokens atok rtok (clock w + accessDuration svc))), w1) /\
    forall t,
      fst (AuthHandler.RefreshToken svc (Some token) (with_clock t w1))
      = failure StatusUnauthorized "Invalid or expired refresh token".
Proof.
  intros Hne Hissued Hty Hlive Hf Hja Hjr Ea Er.
  destruct (RefreshToken_rotates svc paseto_roundtrip w d token e atok rtok
              Hissued Hty Hlive Hf Hja Hjr Ea Er) as (w1 & Hfirst & Hgone & Hf1).
  exists w1. unfold AuthHandler.RefreshToken.
  destruct (decide (token = EmptyString)); [contradiction|]. monad.
  rewrite Hfirst. split; [reflexivity|]. intros t.
  pose proof (RefreshToken_absent svc (with_clock t w1) token _
                (createToken_verifies svc paseto_roundtrip _ _ Hissued) Hty Hf1 Hgone)
    as Habs.
  unfold with_clock in Habs.
  match goal with
  | |- context [authUseCase.RefreshToken svc token ?w0] =>
    destruct (authUseCase.RefreshToken svc token w0) as [r w2]
  end.
  cbn in Habs. subst r. reflexivity.
Qed.

(** X27: the [UpdateStatus] handler refuses only an empty status
    itself. A status other than [active], [inactive], [blocked] for
    an existing user is answered 500, not 400, and no document is
    changed. *)
Theorem http_updateStatus_unknown_is_500 w idParam id u status :
  idParam ≠ EmptyString ->
  uuid_Parse idParam = Ok id ->
  status ≠ EmptyString ->
  ~ knownStatus status ->
  dbInstance w = MongoClient ->
  faults w = [] ->
  cache.lookup_live (redis w) (clock w) (userRepository.userCacheKeyPrefix +:+ id) = None ->
  find (mongo.by_id id) (users w) = Some u ->
  fst (UserHandler.UpdateStatus uuid_Parse idParam (Some status) w)
  = failure StatusInternalServerError "Failed to update status" /\
  users (snd (UserHandler.UpdateStatus uuid_Parse idParam (Some status) w)) = users w.
Proof.
  intros Hne Hparse Hs Hunknown Hdb Hf Hmiss Hfind.
  unfold UserHandler.UpdateStatus, UserHandler.withID, userUseCase.UpdateStatus. monad.
  destruct (decide (idParam = EmptyString)); [contradiction|].
  rewrite Hparse. destruct (decide (status = EmptyString)); [contradiction|].
  rewrite (repo_GetByID_miss w id Hdb Hf Hmiss), Hfind.
  assert (Hcheck : bool_decide (status ≠ UserStatusActive)
                   && bool_decide (status ≠ UserStatusInactive)
                   && bool_decide (status ≠ UserStatusBlocked) = true).
  { unfold knownStatus in Hunknown.
    rewrite !bool_decide_eq_true_2 by (intros ->; tauto). reflexivity. }
  destruct (rfc3339_ok (CreatedAt u) && rfc3339_ok (UpdatedAt u));
    rewrite Hcheck; split; reflexivity.
Qed.

Hypothesis bcrypt_rejects_empty : forall pw,
  utils.CheckPasswordHash pw EmptyString = false.

(** X28: after GET /users/:id has answered 200 and cached the user,
    PUT /users/:id/password is answered 401 [Invalid old password]
    for every pair of non-empty passwords, the right old password
    included. (bcrypt rejects the empty hash.) *)
Theorem http_changePassword_after_get_is_401 w idParam id u :
  idParam ≠ EmptyString ->
  uuid_Parse idParam = Ok id ->
  dbInstance w = MongoClient ->
  faults w = [] ->
  cache.lookup_live (redis w) (clock w) (userRepository.userCacheKeyPrefix +:+ id) = None ->
  find (mongo.by_id id) (users w) = Some u ->
  rfc3339_ok (CreatedAt u) = true ->
  rfc3339_ok (UpdatedAt u) = true ->
  StatusCode (fst (UserHandler.GetByID uuid_Parse idParam w)) = StatusOK /\
  forall oldPassword newPassword,
    oldPassword ≠ EmptyString ->
    newPassword ≠ EmptyString ->
    fst (UserHandler.ChangePassword uuid_Parse idParam (Some (oldPassword, newPassword))
           (snd (UserHandler.GetByID uuid_Parse idParam w)))
    = failure StatusUnauthorized "Invalid old password".
Proof.
  intros Hne Hparse Hdb Hf Hmiss Hfind Hc Hu.
  unfold UserHandler.GetByID, UserHandler.ChangePassword, UserHandler.withID,
    userUseCase.GetByID, userUseCase.ChangePassword. monad.
  destruct (decide (idParam = EmptyString)); [contradiction|].
  rewrite Hparse, (repo_GetByID_miss w id Hdb Hf Hmiss), Hfind, Hc, Hu. cbn.
  split; [reflexivity|]. intros oldPassword newPassword Ho Hn.
  destruct (decide (oldPassword = EmptyString \/ newPassword = EmptyString)) as [[|]|_];
    [contradiction | contradiction |].
  rewrite (repo_GetByID_hit _ id
             (mkEntry (JUser (cachedCopy u))
                      (Some (clock w + userRepository.userCacheTTL))) (cachedCopy u));
    [| reflexivity | | reflexivity].
  - cbn. rewrite bcrypt_rejects_empty. reflexivity.
  - cbn. unfold cache.lookup_live. rewrite lookup_insert_eq.
    unfold cache.live. cbn.
    rewrite bool_decide_eq_true_2 by (pose proof userCacheTTL_positive; lia). reflexivity.
Qed.

(** X29: after POST /users/register was answered 201, a registration
    with that email is answered 409 [Email already exists], and one
    with an unused email and that username 409 [Username already
    exists]. *)
Theorem http_register_conflict w req resp w1 :
  dbInstance w = MongoClient ->
  faults w = [] ->
  UserHandler.Register (Some req) w = (resp, w1) ->
  StatusCode resp = StatusCreated ->
  (forall again,
      rg_Email again = rg_Email req ->
      rg_Username again ≠ EmptyString ->
      rg_Password again ≠ EmptyString ->
      fst (UserHandler.Register (Some again) w1)
      = failure StatusConflict "Email already exists") /\
  (forall again,
      rg_Username again = rg_Username req ->
      rg_Email again ≠ EmptyString ->
      rg_Password again ≠ EmptyString ->
      find (mongo.by_email (rg_Email again)) (users w1) = None ->
      fst (UserHandler.Register (Some again) w1)
      = failure StatusConflict "Username already exists").
Proof.
  clear uuid_Parse bcrypt_rejects_empty paseto_roundtrip svc.
  intros Hdb Hf. unfold UserHandler.Register at 1. monad.
  destruct (decide (rg_Email req = EmptyString \/ rg_Username req = EmptyString \/
                    rg_Password req = EmptyString)) as [|Hfilled];
    [intros [= <- <-]; discriminate|].
  destruct (userUseCase.Register (rg_Email req) (rg_Username req) (rg_Password req)
              (rg_FirstName req) (rg_LastName req) w) as [[user|err] w2] eqn:Hreg.
  2: { destruct (errors_Is err ErrEmailAlreadyExists);
         [intros [= <- <-]; discriminate|].
       destruct (errors_Is err ErrUsernameAlreadyExists);
         intros [= <- <-]; discriminate. }
  intros [= <- <-] _.
  destruct (Register_inv _ _ _ _ _ _ _ _ Hdb Hf Hreg) as (h & _ & Hu & He & Hn & ->).
  assert (Hfe : find (mongo.by_email (rg_Email req)) (users w ++ [user]) = Some user).
  { rewrite find_app_r by exact He. subst user. cbn. unfold mongo.by_email. cbn.
    rewrite bool_decide_eq_true_2 by reflexivity. reflexivity. }
  assert (Hfn : find (mongo.by_username (rg_Username req)) (users w ++ [user]) = Some user).
  { rewrite find_app_r by exact Hn. subst user. cbn. unfold mongo.by_username. cbn.
    rewrite bool_decide_eq_true_2 by reflexivity. reflexivity. }
  split.
  - intros again Hsame Hun Hpw.
    unfold UserHandler.Register, userUseCase.Register. run_users.
    destruct (decide (rg_Email again = EmptyString \/ rg_Username again = EmptyString \/
                      rg_Password again = EmptyString)) as [[Hx|[Hx|Hx]]|_];
      [rewrite Hsame in Hx; tauto | contradiction | contradiction |].
    cbn. rewrite Hsame, Hfe. reflexivity.
  - intros again Hsame Hem Hpw Hnew. cbn in Hnew.
    unfold UserHandler.Register, userUseCase.Register. run_users.
    destruct (decide (rg_Email again = EmptyString \/ rg_Username again = EmptyString \/
                      rg_Password again = EmptyString)) as [[Hx|[Hx|Hx]]|_];
      [contradiction | rewrite Hsame in Hx; tauto | contradiction |].
    cbn. rewrite Hnew. cbn. rewrite Hsame, Hfn. reflexivity.
Qed.
End HttpUsers.


(** ** More of the reference libraries' contract *)

Lemma reference_bcrypt_roundtrip (pw : string) (cost : Z) (h : string) :
  bcrypt_GenerateFromPassword (Libraries := reference.libraries) pw cost = Ok h ->
  bcrypt_CompareHashAndPassword (Libraries := reference.libraries) h pw = Ok tt.
Proof.
  cbn. unfold reference.generate, reference.compare. intros [= <-].
  destruct (decide ("$2a$" +:+ pw = "$2a$" +:+ pw)) as [_|N];
    [reflexivity | contradiction N; reflexivity].
Qed.

Lemma reference_bcrypt_rejects_empty (pw : string) :
  utils.CheckPasswordHash (H := reference.libraries) pw EmptyString = false.
Proof.
  unfold utils.CheckPasswordHash. cbn. unfold reference.compare.
  destruct (decide (EmptyString = "$2a$" +:+ pw)) as [E|_]; [discriminate E | reflexivity].
Qed.

(** ** The further theorems at work on the reference world *)

Lemma store_then_get_witness :
  fst (tokenRepository.StoreAccessToken (H := reference.libraries) reference.fresh
         reference.world0) = Ok tt /\
  forall t,
    fst (tokenRepository.GetToken "a7" AccessToken
           (with_clock t (snd (tokenRepository.StoreAccessToken (H := reference.libraries)
                                 reference.fresh reference.world0)))) =
      if decide (t < 9000) then Ok (Some reference.fresh) else Ok None.
Proof.
  apply (@store_then_get reference.libraries reference.world0 reference.fresh AccessToken).
  - left. reflexivity.
  - reflexivity.
  - vm_compute. reflexivity.
  - vm_compute. reflexivity.
  - vm_compute. discriminate.
Defined.

Lemma logout_revokes_access_only_witness :
  exists w1,
    authUseCase.Logout "a1" (snd reference.session) = (Ok tt, w1) /\
    (forall t, fst (authUseCase.ValidateToken (H := reference.libraries) reference.service
                      reference.access1 (with_clock t w1)) = Err ErrInvalidToken) /\
    (forall id, redis w1 !! (tokenRepository.refreshTokenPrefix +:+ id)
                = redis (snd reference.session) !! (tokenRepository.refreshTokenPrefix +:+ id)).
Proof.
  apply (@logout_revokes_access_only reference.libraries reference.service
           (snd reference.session) reference.access1
           (mkTokenClaims "a1" "u1" AccessToken)
           (mkEntry (JToken reference.a1) (Some 900000005000)) reference.a1).
  - vm_compute. reflexivity.
  - reflexivity.
  - vm_compute. reflexivity.
  - reflexivity.
  - vm_compute. reflexivity.
Defined.

Lemma issued_tokens_keep_their_kind_witness :
  authUseCase.ValidateToken (H := reference.libraries) reference.service
    reference.refresh1 (snd reference.session)
  = (Err ErrInvalidToken, snd reference.session) /\
  authUseCase.RefreshToken (H := reference.libraries) reference.service
    reference.access1 (snd reference.session)
  = (Err ErrInvalidRefreshToken, snd reference.session).
Proof.
  apply (@issued_tokens_keep_their_kind reference.libraries reference.service
           reference_roundtrip reference.world0 "u1"
           (mkAuthTokens reference.access1 reference.refresh1 900000005000)
           reference.a1 reference.r1
           (with_drawn 2 reference.world0)).
  vm_compute. reflexivity.
Defined.

Lemma access_token_validity_window_witness :
  exists resp w1,
    authUseCase.Login (H := reference.libraries) reference.service
      "alice@example.com" "secret" reference.world0 = (Ok resp, w1) /\
    ExpiresAt (lr_AuthTokens resp) = clock reference.world0 + accessDuration reference.service /\
    forall t,
      fst (authUseCase.ValidateToken (H := reference.libraries) reference.service
             (at_AccessToken (lr_AuthTokens resp)) (with_clock t w1)) =
        if decide (t < ExpiresAt (lr_AuthTokens resp)) then Ok (ID reference.alice)
        else Err ErrInvalidToken.
Proof.
  apply (@access_token_validity_window reference.libraries reference.service
           reference_roundtrip reference_signs reference.world0
           "alice@example.com" "secret" reference.alice).
  - reflexivity.
  - reflexivity.
  - vm_compute. reflexivity.
  - vm_compute. reflexivity.
  - vm_compute. reflexivity.
  - vm_compute. reflexivity.
  - vm_compute. split; [reflexivity | discriminate].
Defined.

Lemma refresh_chain_continues_witness :
  exists tokens w1,
    authUseCase.RefreshToken (H := reference.libraries) reference.service
      reference.refresh1 (snd reference.session) = (Ok tokens, w1) /\
    (forall t,
        t < clock (snd reference.session) + accessDuration reference.service ->
        fst (authUseCase.ValidateToken (H := reference.libraries) reference.service
               (at_AccessToken tokens) (with_clock t w1)) = Ok (td_UserID reference.r1)) /\
    exists tokens2 w2,
      authUseCase.RefreshToken (H := reference.libraries) reference.service
        (at_RefreshToken tokens) w1 = (Ok tokens2, w2).
Proof.
  apply (@refresh_chain_continues reference.libraries reference.service
           reference_roundtrip reference_signs (snd reference.session)
           reference.r1 reference.refresh1 (Some 604800000005000)).
  - vm_compute. reflexivity.
  - reflexivity.
  - vm_compute. reflexivity.
  - vm_compute. reflexivity.
  - vm_compute. reflexivity.
  - vm_compute. reflexivity.
  - vm_compute. split; [reflexivity | discriminate].
  - vm_compute. split; [reflexivity | discriminate].
  - vm_compute. discriminate.
Defined.

Lemma tokens_outlive_the_user_witness :
  fst (authUseCase.ValidateToken (H := reference.libraries) reference.service
         reference.access1
         (snd (userUseCase.UpdateStatus (H := reference.libraries) "u1" UserStatusBlocked
                 (snd reference.session))))
  = Ok "u1" /\
  fst (authUseCase.ValidateToken (H := reference.libraries) reference.service
         reference.access1
         (snd (userUseCase.Delete (H := reference.libraries) "u1" (snd reference.session))))
  = Ok "u1".
Proof.
  apply (@tokens_outlive_the_user reference.libraries reference.service
           (snd reference.session) reference.access1
           (mkTokenClaims "a1" "u1" AccessToken)
           (mkEntry (JToken reference.a1) (Some 900000005000)) reference.a1
           UserStatusBlocked).
  - vm_compute. reflexivity.
  - reflexivity.
  - vm_compute. reflexivity.
  - reflexivity.
  - vm_compute. reflexivity.
Defined.

Lemma revoke_undoes_store_witness :
  let revoke :=
    tokenRepository.DeleteToken "a7" AccessToken
      (snd (tokenRepository.StoreAccessToken (H := reference.libraries) reference.fresh
              reference.world0)) in
  fst revoke = Ok tt /\
  redis (snd revoke) !! primaryKey AccessToken "a7" = None /\
  redis (snd revoke) !! indexKey "u1" AccessToken "a7" = None /\
  (redis reference.world0 !! primaryKey AccessToken "a7" = None ->
   redis reference.world0 !! indexKey "u1" AccessToken "a7" = None ->
   redis (snd revoke) = redis reference.world0).
Proof.
  apply (@revoke_undoes_store reference.libraries reference.world0 reference.fresh AccessToken).
  - left. reflexivity.
  - reflexivity.
  - reflexivity.
  - vm_compute. reflexivity.
  - vm_compute. reflexivity.
  - vm_compute. discriminate.
Defined.

Lemma register_rejects_second_witness :
  (forall username' password' firstName' lastName',
      userUseCase.Register (H := reference.libraries) "carol@example.com" username' password'
        firstName' lastName' reference.registered
      = (Err ErrEmailAlreadyExists, reference.registered)) /\
  (forall email' password' firstName' lastName',
      find (mongo.by_email email') (users reference.registered) = None ->
      userUseCase.Register (H := reference.libraries) email' "carol" password'
        firstName' lastName' reference.registered
      = (Err ErrUsernameAlreadyExists, reference.registered)).
Proof.
  apply (@register_rejects_second reference.libraries reference.world0
           "carol@example.com" "carol" "pw" "Carol" "C" reference.carol reference.registered).
  - reflexivity.
  - reflexivity.
  - vm_compute. reflexivity.
Defined.

Lemma register_then_authenticate_witness :
  userUseCase.Authenticate (H := reference.libraries) "carol@example.com" "pw"
    reference.registered = (Ok reference.carol, reference.registered) /\
  (forall password',
      utils.CheckPasswordHash (H := reference.libraries) password'
        (Password reference.carol) = false ->
      userUseCase.Authenticate (H := reference.libraries) "carol@example.com" password'
        reference.registered = (Err ErrInvalidCredentials, reference.registered)).
Proof.
  apply (@register_then_authenticate reference.libraries reference_bcrypt_roundtrip
           reference.world0 "carol@example.com" "carol" "pw" "Carol" "C").
  - reflexivity.
  - reflexivity.
  - vm_compute. reflexivity.
Defined.

Lemma getByID_read_through_witness :
  exists w1,
    userUseCase.GetByID (H := reference.libraries) "u1" reference.world0
    = (Ok reference.alice, w1) /\
    users w1 = users reference.world0 /\
    (forall w2,
        redis w2 = redis w1 ->
        hd false (faults w2) = false ->
        clock w2 < clock reference.world0 + userRepository.userCacheTTL ->
        userUseCase.GetByID (H := reference.libraries) "u1" w2
        = (Ok (cachedCopy reference.alice), with_faults (tl (faults w2)) w2)) /\
    (forall w2,
        redis w2 = redis w1 ->
        dbInstance w2 = MongoClient ->
        faults w2 = [] ->
        clock reference.world0 + userRepository.userCacheTTL <= clock w2 ->
        fst (userUseCase.GetByID (H := reference.libraries) "u1" w2) =
          match find (mongo.by_id "u1") (users w2) with
          | Some v => Ok v
          | None => Err ErrUserNotFound
          end).
Proof.
  apply (@getByID_read_through reference.libraries reference.world0 "u1" reference.alice).
  - reflexivity.
  - reflexivity.
  - vm_compute. reflexivity.
  - vm_compute. reflexivity.
  - vm_compute. reflexivity.
  - vm_compute. reflexivity.
Defined.

Lemma changePassword_fails_once_cached_witness :
  userUseCase.ChangePassword (H := reference.libraries) "u1" "secret" "newsecret"
    reference.warm
  = (Err ErrInvalidCredentials, with_faults (tl (faults reference.warm)) reference.warm).
Proof.
  apply (@changePassword_fails_once_cached reference.libraries reference_bcrypt_rejects_empty
           reference.world0 "u1" reference.alice).
  - reflexivity.
  - reflexivity.
  - vm_compute. reflexivity.
  - vm_compute. reflexivity.
  - vm_compute. reflexivity.
  - vm_compute. reflexivity.
  - reflexivity.
  - vm_compute. reflexivity.
  - vm_compute. reflexivity.
Defined.

Lemma changePassword_then_authenticate_witness :
  exists w1,
    userUseCase.ChangePassword (H := reference.libraries) "u1" "secret" "newsecret"
      reference.world0 = (Ok tt, w1) /\
    redis w1 !! (userRepository.userCacheKeyPrefix +:+ "u1") = None /\
    userUseCase.Authenticate (H := reference.libraries) (Email reference.alice) "newsecret" w1
    = (Ok (mkUser (ID reference.alice) (Email reference.alice) (Username reference.alice)
                  "$2a$newsecret" (FirstName reference.alice) (LastName reference.alice)
                  (Role reference.alice) (Status reference.alice)
                  (CreatedAt reference.alice) (clock reference.world0)), w1).
Proof.
  apply (@changePassword_then_authenticate reference.libraries reference_bcrypt_roundtrip
           reference.world0 "u1" reference.alice "secret" "newsecret" "$2a$newsecret").
  - reflexivity.
  - reflexivity.
  - vm_compute. reflexivity.
  - vm_compute. reflexivity.
  - vm_compute. reflexivity.
  - reflexivity.
  - vm_compute. reflexivity.
  - vm_compute. reflexivity.
Defined.

Lemma statuses_stay_known_witness :
  (forall email username password firstName lastName,
      Forall (fun u => knownStatus (Status u))
             (users (snd (userUseCase.Register (H := reference.libraries) email username
                            password firstName lastName reference.world0)))) /\
  (forall id status,
      Forall (fun u => knownStatus (Status u))
             (users (snd (userUseCase.UpdateStatus (H := reference.libraries) id status
                            reference.world0)))) /\
  (forall id oldPassword newPassword,
      Forall (fun u => knownStatus (Status u))
             (users (snd (userUseCase.ChangePassword (H := reference.libraries) id
                            oldPassword newPassword reference.world0)))) /\
  (forall id,
      Forall (fun u => knownStatus (Status u))
             (users (snd (userUseCase.Delete (H := reference.libraries) id
                            reference.world0)))).
Proof.
  apply (@statuses_stay_known reference.libraries reference.world0).
  simpl. apply Forall_cons. split; [left; reflexivity|].
  apply Forall_cons. split; [right; left; reflexivity|]. apply Forall_nil. exact I.
Defined.

Lemma update_writes_back_cached_copy_witness :
  find (mongo.by_id "u1") (users reference.blockedStale) = Some reference.blockedAlice /\
  fst (userUseCase.Update (H := reference.libraries) "u1" "Alicia" "A" reference.blockedStale)
  = Ok (mkUser "u1" (Email (cachedCopy reference.alice)) (Username (cachedCopy reference.alice))
               (Password (cachedCopy reference.alice)) "Alicia" "A"
               (Role (cachedCopy reference.alice)) (Status (cachedCopy reference.alice))
               (CreatedAt (cachedCopy reference.alice)) (clock reference.blockedStale)) /\
  find (mongo.by_id "u1")
       (users (snd (userUseCase.Update (H := reference.libraries) "u1" "Alicia" "A"
                      reference.blockedStale)))
  = Some (mkUser (ID reference.blockedAlice) (Email reference.blockedAlice)
                 (Username reference.blockedAlice) (Password reference.blockedAlice)
                 "Alicia" "A"
                 (Role (cachedCopy reference.alice)) (Status (cachedCopy reference.alice))
                 (CreatedAt reference.blockedAlice) (clock reference.blockedStale)).
Proof.
  split; [vm_compute; reflexivity|].
  apply (@update_writes_back_cached_copy reference.libraries reference.blockedStale "u1"
           (mkEntry (JUser (cachedCopy reference.alice))
                    (Some (5000 + userRepository.userCacheTTL)))
           (cachedCopy reference.alice) reference.blockedAlice "Alicia" "A").
  - vm_compute. reflexivity.
  - vm_compute. reflexivity.
  - vm_compute. reflexivity.
  - reflexivity.
  - reflexivity.
  - vm_compute. reflexivity.
  - reflexivity.
  - reflexivity.
Defined.

Lemma delete_then_not_found_witness :
  let w1 := snd (userUseCase.Delete (H := reference.libraries) "u1" reference.world0) in
  (forall t, fst (userUseCase.GetByID (H := reference.libraries) "u1" (with_clock t w1))
             = Err ErrUserNotFound) /\
  (forall id', id' ≠ "u1" ->
      find (mongo.by_id id') (users w1) = find (mongo.by_id id') (users reference.world0)).
Proof.
  apply (@delete_then_not_found reference.libraries reference.world0 "u1").
  - reflexivity.
  - reflexivity.
  - apply (bool_decide_unpack _). vm_compute. exact I.
  - vm_compute. reflexivity.
Defined.

Lemma authenticate_only_active_witness :
  reference.alice ∈ users reference.world0 /\
  Email reference.alice = "alice@example.com" /\
  Status reference.alice = UserStatusActive /\
  utils.CheckPasswordHash (H := reference.libraries) "secret" (Password reference.alice)
  = true /\
  users reference.world0 = users reference.world0 /\
  redis reference.world0 = redis reference.world0.
Proof.
  apply (@authenticate_only_active reference.libraries reference.world0
           "alice@example.com" "secret" reference.alice reference.world0).
  vm_compute. reflexivity.
Defined.

Lemma list_pages_cover_witness :
  let pageUsers (p : nat) :=
    match fst (userUseCase.List (Z.of_nat p) 2 reference.registered) with
    | Ok (us, _) => us
    | Err _ => []
    end in
  let walked := concat (map pageUsers (seq 1 2)) in
  walked = take (2 * Z.to_nat 2) (mongo.sort_desc (users reference.registered)) /\
  Sorted (fun a b => CreatedAt b <= CreatedAt a) walked /\
  ((length (users reference.registered) <= 2 * Z.to_nat 2)%nat ->
   walked ≡ₚ users reference.registered).
Proof.
  apply (@list_pages_cover reference.registered 2 2).
  - vm_compute. reflexivity.
  - vm_compute. reflexivity.
  - vm_compute. discriminate.
  - vm_compute. reflexivity.
Defined.

Lemma list_answers_at_most_100_witness :
  exists items total p l,
    Body (fst (UserHandler.List 0 1000 reference.world0)) =
      [("users", JArray items); ("total", JNumber total);
       ("page", JNumber p); ("limit", JNumber l)] /\
    1 <= p /\ 1 <= l <= 100 /\
    Z.of_nat (length items) <= l /\
    users (snd (UserHandler.List 0 1000 reference.world0)) = users reference.world0 /\
    redis (snd (UserHandler.List 0 1000 reference.world0)) = redis reference.world0.
Proof.
  apply (@list_answers_at_most_100 reference.world0 0 1000
           (fst (UserHandler.List 0 1000 reference.world0))
           (snd (UserHandler.List 0 1000 reference.world0))).
  - vm_compute. reflexivity.
  - vm_compute. reflexivity.
Defined.

Lemma list_page_overflow_witness :
  fst (UserHandler.List 9223372036854775807 10 reference.world0)
  = failure StatusInternalServerError "Failed to list users".
Proof.
  apply (@list_page_overflow reference.world0 9223372036854775807 10).
  - reflexivity.
  - reflexivity.
  - vm_compute. discriminate.
  - vm_compute. split; discriminate.
  - vm_compute. reflexivity.
Defined.

Lemma authMiddleware_admits_only_valid_bearer_witness :
  exists token userID,
    reference.bearer1 = "Bearer " +:+ token /\
    fst (authUseCase.ValidateToken (H := reference.libraries) reference.service token
           (snd reference.session)) = Ok userID /\
    (<["token_id" := LocalUUID "a2"]> (<["user_id" := LocalUUID "u1"]> ∅)
      : gmap string local) !! "user_id" = Some (LocalUUID userID) /\
    redis (snd (middleware.AuthMiddleware (H := reference.libraries) reference.service
                  reference.bearer1 ∅ (snd reference.session)))
    = redis (snd reference.session) /\
    users (snd (middleware.AuthMiddleware (H := reference.libraries) reference.service
                  reference.bearer1 ∅ (snd reference.session)))
    = users (snd reference.session).
Proof.
  apply (@authMiddleware_admits_only_valid_bearer reference.libraries reference.service
           (snd reference.session) reference.bearer1 ∅).
  vm_compute. reflexivity.
Defined.

Lemma roleMiddleware_denies_behind_auth_witness :
  middleware.RoleMiddleware ["admin"; "user"]
    (<["token_id" := LocalUUID "a2"]> (<["user_id" := LocalUUID "u1"]> ∅))
  = Respond (failure StatusForbidden "Access denied").
Proof.
  apply (@roleMiddleware_denies_behind_auth reference.libraries reference.service
           (snd reference.session) reference.bearer1 ∅
           (<["token_id" := LocalUUID "a2"]> (<["user_id" := LocalUUID "u1"]> ∅))
           (snd (middleware.AuthMiddleware (H := reference.libraries) reference.service
                   reference.bearer1 ∅ (snd reference.session)))).
  - reflexivity.
  - vm_compute. reflexivity.
Defined.

Lemma http_logout_leaves_token_valid_witness :
  exists w1,
    AuthHandler.postLogout (H := reference.libraries) reference.service
      ("Bearer " +:+ reference.access1) (snd reference.session)
    = (message StatusOK "Successfully logged out", w1) /\
    fst (authUseCase.ValidateToken (H := reference.libraries) reference.service
           reference.access1 w1) = Ok "u1".
Proof.
  apply (@http_logout_leaves_token_valid reference.libraries reference.service
           (snd reference.session) reference.access1
           (mkTokenClaims "a1" "u1" AccessToken)
           (mkEntry (JToken reference.a1) (Some 900000005000)) reference.a1).
  - vm_compute. reflexivity.
  - reflexivity.
  - vm_compute. reflexivity.
  - reflexivity.
  - vm_compute. reflexivity.
  - vm_compute. reflexivity.
  - vm_compute. discriminate.
Defined.


Lemma userLogin_tells_inactive_from_unknown_witness :
  fst (UserHandler.Login (H := reference.libraries)
         (Some (mkCredentials "bob@example.com" "hunter2")) reference.world0)
  = failure StatusInternalServerError "Failed to authenticate user" /\
  fst (UserHandler.Login (H := reference.libraries)
         (Some (mkCredentials "nobody@example.com" "hunter2")) reference.world0)
  = failure StatusUnauthorized "Invalid credentials".
Proof.
  split.
  - rewrite (@userLogin_tells_inactive_from_unknown reference.libraries reference.world0
               "bob@example.com" "hunter2");
      [vm_compute; reflexivity | reflexivity | reflexivity | discriminate | discriminate].
  - rewrite (@userLogin_tells_inactive_from_unknown reference.libraries reference.world0
               "nobody@example.com" "hunter2");
      [vm_compute; reflexivity | reflexivity | reflexivity | discriminate | discriminate].
Defined.

Lemma authLogin_failures_look_alike_witness :
  AuthHandler.Login (H := reference.libraries) reference.service
    (Some (mkCredentials "alice@example.com" "wrong")) reference.world0
  = (failure StatusUnauthorized "Invalid credentials",
     with_events (Log ErrorLevel "Failed to login user" :: events reference.world0)
       reference.world0).
Proof.
  apply (@authLogin_failures_look_alike reference.libraries reference.service
           reference.world0 "alice@example.com" "wrong").
  - reflexivity.
  - reflexivity.
  - discriminate.
  - discriminate.
  - vm_compute. reflexivity.
Defined.

Lemma http_refresh_replay_is_401_witness :
  exists w1,
    AuthHandler.RefreshToken (H := reference.libraries) reference.service
      (Some reference.refresh1) (snd reference.session)
    = (mkResponse StatusOK
         (tokenFields (mkAuthTokens reference.access2 reference.refresh2
                         (clock (snd reference.session) + accessDuration reference.service))),
       w1) /\
    forall t,
      fst (AuthHandler.RefreshToken (H := reference.libraries) reference.service
             (Some reference.refresh1) (with_clock t w1))
      = failure StatusUnauthorized "Invalid or expired refresh token".
Proof.
  apply (@http_refresh_replay_is_401 reference.libraries reference.service
           reference_roundtrip (snd reference.session) reference.r1 reference.refresh1
           (Some 604800000005000) reference.access2 reference.refresh2).
  - discriminate.
  - vm_compute. reflexivity.
  - reflexivity.
  - vm_compute. reflexivity.
  - vm_compute. reflexivity.
  - vm_compute. reflexivity.
  - vm_compute. reflexivity.
  - vm_compute. reflexivity.
  - vm_compute. reflexivity.
Defined.

Lemma http_updateStatus_unknown_is_500_witness :
  fst (UserHandler.UpdateStatus (H := reference.libraries) reference.parse "u1"
         (Some "deleted") reference.world0)
  = failure StatusInternalServerError "Failed to update status" /\
  users (snd (UserHandler.UpdateStatus (H := reference.libraries) reference.parse "u1"
                (Some "deleted") reference.world0))
  = users reference.world0.
Proof.
  apply (@http_updateStatus_unknown_is_500 reference.libraries reference.parse
           reference.world0 "u1" "u1" reference.alice "deleted").
  - discriminate.
  - vm_compute. reflexivity.
  - discriminate.
  - unfold knownStatus. intros [E|[E|E]]; discriminate E.
  - reflexivity.
  - reflexivity.
  - vm_compute. reflexivity.
  - vm_compute. reflexivity.
Defined.

Lemma http_changePassword_after_get_is_401_witness :
  StatusCode (fst (UserHandler.GetByID (H := reference.libraries) reference.parse "u1"
                     reference.world0)) = StatusOK /\
  forall oldPassword newPassword,
    oldPassword ≠ EmptyString ->
    newPassword ≠ EmptyString ->
    fst (UserHandler.ChangePassword (H := reference.libraries) reference.parse "u1"
           (Some (oldPassword, newPassword))
           (snd (UserHandler.GetByID (H := reference.libraries) reference.parse "u1"
                   reference.world0)))
    = failure StatusUnauthorized "Invalid old password".
Proof.
  apply (@http_changePassword_after_get_is_401 reference.libraries reference.parse
           reference_bcrypt_rejects_empty reference.world0 "u1" "u1" reference.alice).
  - discriminate.
  - vm_compute. reflexivity.
  - reflexivity.
  - reflexivity.
  - vm_compute. reflexivity.
  - vm_compute. reflexivity.
  - vm_compute. reflexivity.
  - vm_compute. reflexivity.
Defined.

Lemma http_register_conflict_witness :
  (forall again,
      rg_Email again = "carol@example.com" ->
      rg_Username again ≠ EmptyString ->
      rg_Password again ≠ EmptyString ->
      fst (UserHandler.Register (H := reference.libraries) (Some again) reference.registered)
      = failure StatusConflict "Email already exists") /\
  (forall again,
      rg_Username again = "carol" ->
      rg_Email again ≠ EmptyString ->
      rg_Password again ≠ EmptyString ->
      find (mongo.by_email (rg_Email again)) (users reference.registered) = None ->
      fst (UserHandler.Register (H := reference.libraries) (Some again) reference.registered)
      = failure StatusConflict "Username already exists").
Proof.
  apply (@http_register_conflict reference.libraries reference.world0
           (mkRegistration "carol@example.com" "carol" "pw" "Carol" "C")
           (mkResponse StatusCreated
              (userFields reference.carol ++ [("created_at", JTime 5000)]))
           reference.registered).
  - reflexivity.
  - reflexivity.
  - vm_compute. reflexivity.
  - reflexivity.
Defined.
